(** * fake-pinterest: the Express/Mongoose API server, embedded in Rocq

  The development follows the server sources:

  - [server/routes/images.js]      image routes (multer set-up, URL check,
                                   list / search / create / delete);
  - [server/middleware/authMiddleware.js]  [ensureAuthenticated], ...;
  - [server/routes/auth.js]        [POST /firebase-auth], [GET /user];
  - [server/models/User.js], [server/models/Image.js]  the two schemas;
  - [server/server.js]             the global error handler.

  Handlers are written in explicit state-passing style: the data base,
  the uploads directory and the session of the request are arguments and
  results.  Services that live outside the repository (token verification,
  the remote host answering HEAD, the text index of the data base) are
  the fields of a record the handlers take as an argument.

  Text is [string]; a character stands for one code unit, and the model
  covers text whose code units are below 256. *)

From Stdlib Require Import String Ascii List ZArith Lia Bool Arith.
From Stdlib Require Import Sorting.Sorted Sorting.Permutation DecimalString.
Import ListNotations.

Local Open Scope string_scope.
Local Open Scope Z_scope.

Set Warnings "-register-all".

(** ** JavaScript string helpers *)

Module Js.

(** [s.startsWith(p)] *)
Definition startsWith (s p : string) : bool := String.prefix p s.

(** [s.includes(p)] *)
Fixpoint includes (s p : string) : bool :=
  String.prefix p s ||
  match s with
  | EmptyString => false
  | String _ s' => includes s' p
  end.

(** [s.split(sep)] for a non-empty separator: the pieces between the
    successive, non-overlapping occurrences of [sep], scanned from the
    left.  [skip] counts the characters of a separator that was just
    recognised and is still to be stepped over; [cur] is the piece being
    built, last character first. *)
Fixpoint rev_string (acc s : string) : string :=
  match s with
  | EmptyString => acc
  | String c s' => rev_string (String c acc) s'
  end.

Fixpoint split_go (sep s : string) (skip : nat) (cur : string) : list string :=
  match s with
  | EmptyString => [rev_string "" cur]
  | String c s' =>
      match skip with
      | S k => split_go sep s' k cur
      | O =>
          if String.prefix sep s
          then rev_string "" cur :: split_go sep s' (String.length sep - 1) ""
          else split_go sep s' O (String c cur)
      end
  end.

Definition split (s sep : string) : list string := split_go sep s O "".

(** White space as [String.prototype.trim] sees it, for code units below
    256: TAB, LF, VT, FF, CR, SPACE and NBSP. *)
Definition is_space (c : ascii) : bool :=
  let n := nat_of_ascii c in
  ((9 <=? n) && (n <=? 13) || (n =? 32) || (n =? 160))%nat.

Fixpoint trimStart (s : string) : string :=
  match s with
  | EmptyString => EmptyString
  | String c s' => if is_space c then trimStart s' else s
  end.

(** [trimEnd] keeps a character when it is not a space or when something
    is left after it. *)
Fixpoint trimEnd (s : string) : string :=
  match s with
  | EmptyString => EmptyString
  | String c s' =>
      match trimEnd s' with
      | EmptyString => if is_space c then EmptyString else String c EmptyString
      | t => String c t
      end
  end.

Definition trim (s : string) : string := trimEnd (trimStart s).

(** [s.toLowerCase()] for code units below 256: the letters A-Z and the
    capital letters of Latin-1, 192 to 222 without the multiplication sign
    215, are moved up by 32; everything else stays. *)
Definition lower_char (c : ascii) : ascii :=
  let n := nat_of_ascii c in
  if ((65 <=? n) && (n <=? 90))%nat then ascii_of_nat (n + 32)
  else if ((192 <=? n) && (n <=? 222) && negb (n =? 215))%nat
  then ascii_of_nat (n + 32)
  else c.

Fixpoint toLowerCase (s : string) : string :=
  match s with
  | EmptyString => EmptyString
  | String c s' => String (lower_char c) (toLowerCase s')
  end.

(** Truthiness of a value that is either [undefined] or a string. *)
Definition truthy (v : option string) : bool :=
  match v with
  | Some s => negb (String.eqb s "")
  | None => false
  end.

(** [v || d] for such a value. *)
Definition or_else (v : option string) (d : string) : string :=
  match v with
  | Some s => if String.eqb s "" then d else s
  | None => d
  end.

End Js.

(** ** Regular expressions

  The two patterns of the sources are kept as syntax trees and run by a
  derivative matcher. *)

Module Regex.

Inductive citem : Type :=
| CChar (c : ascii)          (* a literal character *)
| CWord.                     (* \w : [A-Za-z0-9_] *)

Inductive re : Type :=
| Void                       (* matches nothing *)
| Eps                        (* matches the empty string *)
| Class (items : list citem) (* [...] ; a literal is a one-item class *)
| Cat (a b : re)
| Alt (a b : re)
| Star (a : re).

Definition Lit (c : ascii) : re := Class [CChar c].
Definition Opt (a : re) : re := Alt a Eps.          (* a? *)
Definition Plus (a : re) : re := Cat a (Star a).    (* a+ *)

Definition is_word (c : ascii) : bool :=
  let n := nat_of_ascii c in
  ((48 <=? n) && (n <=? 57) || (65 <=? n) && (n <=? 90)
   || (97 <=? n) && (n <=? 122) || (n =? 95))%nat.

Definition item_has (c : ascii) (i : citem) : bool :=
  match i with
  | CChar d => Ascii.eqb c d
  | CWord => is_word c
  end.

Definition class_has (c : ascii) (items : list citem) : bool :=
  existsb (item_has c) items.

Definition citem_eqb (i j : citem) : bool :=
  match i, j with
  | CChar c, CChar d => Ascii.eqb c d
  | CWord, CWord => true
  | _, _ => false
  end.

Fixpoint items_eqb (l m : list citem) : bool :=
  match l, m with
  | [], [] => true
  | i :: l', j :: m' => citem_eqb i j && items_eqb l' m'
  | _, _ => false
  end.

Fixpoint re_eqb (r s : re) : bool :=
  match r, s with
  | Void, Void => true
  | Eps, Eps => true
  | Class l, Class m => items_eqb l m
  | Cat a b, Cat c d => re_eqb a c && re_eqb b d
  | Alt a b, Alt c d => re_eqb a c && re_eqb b d
  | Star a, Star c => re_eqb a c
  | _, _ => false
  end.

Fixpoint nullable (r : re) : bool :=
  match r with
  | Void => false
  | Eps => true
  | Class _ => false
  | Cat a b => nullable a && nullable b
  | Alt a b => nullable a || nullable b
  | Star _ => true
  end.

(** Constructors that keep derivatives small. *)
Definition cat (a b : re) : re :=
  match a, b with
  | Void, _ => Void
  | _, Void => Void
  | Eps, _ => b
  | _, Eps => a
  | _, _ => Cat a b
  end.

Definition alt (a b : re) : re :=
  match a, b with
  | Void, _ => b
  | _, Void => a
  | _, _ => if re_eqb a b then a else Alt a b
  end.

Fixpoint deriv (c : ascii) (r : re) : re :=
  match r with
  | Void => Void
  | Eps => Void
  | Class items => if class_has c items then Eps else Void
  | Cat a b =>
      if nullable a
      then alt (cat (deriv c a) b) (deriv c b)
      else cat (deriv c a) b
  | Alt a b => alt (deriv c a) (deriv c b)
  | Star a => cat (deriv c a) (Star a)
  end.

(** The whole string is in the language of [r]: [/^r$/.test(s)]. *)
Fixpoint matches (r : re) (s : string) : bool :=
  match s with
  | EmptyString => nullable r
  | String c s' => matches (deriv c r) s'
  end.

(** Some prefix of the string is in the language of [r]: [/^r/.test(s)]. *)
Fixpoint matches_prefix (r : re) (s : string) : bool :=
  nullable r ||
  match s with
  | EmptyString => false
  | String c s' => matches_prefix (deriv c r) s'
  end.

Fixpoint lits (s : string) : re :=
  match s with
  | EmptyString => Eps
  | String c s' => Cat (Lit c) (lits s')
  end.

(** The characters an expression can consume at all. *)
Fixpoint uses (r : re) (c : ascii) : bool :=
  match r with
  | Void | Eps => false
  | Class items => class_has c items
  | Cat a b | Alt a b => uses a c || uses b c
  | Star a => uses a c
  end.

Fixpoint all_chars (p : ascii -> bool) (s : string) : bool :=
  match s with
  | EmptyString => true
  | String c s' => p c && all_chars p s'
  end.

End Regex.

(** ** JSON text

    [JSON.parse] on the grammar of ECMA-404.  A string literal whose
    [\u] escapes leave the modelled range of code units is kept as [Wide],
    without its contents; a number keeps its literal. *)

Module Json.

Inductive text : Type :=
| Text (s : string)
| Wide.

Inductive value : Type :=
| JNull
| JBool (b : bool)
| JNum (literal : string)
| JStr (t : text)
| JArr (items : list value)
| JObj (members : list (text * value)).

Definition is_ws (c : ascii) : bool :=
  let n := nat_of_ascii c in
  ((n =? 9) || (n =? 10) || (n =? 13) || (n =? 32))%nat.

Fixpoint skip_ws (s : string) : string :=
  match s with
  | EmptyString => EmptyString
  | String c s' => if is_ws c then skip_ws s' else s
  end.

Definition is_digit (c : ascii) : bool :=
  let n := nat_of_ascii c in ((48 <=? n) && (n <=? 57))%nat.

Definition hex_val (c : ascii) : option nat :=
  let n := nat_of_ascii c in
  if ((48 <=? n) && (n <=? 57))%nat then Some (n - 48)%nat
  else if ((65 <=? n) && (n <=? 70))%nat then Some (n - 55)%nat
  else if ((97 <=? n) && (n <=? 102))%nat then Some (n - 87)%nat
  else None.

Definition hex4 (a b c d : ascii) : option nat :=
  match hex_val a, hex_val b, hex_val c, hex_val d with
  | Some x, Some y, Some z, Some w => Some (((x * 16 + y) * 16 + z) * 16 + w)%nat
  | _, _, _, _ => None
  end.

(** The character a one-letter escape stands for. *)
Definition unescape (e : ascii) : option ascii :=
  match nat_of_ascii e with
  | 34%nat => Some (ascii_of_nat 34)     (* quote *)
  | 92%nat => Some (ascii_of_nat 92)     (* backslash *)
  | 47%nat => Some (ascii_of_nat 47)     (* slash *)
  | 98%nat => Some (ascii_of_nat 8)      (* backspace *)
  | 102%nat => Some (ascii_of_nat 12)    (* form feed *)
  | 110%nat => Some (ascii_of_nat 10)    (* line feed *)
  | 114%nat => Some (ascii_of_nat 13)    (* carriage return *)
  | 116%nat => Some (ascii_of_nat 9)     (* tab *)
  | _ => None
  end.

(** The characters of a string literal, after its opening quote; [acc] is
    the decoded text so far, last character first. *)
Fixpoint parse_chars (s acc : string) (wide : bool) : option (text * string) :=
  match s with
  | EmptyString => None
  | String c rest =>
      if Ascii.eqb c (ascii_of_nat 34) then
        Some (if wide then Wide else Text (Js.rev_string "" acc), rest)
      else if Ascii.eqb c (ascii_of_nat 92) then
        match rest with
        | EmptyString => None
        | String e rest' =>
            if Ascii.eqb e "u"%char then
              match rest' with
              | String h1 (String h2 (String h3 (String h4 rest''))) =>
                  match hex4 h1 h2 h3 h4 with
                  | Some n =>
                      if (n <? 256)%nat
                      then parse_chars rest'' (String (ascii_of_nat n) acc) wide
                      else parse_chars rest'' acc true
                  | None => None
                  end
              | _ => None
              end
            else
              match unescape e with
              | Some ch => parse_chars rest' (String ch acc) wide
              | None => None
              end
        end
      else if (nat_of_ascii c <? 32)%nat then None
      else parse_chars rest (String c acc) wide
  end.

Fixpoint span_digits (s : string) : string * string :=
  match s with
  | EmptyString => (EmptyString, EmptyString)
  | String c s' =>
      if is_digit c
      then let (ds, r) := span_digits s' in (String c ds, r)
      else (EmptyString, s)
  end.

(** A number literal: an optional minus sign; zero, or a non-zero digit
    and more digits; an optional fraction; an optional exponent. *)
Definition parse_number (s : string) : option (string * string) :=
  let (sign, s1) :=
    match s with
    | String "-"%char r => ("-", r)
    | _ => ("", s)
    end in
  let int_part :=
    match s1 with
    | String c r =>
        if Ascii.eqb c "0"%char then Some ("0", r)
        else if is_digit c
        then let (ds, r') := span_digits r in Some (String c ds, r')
        else None
    | EmptyString => None
    end in
  match int_part with
  | None => None
  | Some (ip, s2) =>
      let frac_part :=
        match s2 with
        | String "."%char r =>
            let (ds, r') := span_digits r in
            if String.eqb ds "" then None else Some ("." ++ ds, r')
        | _ => Some ("", s2)
        end in
      match frac_part with
      | None => None
      | Some (fp, s3) =>
          let exp_part :=
            match s3 with
            | String e r =>
                if Ascii.eqb e "e"%char || Ascii.eqb e "E"%char then
                  let (sg, r1) :=
                    match r with
                    | String "+"%char r1 => ("+", r1)
                    | String "-"%char r1 => ("-", r1)
                    | _ => ("", r)
                    end in
                  let (ds, r2) := span_digits r1 in
                  if String.eqb ds "" then None
                  else Some (String e sg ++ ds, r2)
                else Some ("", s3)
            | EmptyString => Some ("", s3)
            end in
          match exp_part with
          | None => None
          | Some (ep, s4) => Some (sign ++ ip ++ fp ++ ep, s4)
          end
      end
  end.

Fixpoint drop (n : nat) (s : string) : string :=
  match n, s with
  | S k, String _ s' => drop k s'
  | _, _ => s
  end.

(** One value, after optional white space; every level of nesting and
    every element uses up fuel. *)
Fixpoint parse_value (fuel : nat) (s : string) : option (value * string) :=
  match fuel with
  | O => None
  | S fuel' =>
      match skip_ws s with
      | EmptyString => None
      | String c r as s0 =>
          if Ascii.eqb c "["%char then
            match skip_ws r with
            | String "]"%char r' => Some (JArr [], r')
            | _ => parse_items fuel' r []
            end
          else if Ascii.eqb c "{"%char then
            match skip_ws r with
            | String "}"%char r' => Some (JObj [], r')
            | _ => parse_members fuel' r []
            end
          else if Ascii.eqb c (ascii_of_nat 34) then
            match parse_chars r "" false with
            | Some (t, r') => Some (JStr t, r')
            | None => None
            end
          else if String.prefix "true" s0 then Some (JBool true, drop 4 s0)
          else if String.prefix "false" s0 then Some (JBool false, drop 5 s0)
          else if String.prefix "null" s0 then Some (JNull, drop 4 s0)
          else
            match parse_number s0 with
            | Some (lit, r') => Some (JNum lit, r')
            | None => None
            end
      end
  end
with parse_items (fuel : nat) (s : string) (acc : list value)
  : option (value * string) :=
  match fuel with
  | O => None
  | S fuel' =>
      match parse_value fuel' s with
      | None => None
      | Some (v, r) =>
          match skip_ws r with
          | String ","%char r' => parse_items fuel' r' (v :: acc)
          | String "]"%char r' => Some (JArr (rev (v :: acc)), r')
          | _ => None
          end
      end
  end
with parse_members (fuel : nat) (s : string) (acc : list (text * value))
  : option (value * string) :=
  match fuel with
  | O => None
  | S fuel' =>
      match skip_ws s with
      | String q r =>
          if Ascii.eqb q (ascii_of_nat 34) then
            match parse_chars r "" false with
            | None => None
            | Some (k, r1) =>
                match skip_ws r1 with
                | String ":"%char r2 =>
                    match parse_value fuel' r2 with
                    | None => None
                    | Some (v, r3) =>
                        match skip_ws r3 with
                        | String ","%char r4 =>
                            parse_members fuel' r4 ((k, v) :: acc)
                        | String "}"%char r4 =>
                            Some (JObj (rev ((k, v) :: acc)), r4)
                        | _ => None
                        end
                    end
                | _ => None
                end
            end
          else None
      | EmptyString => None
      end
  end.

(** [JSON.parse(s)]: [None] stands for the [SyntaxError] it throws. *)
Definition parse (s : string) : option value :=
  match parse_value (2 * String.length s + 2) s with
  | Some (v, r) =>
      match skip_ws r with
      | EmptyString => Some v
      | _ => None
      end
  | None => None
  end.

(** The value as an array of plain strings, when it is one. *)
Fixpoint strings_of (items : list value) : option (list string) :=
  match items with
  | [] => Some []
  | JStr (Text s) :: rest =>
      match strings_of rest with
      | Some l => Some (s :: l)
      | None => None
      end
  | _ => None
  end.

(** The JSON text of a string that needs no escapes. *)
Definition quoted (s : string) : string :=
  String (ascii_of_nat 34) (s ++ String (ascii_of_nat 34) "").

Definition as_string_array (v : value) : option (list string) :=
  match v with
  | JArr items => strings_of items
  | _ => None
  end.

(** [JSON.stringify] on an array of strings.  A code unit is written as
    it is, but for the quote and the backslash, which get a backslash in
    front, and the code units below 32, which get their one-letter escape
    or, where there is none, [\u00] and two lower-case hexadecimal
    digits. *)
Definition hex_digit (n : nat) : ascii :=
  if (n <? 10)%nat then ascii_of_nat (48 + n) else ascii_of_nat (87 + n).

Definition escape_char (c : ascii) : string :=
  let n := nat_of_ascii c in
  let backslash := ascii_of_nat 92 in
  match n with
  | 8%nat => String backslash "b"
  | 9%nat => String backslash "t"
  | 10%nat => String backslash "n"
  | 12%nat => String backslash "f"
  | 13%nat => String backslash "r"
  | 34%nat => String backslash (String (ascii_of_nat 34) "")
  | 92%nat => String backslash (String backslash "")
  | _ =>
      if (n <? 32)%nat
      then String backslash
             ("u00" ++ String (hex_digit (n / 16))
                         (String (hex_digit (n mod 16)) ""))
      else String c ""
  end.

Fixpoint escape (s : string) : string :=
  match s with
  | EmptyString => EmptyString
  | String c s' => escape_char c ++ escape s'
  end.

Definition quote (s : string) : string :=
  String (ascii_of_nat 34) (escape s ++ String (ascii_of_nat 34) "").

Definition stringify_strings (l : list string) : string :=
  "[" ++ String.concat "," (map quote l) ++ "]".

End Json.

(** ** The two schemas *)

Definition ObjectId := nat.

(** [server/models/User.js] *)
Module User.

Inductive Role : Type := user | admin.     (* enum: ['user', 'admin'] *)

Definition Role_eqb (a b : Role) : bool :=
  match a, b with
  | user, user => true
  | admin, admin => true
  | _, _ => false
  end.

Record doc : Type := mk {
  _id : ObjectId;
  firebaseUid : string;              (* required, unique *)
  githubId : option string;          (* unique, sparse *)
  email : option string;
  username : string;                 (* required *)
  displayName : option string;
  profileUrl : option string;
  avatarUrl : option string;
  createdAt : Z;
  role : Role                        (* default: 'user' *)
}.

(** The virtual [isAdmin]: a getter only. *)
Definition isAdmin (u : doc) : bool := Role_eqb (role u) admin.

(** What [populate('user', 'username displayName avatarUrl')] keeps. *)
Record projection : Type := mkProjection {
  p_id : ObjectId;
  p_username : string;
  p_displayName : option string;
  p_avatarUrl : option string
}.

Definition project (u : doc) : projection :=
  mkProjection (_id u) (username u) (displayName u) (avatarUrl u).

End User.

(** [server/models/Image.js] *)
Module Image.

Record doc : Type := mk {
  _id : ObjectId;
  imageUrl : string;                 (* required, trim *)
  title : string;                    (* trim, maxlength 100 *)
  description : string;              (* trim, maxlength 500 *)
  tags : list string;                (* each: trim, lowercase, maxlength 30 *)
  user : ObjectId;                   (* required, ref 'User' *)
  likes : list ObjectId;
  createdAt : Z                      (* default: Date.now *)
}.

Definition with_imageUrl (d : doc) (url : string) : doc :=
  mk (_id d) url (title d) (description d) (tags d) (user d) (likes d)
     (createdAt d).

(** The pattern of the pre-save hook: [/^https?:\/\//]. *)
Definition scheme_pattern : Regex.re :=
  Regex.Cat (Regex.lits "http")
    (Regex.Cat (Regex.Opt (Regex.Lit "s")) (Regex.lits "://")).

(** [new Image({ imageUrl, title, description, tags, user })]: the setters
    of the schema run on the values, the defaults fill the rest. *)
Definition create (id : ObjectId) (now : Z) (imageUrl title description : string)
    (tags : list string) (user : ObjectId) : doc :=
  mk id (Js.trim imageUrl) (Js.trim title) (Js.trim description)
     (map (fun t => Js.toLowerCase (Js.trim t)) tags) user [] now.

(** The validators of the schema: [required] on the URL, the three
    [maxlength]s. *)
Definition validate (d : doc) : bool :=
  negb (String.eqb (imageUrl d) "")
  && (String.length (title d) <=? 100)%nat
  && (String.length (description d) <=? 500)%nat
  && forallb (fun t => (String.length t <=? 30)%nat) (tags d).

(** [ImageSchema.pre('save', ...)]: if the URL does not start with http or
    https, add https. *)
Definition pre_save (d : doc) : doc :=
  if negb (String.eqb (imageUrl d) "")
     && negb (Regex.matches_prefix scheme_pattern (imageUrl d))
  then with_imageUrl d ("https://" ++ imageUrl d)
  else d.

End Image.

(** ** The file system

    A path is absolute and normalised: the list of names from the root.
    A disk is the regular files and the directories it holds. *)

Module Fs.

Definition path := list string.

Definition path_eqb (p q : path) : bool :=
  if list_eq_dec string_dec p q then true else false.

Record disk : Type := mkDisk {
  files : list path;
  dirs : list path
}.

(** [path.normalize] on the segments of an absolute path; [stack] holds the
    names kept so far, last one first. *)
Fixpoint normalize_go (stack segs : list string) : path :=
  match segs with
  | [] => rev stack
  | seg :: rest =>
      if String.eqb seg "" || String.eqb seg "." then normalize_go stack rest
      else if String.eqb seg ".." then normalize_go (tl stack) rest
      else normalize_go (seg :: stack) rest
  end.

Fixpoint ends_with_slash (s : string) : bool :=
  match s with
  | EmptyString => false
  | String c EmptyString => Ascii.eqb c "/"%char
  | String _ s' => ends_with_slash s'
  end.

(** [path.join(base, ...parts)] for an absolute [base]: the normalised path,
    and whether it is written with a trailing slash.  Empty parts are
    skipped. *)
Definition join (base : path) (parts : list string) : path * bool :=
  let parts := filter (fun p => negb (String.eqb p "")) parts in
  (normalize_go (rev base) (flat_map (fun p => Js.split p "/") parts),
   ends_with_slash (last parts "")).

Definition is_file (d : disk) (p : path) : bool := existsb (path_eqb p) (files d).
Definition is_dir (d : disk) (p : path) : bool := existsb (path_eqb p) (dirs d).

(** [fs.existsSync]: a name written with a trailing slash only finds a
    directory. *)
Definition existsSync (d : disk) (pt : path * bool) : bool :=
  let (p, trailing) := pt in
  (negb trailing && is_file d p) || is_dir d p.

(** [fs.unlinkSync]: removes a regular file; [None] when it throws (no such
    file, or a directory). *)
Definition unlinkSync (d : disk) (pt : path * bool) : option disk :=
  let (p, trailing) := pt in
  if negb trailing && is_file d p
  then Some (mkDisk (filter (fun q => negb (path_eqb p q)) (files d)) (dirs d))
  else None.

(** [fs.mkdirSync(p, { recursive: true })] *)
Definition mkdirSync (d : disk) (p : path) : disk :=
  if is_dir d p then d else mkDisk (files d) (p :: dirs d).

Definition writeFile (d : disk) (p : path) : disk :=
  if is_file d p then d else mkDisk (p :: files d) (dirs d).

(** [path.extname]: from the last dot of the last name of the path
    (trailing slashes aside), unless that dot opens the name or the name
    is [..]. *)
Fixpoint last_dot (s : string) : option string :=
  match s with
  | EmptyString => None
  | String c s' =>
      match last_dot s' with
      | Some e => Some e
      | None => if Ascii.eqb c "."%char then Some s else None
      end
  end.

Definition extname (name : string) : string :=
  let base :=
    last (filter (fun seg => negb (String.eqb seg "")) (Js.split name "/")) "" in
  match base with
  | EmptyString => ""
  | String _ rest =>
      if String.eqb base ".." then ""
      else match last_dot rest with
           | Some e => e
           | None => ""
           end
  end.

End Fs.

(** ** Outcomes of fallible calls *)

Inductive result (A : Type) : Type :=
| Ok (a : A)
| Throw (message : string).
Arguments Ok {A} a.
Arguments Throw {A} message.

(** ** Services outside the repository *)

Record DecodedToken : Type := mkToken {
  uid : string;
  tok_email : option string;
  tok_name : option string;
  tok_picture : option string;
  sign_in_provider : option string      (* firebase?.sign_in_provider *)
}.

(** What [admin.auth().verifyIdToken] does with a token: the decoded
    claims, or an error with its optional code. *)
Inductive Verification : Type :=
| Decoded (t : DecodedToken)
| Rejected (code : option string).

(** What the network does with a HEAD request, before axios looks at the
    status: no answer within the timeout, or a status and the content-type
    header if there is one. *)
Inductive HeadOutcome : Type :=
| NoAnswer (message : string)
| Answer (status : Z) (content_type : option string).

Record Services : Type := mkServices {
  verifyIdToken : string -> Verification;
  axios_head : string -> HeadOutcome;
  (* the text index of the images collection: which documents a search
     string selects, and their relevance *)
  textMatch : string -> Image.doc -> bool;
  textScore : string -> Image.doc -> Z;
  (* Mongoose's cast to [String] of a tags value that is not an array of
     plain strings; [None] when the cast fails *)
  castOther : Json.value -> option (list string);
  (* multer's parser of the multipart body, which is not part of this
     repository: the media type it reports as [file.mimetype] for the
     Content-Type that a part declares (the parser in use reports the type
     in lower case and without its parameters) *)
  partType : string -> string
}.

(** What a request reads from its surroundings. *)
Record Env : Type := mkEnv {
  now : Z;                       (* Date.now() *)
  fresh : ObjectId;              (* the id of a document made by [new] *)
  uuid : string;                 (* uuidv4() *)
  production : bool;             (* NODE_ENV === 'production' *)
  dirname : Fs.path              (* __dirname of the routes module *)
}.

(** ** The state of the server *)

Record World : Type := mkWorld {
  users : list User.doc;
  images : list Image.doc;
  disk : Fs.disk
}.

Record Session : Type := mkSession {
  userId : option ObjectId
}.

(** ** Data base operations *)

Module Db.

Definition User_findById (db : list User.doc) (id : ObjectId) : option User.doc :=
  find (fun u => Nat.eqb (User._id u) id) db.

Definition User_findOne_firebaseUid (db : list User.doc) (uid : string)
  : option User.doc :=
  find (fun u => String.eqb (User.firebaseUid u) uid) db.

Definition User_findOne_username (db : list User.doc) (name : string)
  : option User.doc :=
  find (fun u => String.eqb (User.username u) name) db.

(** The validators of the user schema: the two [required] fields. *)
Definition User_validate (u : User.doc) : bool :=
  negb (String.eqb (User.firebaseUid u) "")
  && negb (String.eqb (User.username u) "").

(** Another document already holds this [firebaseUid] (unique index). *)
Definition User_duplicate (db : list User.doc) (u : User.doc) : bool :=
  existsb (fun v => String.eqb (User.firebaseUid v) (User.firebaseUid u)
                    && negb (Nat.eqb (User._id v) (User._id u))) db.

Definition is_stored (db : list User.doc) (u : User.doc) : bool :=
  existsb (fun v => Nat.eqb (User._id v) (User._id u)) db.

(** [user.save()]: validation, then an insert for a document made by
    [new] ([isNew]) and an update in place for one that was read from the
    collection. *)
Definition User_save (isNew : bool) (db : list User.doc) (u : User.doc)
  : result (list User.doc) :=
  if negb (User_validate u) then Throw "User validation failed"
  else if User_duplicate db u then Throw "E11000 duplicate key error"
  else if isNew then
    if is_stored db u then Throw "E11000 duplicate key error"
    else Ok (db ++ [u])%list
  else
    if is_stored db u
    then Ok (map (fun v => if Nat.eqb (User._id v) (User._id u) then u else v) db)
    else Throw "No document found for query".

Definition Image_findById (db : list Image.doc) (id : ObjectId)
  : option Image.doc :=
  find (fun i => Nat.eqb (Image._id i) id) db.

(** [image.save()] of a new document: validation first, then the pre-save
    hook, then the insert. *)
Definition Image_id_used (db : list Image.doc) (id : ObjectId) : bool :=
  existsb (fun i => Nat.eqb (Image._id i) id) db.

Definition Image_save (db : list Image.doc) (d : Image.doc)
  : result (Image.doc * list Image.doc) :=
  if negb (Image.validate d) then Throw "Image validation failed"
  else if Image_id_used db (Image._id d)
  then Throw "E11000 duplicate key error"
  else let d' := Image.pre_save d in Ok (d', (db ++ [d'])%list).

Definition Image_findByIdAndDelete (db : list Image.doc) (id : ObjectId)
  : list Image.doc :=
  filter (fun i => negb (Nat.eqb (Image._id i) id)) db.

(** [.sort({ key: -1 })]: largest key first.  The data base does not fix
    the order among documents with equal keys, and may choose it anew for
    every query; here they keep the order of the collection.  A statement
    that compares the results of two queries therefore assumes distinct
    keys, for which the descending order is the only one. *)
Fixpoint insert_desc {A : Type} (key : A -> Z) (x : A) (l : list A) : list A :=
  match l with
  | [] => [x]
  | y :: l' => if key y <=? key x then x :: l else y :: insert_desc key x l'
  end.

Definition sort_desc {A : Type} (key : A -> Z) (l : list A) : list A :=
  fold_right (insert_desc key) [] l.

(** [.skip(n)] and [.limit(n)] of a cursor: a negative skip is refused,
    a limit of zero is no limit, a negative limit counts as its absolute
    value. *)
Definition skip {A : Type} (n : Z) (l : list A) : result (list A) :=
  if n <? 0 then Throw "Skip value must be non-negative"
  else Ok (skipn (Z.to_nat n) l).

Definition limit {A : Type} (n : Z) (l : list A) : list A :=
  if n =? 0 then l else firstn (Z.to_nat (Z.abs n)) l.

(** [.populate('user', 'username displayName avatarUrl')] *)
Definition populate (us : list User.doc) (i : Image.doc)
  : Image.doc * option User.projection :=
  (i, option_map User.project (User_findById us (Image.user i))).

End Db.

(** ** Responses *)

Definition Populated : Type := (Image.doc * option User.projection)%type.

Record Pagination : Type := mkPagination {
  total : Z;
  page : Z;
  limit : Z;
  pages : option Z           (* [None]: not a finite number *)
}.

Inductive Body : Type :=
| Message (message : string)
| MessageError (message : string) (error : option string)
| AuthFailure (message : string) (error : string)    (* authenticated: false *)
| UserBody (u : User.projection) (isAdmin : bool)
| ImageBody (img : option Populated)
| ImagesBody (imgs : list Populated)
| PageBody (imgs : list Populated) (pagination : Pagination)
| SearchBody (imgs : list Populated) (pagination : Pagination) (query : string)
| UserPageBody (imgs : list Populated) (pagination : Pagination)
    (owner : User.projection)
| RemovedBody (message : string) (imageId : option ObjectId).

Record Response : Type := mkResponse {
  status : Z;
  body : Body
}.

(** ** [server/middleware/authMiddleware.js] *)

(** What a middleware does with a request: hand it on with [req.user] set,
    or answer it.  Both carry the session as the middleware leaves it
    ([None]: there is no [req.session]). *)
Inductive Gate : Type :=
| Next (user : User.doc) (session : option Session)
| Reply (r : Response) (session : option Session).

(** [authHeader.split('Bearer ')[1]] *)
Definition bearer_token (authHeader : string) : string :=
  nth 1 (Js.split authHeader "Bearer ") "".

Definition ensureAuthenticated (sv : Services) (db : list User.doc)
    (session : option Session) (authorization : option string) : Gate :=
  match session with
  | None =>
      (* reading [req.session.userId] throws; the outer catch answers *)
      Reply (mkResponse 500
               (AuthFailure "Server error during authentication."
                            "INTERNAL_SERVER_ERROR")) session
  | Some sess =>
      match userId sess with
      | Some id =>
          (* session-based authentication *)
          match Db.User_findById db id with
          | None =>
              Reply (mkResponse 401
                       (AuthFailure "User not found. Please log in again."
                                    "USER_NOT_FOUND")) session
          | Some u => Next u session
          end
      | None =>
          if Js.truthy authorization
             && Js.startsWith (Js.or_else authorization "") "Bearer "
          then
            let idToken := bearer_token (Js.or_else authorization "") in
            match verifyIdToken sv idToken with
            | Decoded t =>
                match Db.User_findOne_firebaseUid db (uid t) with
                | None =>
                    Reply (mkResponse 401
                             (AuthFailure "User not found. Please log in again."
                                          "USER_NOT_FOUND")) session
                | Some u =>
                    (* store user ID in session for future requests *)
                    Next u (Some (mkSession (Some (User._id u))))
                end
            | Rejected _ =>
                Reply (mkResponse 401
                         (AuthFailure "Invalid or expired authentication token."
                                      "INVALID_TOKEN")) session
            end
          else
            Reply (mkResponse 401
                     (AuthFailure
                        "Authentication required. Please log in to access this resource."
                        "UNAUTHORIZED_ACCESS")) session
      end
  end.

(** ** [server/routes/auth.js] *)

Module Auth.

(** [new User({ firebaseUid, username, email, displayName, avatarUrl,
    isAdmin: false })].  [isAdmin] is a virtual with a getter only, so the
    value given for it is dropped; [role] and [createdAt] take their
    defaults; the string setters trim. *)
Definition new_user (env : Env) (uid username : string) (email : option string)
    (displayName : string) (avatarUrl : option string) : User.doc :=
  User.mk (fresh env) uid None (option_map Js.trim email)
          (Js.trim username) (Some (Js.trim displayName)) None
          (option_map Js.trim avatarUrl) (now env) User.user.

Definition decimal (z : Z) : string :=
  DecimalString.NilZero.string_of_int (Z.to_int z).

(** [name || (email ? email.split('@')[0] : `user_${Date.now()}`)] *)
Definition pick_username (env : Env) (name email : option string) : string :=
  Js.or_else name
    (if Js.truthy email
     then nth 0 (Js.split (Js.or_else email "") "@") ""
     else "user_" ++ decimal (now env)).

(** The document made for an external identity seen for the first time. *)
Definition created_user (env : Env) (t : DecodedToken) : User.doc :=
  let username := pick_username env (tok_name t) (tok_email t) in
  new_user env (uid t) username (tok_email t)
    (Js.or_else (tok_name t) username) (tok_picture t).

(** The [updates] object applied to a user that exists already. *)
Definition changed (new : option string) (old : option string) : bool :=
  Js.truthy new
  && negb (match old with
           | Some o => String.eqb o (Js.or_else new "")
           | None => false
           end).

Definition apply_updates (u : User.doc) (t : DecodedToken) : User.doc :=
  User.mk (User._id u) (User.firebaseUid u) (User.githubId u)
    (if changed (tok_email t) (User.email u)
     then option_map Js.trim (tok_email t) else User.email u)
    (User.username u)
    (if changed (tok_name t) (User.displayName u)
     then option_map Js.trim (tok_name t) else User.displayName u)
    (User.profileUrl u)
    (if changed (tok_picture t) (User.avatarUrl u)
     then option_map Js.trim (tok_picture t) else User.avatarUrl u)
    (User.createdAt u) (User.role u).

Definition has_updates (u : User.doc) (t : DecodedToken) : bool :=
  changed (tok_name t) (User.displayName u)
  || changed (tok_picture t) (User.avatarUrl u)
  || changed (tok_email t) (User.email u).

Definition processing_error (m : string) : Response :=
  mkResponse 500 (MessageError "Error processing user data" (Some m)).

(** The end of the handler: create the session, return the user data. *)
Definition sign_in (u : User.doc) (db : list User.doc) (session : option Session)
  : Response * list User.doc * option Session :=
  match session with
  | None =>
      (processing_error "Cannot set properties of undefined", db, session)
  | Some _ =>
      (mkResponse 200 (UserBody (User.project u) (User.isAdmin u)),
       db, Some (mkSession (Some (User._id u))))
  end.

(** [POST /firebase-auth].  Every data base call is a suspension point:
    [others] is what the requests served between the look-up and the save
    do to the users collection (the identity when there are none). *)
Definition firebase_auth (sv : Services) (env : Env)
    (others : list User.doc -> list User.doc)
    (db : list User.doc) (session : option Session) (idToken : option string)
  : Response * list User.doc * option Session :=
  if negb (Js.truthy idToken) then
    (mkResponse 400 (Message "ID token is required"), db, session)
  else
    match verifyIdToken sv (Js.or_else idToken "") with
    | Rejected code =>
        (mkResponse 401
           (MessageError "Invalid authentication token"
                         (Some (Js.or_else code "token_invalid"))),
         db, session)
    | Decoded t =>
        (* only allow GitHub authentication *)
        if negb (Js.truthy (sign_in_provider t))
           || negb (Js.includes (Js.or_else (sign_in_provider t) "") "github")
        then
          (mkResponse 403 (Message "Only GitHub authentication is supported"),
           db, session)
        else
          match Db.User_findOne_firebaseUid db (uid t) with
          | None =>
              (* create a new user if one doesn't exist *)
              let u := created_user env t in
              match Db.User_save true (others db) u with
              | Throw m => (processing_error m, others db, session)
              | Ok db' => sign_in u db' session
              end
          | Some u =>
              (* update existing user information if changed *)
              if has_updates u t then
                let u' := apply_updates u t in
                match Db.User_save false (others db) u' with
                | Throw m => (processing_error m, others db, session)
                | Ok db' => sign_in u' db' session
                end
              else sign_in u (others db) session
          end
    end.

(** [GET /user]: the current user, from the session alone. *)
Definition get_user (db : list User.doc) (session : option Session)
  : Response * option Session :=
  match session with
  | None => (mkResponse 401 (Message "Not authenticated"), session)
  | Some sess =>
      match userId sess with
      | None => (mkResponse 401 (Message "Not authenticated"), session)
      | Some id =>
          match Db.User_findById db id with
          | None =>
              (* clear invalid session: [req.session.destroy] *)
              (mkResponse 401 (Message "User not found"), None)
          | Some u =>
              (mkResponse 200
                 (UserBody (User.project u) (User.Role_eqb (User.role u) User.admin)),
               session)
          end
      end
  end.

(** What [GET /user/:username] answers for a user it finds.  [bio] is not
    a path of the schema, so [user.bio || ''] is the empty string. *)
Record Profile : Type := mkProfile {
  pr_id : ObjectId;
  pr_username : string;
  pr_displayName : option string;
  pr_avatarUrl : option string;
  pr_bio : string;
  pr_createdAt : Z;
  imageCount : Z
}.

Inductive ProfileReply : Type :=
| ProfileFound (p : Profile)           (* status 200 *)
| ProfileMissing (r : Response).

(** [GET /user/:username]: the public profile, with the number of images
    of the user. *)
Definition get_profile (w : World) (name : string) : ProfileReply :=
  match Db.User_findOne_username (users w) name with
  | None => ProfileMissing (mkResponse 404 (Message "User not found"))
  | Some u =>
      ProfileFound
        (mkProfile (User._id u) (User.username u) (User.displayName u)
           (User.avatarUrl u) "" (User.createdAt u)
           (Z.of_nat (length (filter (fun i => Nat.eqb (Image.user i) (User._id u))
                                     (images w)))))
  end.

End Auth.

(** ** [server/server.js] *)

(** The global error handler: what an error passed to [next] becomes. *)
Definition global_error_handler (env : Env) (message : string) : Response :=
  mkResponse 500
    (MessageError "Server Error" (if production env then None else Some message)).

(** ** [server/routes/images.js] *)

Module Images.

(** *** multer *)

Record FilePart : Type := mkFile {
  originalname : string;
  mimetype : string;             (* [file.mimetype], as multer reports it *)
  size : Z
}.

(** Accept only image files. *)
Definition fileFilter (f : FilePart) : result bool :=
  if Js.startsWith (mimetype f) "image/" then Ok true
  else Throw "Only image files are allowed!".

Definition fileSize_limit : Z := 10 * 1024 * 1024.

Definition uploadDir (env : Env) : Fs.path := fst (Fs.join (dirname env) ["../uploads"]).

(** [upload.single('file')]: the filter runs before the storage engine is
    asked for a destination; a file over the size limit is removed again.
    The result is [req.file.filename], if a file was stored, or the error
    handed to [next]. *)
Definition upload_single (env : Env) (d : Fs.disk) (file : option FilePart)
  : result (option string) * Fs.disk :=
  match file with
  | None => (Ok None, d)
  | Some f =>
      match fileFilter f with
      | Throw m => (Throw m, d)
      | Ok false => (Ok None, d)
      | Ok true =>
          (* destination: create directory if it doesn't exist *)
          let d1 := if Fs.existsSync d (uploadDir env, false) then d
                    else Fs.mkdirSync d (uploadDir env) in
          (* filename: unique name with the original extension *)
          let name := uuid env ++ Fs.extname (originalname f) in
          if fileSize_limit <? size f then (Throw "File too large", d1)
          else (Ok (Some name), Fs.writeFile d1 (uploadDir env ++ [name])%list)
      end
  end.

(** *** isValidImageUrl *)

Definition word_dot_dash : Regex.re :=
  Regex.Class [Regex.CWord; Regex.CChar "."; Regex.CChar "-"].

Definition slash_word_dot_dash : Regex.re :=
  Regex.Class [Regex.CChar "/"; Regex.CWord; Regex.CChar "."; Regex.CChar "-"].

(** The pattern of [isValidImageUrl] between its anchors: the group of the
    scheme, [https?:\/\/]; the group [[\w.-]+]; the group of [[/\w.-]]
    under a star, itself under a star; an optional slash. *)
Definition url_pattern : Regex.re :=
  Regex.Cat Image.scheme_pattern
    (Regex.Cat (Regex.Plus word_dot_dash)
       (Regex.Cat (Regex.Star (Regex.Star slash_word_dot_dash))
          (Regex.Opt (Regex.Lit "/")))).

(** [validateStatus: status => status < 400] *)
Definition validateStatus (status : Z) : bool := status <? 400.

Definition isValidImageUrl (sv : Services) (url : option string) : bool :=
  if negb (Js.truthy url) then false
  else
    let u := Js.or_else url "" in
    if negb (Regex.matches url_pattern u) then false
    else
      match axios_head sv u with
      | NoAnswer _ => false                      (* caught *)
      | Answer st contentType =>
          if validateStatus st
          then Js.truthy contentType
               && Js.startsWith (Js.or_else contentType "") "image/"
          else false                             (* axios throws; caught *)
      end.

(** What [isValidImageUrl] accepts, as a proposition: a non-empty URL that
    matches the pattern and whose HEAD request is answered with a status
    below 400 and a content-type that starts with [image/]. *)
Definition url_accepted (sv : Services) (url : option string) : Prop :=
  exists u st ct,
    url = Some u /\ u <> ""
    /\ Regex.matches url_pattern u = true
    /\ axios_head sv u = Answer st (Some ct)
    /\ st < 400
    /\ Js.startsWith ct "image/" = true.

(** *** Creating images *)

(** The cast of a tags value to an array of strings. *)
Definition cast_tags (sv : Services) (v : Json.value) : option (list string) :=
  match Json.as_string_array v with
  | Some l => Some l
  | None => castOther sv v
  end.

Definition server_error (m : string) : Response :=
  mkResponse 500 (MessageError "Server Error" (Some m)).

(** [new Image(...)], [save], then the populated image for the answer. *)
Definition create_image (env : Env) (w : World) (owner : User.doc)
    (imageUrl title description : string) (tags : option (list string))
  : Response * World :=
  match tags with
  | None => (server_error "Image validation failed", w)
  | Some tl =>
      let newImage := Image.create (fresh env) (now env) imageUrl title
                        description tl (User._id owner) in
      match Db.Image_save (images w) newImage with
      | Throw m => (server_error m, w)
      | Ok (image, imgs) =>
          (mkResponse 201
             (ImageBody (option_map (Db.populate (users w))
                           (Db.Image_findById imgs (Image._id image)))),
           mkWorld (users w) imgs (disk w))
      end
  end.

(** [Array.isArray(tags) ? tags : []], as the schema casts it. *)
Definition url_tags (sv : Services) (tags : option Json.value)
  : option (list string) :=
  match tags with
  | Some (Json.JArr items) => cast_tags sv (Json.JArr items)
  | _ => Some []
  end.

(** The body of [POST /url], after [ensureAuthenticated]. *)
Definition post_url_handler (sv : Services) (env : Env) (w : World)
    (owner : User.doc) (imageUrl title description : option string)
    (tags : option Json.value) : Response * World :=
  if negb (Js.truthy imageUrl) then
    (mkResponse 400 (Message "Image URL is required"), w)
  else if negb (isValidImageUrl sv imageUrl) then
    (mkResponse 400
       (Message "Invalid image URL. Please provide a direct link to an image file."),
     w)
  else
    create_image env w owner (Js.or_else imageUrl "")
      (Js.or_else title "") (Js.or_else description "") (url_tags sv tags).

(** The document [POST /url] makes is one the collection takes: the tags
    cast, the validators of the schema pass, the new id is free. *)
Definition url_document_ok (sv : Services) (env : Env) (w : World)
    (owner : User.doc) (imageUrl title description : option string)
    (tags : option Json.value) : Prop :=
  exists tl,
    url_tags sv tags = Some tl
    /\ Image.validate
         (Image.create (fresh env) (now env) (Js.or_else imageUrl "")
            (Js.or_else title "") (Js.or_else description "") tl
            (User._id owner)) = true
    /\ Db.Image_id_used (images w) (fresh env) = false.

Definition post_url (sv : Services) (env : Env) (w : World)
    (session : option Session) (authorization : option string)
    (imageUrl title description : option string) (tags : option Json.value)
  : Response * World * option Session :=
  match ensureAuthenticated sv (users w) session authorization with
  | Reply r s => (r, w, s)
  | Next u s =>
      (post_url_handler sv env w u imageUrl title description tags, s)
  end.

Definition syntax_error : string := "Unexpected token in JSON".

(** The body of [POST /upload], after [ensureAuthenticated] and multer;
    [file] is [req.file.filename]. *)
Definition post_upload_handler (sv : Services) (env : Env) (w : World)
    (owner : User.doc) (protocol host : string) (file : option string)
    (title description tags : option string) : Response * World :=
  match file with
  | None => (mkResponse 400 (Message "No image file uploaded"), w)
  | Some filename =>
      let baseUrl := protocol ++ "://" ++ host in
      let relativePath := "/uploads/" ++ filename in
      let imageUrl := baseUrl ++ relativePath in
      if Js.truthy tags then
        match Json.parse (Js.or_else tags "") with
        | None => (server_error syntax_error, w)      (* caught *)
        | Some v =>
            create_image env w owner imageUrl (Js.or_else title "")
              (Js.or_else description "") (cast_tags sv v)
        end
      else
        create_image env w owner imageUrl (Js.or_else title "")
          (Js.or_else description "") (Some [])
  end.

Definition post_upload (sv : Services) (env : Env) (w : World)
    (session : option Session) (authorization : option string)
    (protocol host : string) (file : option FilePart)
    (title description tags : option string)
  : Response * World * option Session :=
  match ensureAuthenticated sv (users w) session authorization with
  | Reply r s => (r, w, s)
  | Next u s =>
      match upload_single env (disk w) file with
      | (Throw m, d) =>
          (global_error_handler env m, mkWorld (users w) (images w) d, s)
      | (Ok stored, d) =>
          (post_upload_handler sv env (mkWorld (users w) (images w) d) u
             protocol host stored title description tags, s)
      end
  end.

(** The file part of the multipart body, as the client sends it. *)
Record Part : Type := mkPart {
  part_filename : string;        (* the filename of its Content-Disposition *)
  part_contentType : string;     (* the Content-Type it declares *)
  part_size : Z
}.

(** [file], as multer makes it from the part for the filter and the
    storage engine. *)
Definition file_of_part (sv : Services) (p : Part) : FilePart :=
  mkFile (part_filename p) (partType sv (part_contentType p)) (part_size p).

(** [POST /upload] on the request as it arrives. *)
Definition post_upload_request (sv : Services) (env : Env) (w : World)
    (session : option Session) (authorization : option string)
    (protocol host : string) (part : option Part)
    (title description tags : option string)
  : Response * World * option Session :=
  post_upload sv env w session authorization protocol host
    (option_map (file_of_part sv) part) title description tags.

(** *** Listing and searching *)

(** [Math.ceil(total / limit)] *)
Definition ceil_div (total limit : Z) : option Z :=
  if limit =? 0 then None else Some (- ((- total) / limit)).

(** [.skip(skip).limit(limit)] on the documents a sorted query selects. *)
Definition skip_limit {A : Type} (skip limit : Z) (sorted : list A)
  : result (list A) :=
  match Db.skip skip sorted with
  | Throw m => Throw m
  | Ok l => Ok (Db.limit limit l)
  end.

Definition or_default (v : option Z) (d : Z) : Z :=
  match v with
  | Some z => z
  | None => d
  end.

(** [GET /]: all public images.  [limit] and [page] are the query
    parameters as [parseInt] reads them, [None] when absent. *)
Definition get_images (w : World) (limit page : option Z) : Response :=
  let limit := or_default limit 50 in
  let page := or_default page 1 in
  let skip := (page - 1) * limit in
  match skip_limit skip limit (Db.sort_desc Image.createdAt (images w)) with
  | Throw m => server_error m
  | Ok found =>
      let total := Z.of_nat (length (images w)) in
      mkResponse 200
        (PageBody (map (Db.populate (users w)) found)
           (mkPagination total page limit (ceil_div total limit)))
  end.

(** [GET /user/:username]: the images of one user. *)
Definition get_user_images (w : World) (username : string)
    (limit page : option Z) : Response :=
  match Db.User_findOne_username (users w) username with
  | None => mkResponse 404 (Message "User not found")
  | Some u =>
      let limit := or_default limit 50 in
      let page := or_default page 1 in
      let skip := (page - 1) * limit in
      let own := filter (fun i => Nat.eqb (Image.user i) (User._id u)) (images w) in
      match skip_limit skip limit (Db.sort_desc Image.createdAt own) with
      | Throw m => server_error m
      | Ok found =>
          let total := Z.of_nat (length own) in
          mkResponse 200
            (UserPageBody (map (Db.populate (users w)) found)
               (mkPagination total page limit (ceil_div total limit))
               (User.project u))
      end
  end.

(** [GET /search]: images by title, description, or tags, sorted by
    relevance. *)
Definition search_images (sv : Services) (w : World) (q : option string)
    (limit page : option Z) : Response :=
  let limit := or_default limit 50 in
  let page := or_default page 1 in
  let skip := (page - 1) * limit in
  if negb (Js.truthy q) then
    mkResponse 400 (Message "Search query is required")
  else
    let q := Js.or_else q "" in
    let selected := filter (textMatch sv q) (images w) in
    match skip_limit skip limit (Db.sort_desc (textScore sv q) selected) with
    | Throw m => server_error m
    | Ok found =>
        let total := Z.of_nat (length selected) in
        mkResponse 200
          (SearchBody (map (Db.populate (users w)) found)
             (mkPagination total page limit (ceil_div total limit)) q)
    end.

(** *** Deleting *)

(** The file clean-up of [DELETE /:id]: delete the file if it's a local
    upload. *)
Definition remove_upload (env : Env) (d : Fs.disk) (imageUrl : string)
  : result Fs.disk :=
  if Js.includes imageUrl "/uploads/" then
    let filePath := nth 1 (Js.split imageUrl "/uploads/") "" in
    let fullPath := Fs.join (dirname env) ["../uploads"; filePath] in
    if Fs.existsSync d fullPath then
      match Fs.unlinkSync d fullPath with
      | Some d' => Ok d'
      | None => Throw "EISDIR: illegal operation on a directory, unlink"
      end
    else Ok d
  else Ok d.

(** The body of [DELETE /:id], after [ensureAuthenticated].  [id] is
    [req.params.id] as an object id, [None] when it cannot be cast to
    one. *)
Definition delete_handler (env : Env) (w : World) (principal : User.doc)
    (id : option ObjectId) : Response * World :=
  match id with
  | None => (mkResponse 404 (Message "Invalid image ID format"), w)
  | Some i =>
      match Db.Image_findById (images w) i with
      | None => (mkResponse 404 (Message "Image not found"), w)
      | Some image =>
          (* check if user is authorized (owner or admin) *)
          let isAdmin := User.Role_eqb (User.role principal) User.admin in
          let isOwner := Nat.eqb (Image.user image) (User._id principal) in
          if negb isOwner && negb isAdmin then
            (mkResponse 403 (Message "Not authorized to delete this image"), w)
          else
            match remove_upload env (disk w) (Image.imageUrl image) with
            | Throw m => (server_error m, w)
            | Ok d =>
                (mkResponse 200 (RemovedBody "Image successfully removed" id),
                 mkWorld (users w) (Db.Image_findByIdAndDelete (images w) i) d)
            end
      end
  end.

Definition delete_image (sv : Services) (env : Env) (w : World)
    (session : option Session) (authorization : option string)
    (id : option ObjectId) : Response * World * option Session :=
  match ensureAuthenticated sv (users w) session authorization with
  | Reply r s => (r, w, s)
  | Next u s => (delete_handler env w u id, s)
  end.

(** *** Reading single images and one's own *)

(** The body of [GET /myimages], after [ensureAuthenticated]. *)
Definition get_my_images_handler (w : World) (principal : User.doc) : Response :=
  mkResponse 200
    (ImagesBody
       (map (Db.populate (users w))
          (Db.sort_desc Image.createdAt
             (filter (fun i => Nat.eqb (Image.user i) (User._id principal))
                     (images w))))).

Definition get_my_images (sv : Services) (w : World) (session : option Session)
    (authorization : option string) : Response * option Session :=
  match ensureAuthenticated sv (users w) session authorization with
  | Reply r s => (r, s)
  | Next u s => (get_my_images_handler w u, s)
  end.

(** [GET /:id]; [id] as for [DELETE /:id]. *)
Definition get_image_by_id (w : World) (id : option ObjectId) : Response :=
  match id with
  | None => mkResponse 404 (Message "Invalid image ID format")
  | Some i =>
      match Db.Image_findById (images w) i with
      | None => mkResponse 404 (Message "Image not found")
      | Some image =>
          mkResponse 200 (ImageBody (Some (Db.populate (users w) image)))
      end
  end.

(** The images a listing answer carries. *)
Definition listed (r : Response) : list Populated :=
  match body r with
  | ImagesBody imgs => imgs
  | PageBody imgs _ => imgs
  | SearchBody imgs _ _ => imgs
  | UserPageBody imgs _ _ => imgs
  | _ => []
  end.

End Images.

(** ** The other two middlewares of [authMiddleware.js] *)

(** What [checkAuthentication] leaves on the request before it calls
    [next]. *)
Record Checked : Type := mkChecked {
  isUserAuthenticated : bool;
  req_user : option User.doc;
  req_session : option Session
}.

Definition unauthenticated (session : option Session) : Checked :=
  mkChecked false None session.

Definition checkAuthentication (sv : Services) (db : list User.doc)
    (session : option Session) (authorization : option string) : Checked :=
  match session with
  | None => unauthenticated session      (* the read throws; the catch *)
  | Some sess =>
      match userId sess with
      | Some id =>
          (* session-based authentication *)
          match Db.User_findById db id with
          | Some u => mkChecked true (Some u) session
          | None => mkChecked false None session
          end
      | None =>
          if Js.truthy authorization
             && Js.startsWith (Js.or_else authorization "") "Bearer "
          then
            let idToken := bearer_token (Js.or_else authorization "") in
            match verifyIdToken sv idToken with
            | Decoded t =>
                match Db.User_findOne_firebaseUid db (uid t) with
                | Some u =>
                    mkChecked true (Some u) (Some (mkSession (Some (User._id u))))
                | None => unauthenticated session
                end
            | Rejected _ => unauthenticated session   (* continue *)
            end
          else unauthenticated session
      end
  end.

Inductive OwnerGate : Type :=
| OwnerNext
| OwnerReply (r : Response).

(** [isResourceOwner(getResourceOwnerId)]: [lookup] is what the call of
    [getResourceOwnerId(req)] gives, [user] is [req.user]. *)
Definition isResourceOwner (lookup : result (option ObjectId))
    (user : option User.doc) : OwnerGate :=
  let failed :=
    OwnerReply (mkResponse 500
                  (MessageError "Server error while verifying permissions"
                                (Some "INTERNAL_SERVER_ERROR"))) in
  match lookup with
  | Throw _ => failed
  | Ok None =>
      OwnerReply (mkResponse 404
                    (MessageError "Resource not found" (Some "RESOURCE_NOT_FOUND")))
  | Ok (Some ownerId) =>
      match user with
      | None => failed                   (* reading [req.user._id] throws *)
      | Some u =>
          if Nat.eqb ownerId (User._id u) then OwnerNext
          else OwnerReply
                 (mkResponse 403
                    (MessageError
                       "You do not have permission to perform this action"
                       (Some "FORBIDDEN_ACTION")))
      end
  end.

(** How a sign-in that is answered 200 went: the user it signed in was
    made by the request, or was updated by it, or was found as it is. *)
Inductive SignedIn (env : Env) (others : list User.doc -> list User.doc)
    (db : list User.doc) (t : DecodedToken) (u : User.doc)
    (db' : list User.doc) : Prop :=
| Created :
    Db.User_findOne_firebaseUid db (uid t) = None ->
    u = Auth.created_user env t ->
    Db.User_save true (others db) u = Ok db' ->
    SignedIn env others db t u db'
| Updated (old : User.doc) :
    Db.User_findOne_firebaseUid db (uid t) = Some old ->
    Auth.has_updates old t = true ->
    u = Auth.apply_updates old t ->
    Db.User_save false (others db) u = Ok db' ->
    SignedIn env others db t u db'
| Found :
    Db.User_findOne_firebaseUid db (uid t) = Some u ->
    Auth.has_updates u t = false ->
    db' = others db ->
    SignedIn env others db t u db'.

(** ** The client, where it calls the server *)

Module Client.

(** The request interceptor of [App.jsx]: the Authorization header made
    from the token in local storage, if there is one. *)
Definition authorization_header (token : option string) : option string :=
  if Js.truthy token then Some ("Bearer " ++ Js.or_else token "") else None.

(** [handleSubmit] of the upload form: the tags field as an array. *)
Definition tagsArray (tags : string) : list string :=
  filter (fun tag => negb (String.eqb tag ""))
         (map Js.trim (Js.split tags ",")).

(** [handleSubmit], file mode: the value of the form field [tags]. *)
Definition tags_field (tags : string) : string :=
  Json.stringify_strings (tagsArray tags).

(** [/r/.test(s)] for a pattern without anchors: some part of the string
    is in the language of [r]. *)
Fixpoint search (r : Regex.re) (s : string) : bool :=
  Regex.matches_prefix r s ||
  match s with
  | EmptyString => false
  | String _ s' => search r s'
  end.

(** The dot of a pattern: every code unit but the line terminators. *)
Definition dot : Regex.re :=
  Regex.Class
    (map (fun n => Regex.CChar (ascii_of_nat n))
         (filter (fun n => negb ((n =? 10) || (n =? 13))%nat) (seq 0 256))).

(** The pattern of [file.type.match('image.*')]. *)
Definition type_pattern : Regex.re :=
  Regex.Cat (Regex.lits "image") (Regex.Star dot).

(** [handleFileSelection] of the upload form: whether the file is taken
    for upload, by its type and its size. *)
Definition file_selected (type : string) (size : Z) : bool :=
  if negb (search type_pattern type) then false
  else if 10 * 1024 * 1024 <? size then false
  else true.

End Client.

(** ** What the schema promises of a stored image *)

Definition stored_ok (d : Image.doc) : bool :=
  Regex.matches_prefix Image.scheme_pattern (Image.imageUrl d)
  && (String.length (Image.title d) <=? 100)%nat
  && (String.length (Image.description d) <=? 500)%nat
  && forallb (fun t => (String.length t <=? 30)%nat) (Image.tags d).

(** ** The words of the specification

    Notions the specification uses and the sources do not define; they are
    only compared with what the handlers do. *)

Module Spec.

(** A success status code: the 2xx class. *)
Definition success_status (st : Z) : bool := (200 <=? st) && (st <? 300).

(** A URL that indicates server-local storage: the server's own base URL
    followed by the uploads path prefix. *)
Definition local_upload (protocol host url : string) : bool :=
  Js.startsWith url (protocol ++ "://" ++ host ++ "/uploads/").

(** A status of the 4xx class. *)
Definition client_error (st : Z) : bool := (400 <=? st) && (st <? 500).

(** Largest key first. *)
Definition descending {A : Type} (key : A -> Z) (l : list A) : Prop :=
  StronglySorted (fun a b => key b <= key a) l.

(** [p] is [ceil(total / limit)], for a positive [limit]. *)
Definition is_ceil (total limit p : Z) : Prop :=
  limit * (p - 1) < total <= limit * p.

End Spec.

(** ** A sample installation, for the concrete runs *)

Module Sample.

Definition token : DecodedToken :=
  mkToken "gh-42" (Some "ada@example.com") (Some "Ada") None (Some "github.com").

(** The token ["good"] verifies, every other one is refused. *)
Definition verify (t : string) : Verification :=
  if String.eqb t "good" then Decoded token else Rejected None.

(** [https://example.com/a.png] is a PNG; [https://example.com/moved.png]
    answers 304 with an image content-type; [https://evil.example/...] serves
    images; nothing else answers. *)
Definition remote (url : string) : HeadOutcome :=
  if String.eqb url "https://example.com/a.png" then Answer 200 (Some "image/png")
  else if String.eqb url "https://example.com/moved.png" then Answer 304 (Some "image/png")
  else if Js.startsWith url "https://evil.example/" then Answer 200 (Some "image/png")
  else NoAnswer "getaddrinfo ENOTFOUND".

(** A text index that selects the images holding the search string as
    title or tag, and ranks them by the number of such fields. *)
Definition score (q : string) (i : Image.doc) : Z :=
  (if String.eqb (Image.title i) q then 1 else 0)
  + Z.of_nat (length (filter (String.eqb q) (Image.tags i))).

(** A parser that reports the declared type in lower case, up to its
    first semicolon. *)
Definition reported (declared : string) : string :=
  Js.toLowerCase (Js.trim (nth 0 (Js.split declared ";") "")).

Definition services : Services :=
  mkServices verify remote (fun q i => 0 <? score q i) score (fun _ => None)
             reported.

Definition env : Env :=
  mkEnv 1700000000000 100%nat "3f2b8c1e" false ["srv"; "server"; "routes"].

Definition uploads : Fs.path := ["srv"; "server"; "uploads"].

Definition ada : User.doc :=
  User.mk 1%nat "gh-42" None (Some "ada@example.com") "Ada" (Some "Ada") None None
          1600000000000 User.user.

Definition bob : User.doc :=
  User.mk 2%nat "gh-77" None None "bob" (Some "Bob") None None
          1600000000001 User.user.

(** A user with Ada's external id, written by a concurrent sign-in. *)
Definition racer : User.doc :=
  User.mk 7%nat "gh-42" None (Some "ada@example.com") "Ada" (Some "Ada") None None
          1700000000000 User.user.

(** Ada's upload, stored under the server's own uploads directory. *)
Definition cat_local : Image.doc :=
  Image.mk 10%nat "http://localhost:5000/uploads/cat.png" "Cat" "" [] 1%nat []
           1650000000000.

(** The world with Ada's upload: its record and its file. *)
Definition world : World :=
  mkWorld [ada; bob] [cat_local]
          (Fs.mkDisk [(uploads ++ ["cat.png"])%list] [uploads]).

(** Bob's session. *)
Definition bob_session : option Session := Some (mkSession (Some 2%nat)).

(** Two images tagged [cat]; the older one also has it as its title. *)
Definition old_cat : Image.doc :=
  Image.mk 20%nat "https://example.com/a.png" "cat" "" ["cat"] 1%nat [] 1000.

Definition new_cat : Image.doc :=
  Image.mk 21%nat "https://example.com/b.png" "kitten" "" ["cat"] 1%nat [] 2000.

Definition cats : World :=
  mkWorld [ada] [old_cat; new_cat] (Fs.mkDisk [] [uploads]).

(** A title of 101 characters. *)
Definition long_title : string := string_of_list_ascii (repeat "x"%char 101).

(** Two file parts: a PNG and a text file. *)
Definition photo : Images.FilePart := Images.mkFile "holiday.png" "image/png" 2048.
Definition notes : Images.FilePart := Images.mkFile "notes.txt" "text/plain" 12.

(** The same two files as parts of a request, and a PNG whose type is
    declared in capital letters. *)
Definition photo_part : Images.Part :=
  Images.mkPart "holiday.png" "image/png" 2048.
Definition notes_part : Images.Part :=
  Images.mkPart "notes.txt" "text/plain; charset=utf-8" 12.
Definition capitals_part : Images.Part :=
  Images.mkPart "holiday.png" "IMAGE/PNG" 2048.

(** The same world with the source of the image routes on the disk. *)
Definition world_with_sources : World :=
  mkWorld [ada; bob] [cat_local]
          (Fs.mkDisk [(uploads ++ ["cat.png"])%list;
                      ["srv"; "server"; "routes"; "images.js"]]
                     [uploads; ["srv"; "server"; "routes"]]).

(** An administrator. *)
Definition carol : User.doc :=
  User.mk 3%nat "gh-99" None None "carol" (Some "Carol") None None
          1600000000002 User.admin.

(** Bob adds [https://example.com/a.png]. *)
Definition added : Response * World :=
  Images.post_url_handler services env world bob
    (Some "https://example.com/a.png") (Some "A") None None.

(** An image of Ada's at a remote URL, and the world that holds it beside
    her upload. *)
Definition cat_remote : Image.doc :=
  Image.mk 11%nat "https://example.com/a.png" "Remote cat" "" [] 1%nat []
           1650000000001.

Definition gallery : World :=
  mkWorld [ada; bob; carol] [cat_local; cat_remote]
          (Fs.mkDisk [(uploads ++ ["cat.png"])%list] [uploads]).

(** The same records after the file of Ada's upload was lost. *)
Definition gallery_without_file : World :=
  mkWorld [ada; bob; carol] [cat_local; cat_remote] (Fs.mkDisk [] [uploads]).

End Sample.

(** * Properties *)

(** ** Values that are present *)

Lemma truthy_Some (s : string) : s <> "" -> Js.truthy (Some s) = true.
Proof.
  intros H. cbn. destruct (String.eqb_spec s ""); [contradiction | reflexivity].
Qed.

Lemma or_else_Some (s d : string) : s <> "" -> Js.or_else (Some s) d = s.
Proof.
  intros H. cbn. destruct (String.eqb_spec s ""); [contradiction | reflexivity].
Qed.

Lemma startsWith_nonempty (s p : string) :
  p <> "" -> Js.startsWith s p = true -> s <> "".
Proof.
  intros Hp H ->. destruct p; [contradiction | discriminate H].
Qed.

(** ** The Session Resolver *)

Section SessionResolver.

Variable sv : Services.
Variable db : list User.doc.

Lemma ensureAuthenticated_bearer (h : string) :
  Js.startsWith h "Bearer " = true ->
  ensureAuthenticated sv db (Some (mkSession None)) (Some h) =
  match verifyIdToken sv (bearer_token h) with
  | Decoded t =>
      match Db.User_findOne_firebaseUid db (uid t) with
      | None =>
          Reply (mkResponse 401
                   (AuthFailure "User not found. Please log in again."
                                "USER_NOT_FOUND")) (Some (mkSession None))
      | Some u => Next u (Some (mkSession (Some (User._id u))))
      end
  | Rejected _ =>
      Reply (mkResponse 401
               (AuthFailure "Invalid or expired authentication token."
                            "INVALID_TOKEN")) (Some (mkSession None))
  end.
Proof.
  intros Hb.
  assert (Hne : h <> "") by (apply (startsWith_nonempty h "Bearer "); easy).
  unfold ensureAuthenticated.
  rewrite (truthy_Some h Hne), (or_else_Some h "" Hne), Hb. reflexivity.
Qed.

(** C1 (as amended).  A request with a session that holds no user id and a
    bearer token the verifier accepts is authenticated when a user with the
    verified external id exists: that user becomes the principal and its id
    is written into the session.  When the external id is unseen the
    request is rejected with 401 USER_NOT_FOUND and the session is left as
    it was; the middleware has no access to create a user. *)
Theorem C1_bearer_token_resolves_existing_user (h : string) (t : DecodedToken) :
  Js.startsWith h "Bearer " = true ->
  verifyIdToken sv (bearer_token h) = Decoded t ->
  (forall u, Db.User_findOne_firebaseUid db (uid t) = Some u ->
     ensureAuthenticated sv db (Some (mkSession None)) (Some h)
     = Next u (Some (mkSession (Some (User._id u)))))
  /\ (Db.User_findOne_firebaseUid db (uid t) = None ->
     ensureAuthenticated sv db (Some (mkSession None)) (Some h)
     = Reply (mkResponse 401
                (AuthFailure "User not found. Please log in again."
                             "USER_NOT_FOUND")) (Some (mkSession None))).
Proof.
  intros Hb Hv. rewrite (ensureAuthenticated_bearer h Hb), Hv.
  split; intros; match goal with H : _ = _ |- _ => rewrite H end; reflexivity.
Qed.

End SessionResolver.

(** The token of a header [Bearer <token>] is the token, as long as the
    token does not itself hold the separator. *)
Lemma append_assoc (a b c : string) : (a ++ b) ++ c = a ++ (b ++ c).
Proof. induction a as [|x a IH]; simpl; [reflexivity | now rewrite IH]. Qed.

Lemma rev_string_app (s acc : string) :
  Js.rev_string acc s = Js.rev_string "" s ++ acc.
Proof.
  revert acc. induction s as [|c s IH]; intros acc; simpl.
  - reflexivity.
  - rewrite (IH (String c acc)), (IH (String c "")).
    rewrite append_assoc. reflexivity.
Qed.

Lemma rev_string_involutive (s : string) :
  Js.rev_string "" (Js.rev_string "" s) = s.
Proof.
  induction s as [|c s IH]; simpl.
  - reflexivity.
  - rewrite (rev_string_app s (String c "")).
    assert (H : forall a b, Js.rev_string "" (a ++ b)
                            = Js.rev_string (Js.rev_string "" a) b).
    { clear. intros a. generalize "". induction a as [|x a IHa]; intros acc b; simpl.
      - reflexivity.
      - apply IHa. }
    rewrite H, IH. reflexivity.
Qed.

Lemma split_go_no_separator (sep s cur : string) :
  Js.includes s sep = false ->
  Js.split_go sep s O cur = [Js.rev_string "" (Js.rev_string cur s)].
Proof.
  revert cur. induction s as [|c s IH]; intros cur H.
  - reflexivity.
  - cbn [Js.includes] in H. apply orb_false_iff in H. destruct H as [Hp Hs].
    cbn [Js.split_go]. rewrite Hp. cbn [Js.rev_string]. apply IH, Hs.
Qed.

Lemma bearer_token_of_header (tok : string) :
  Js.includes tok "Bearer " = false ->
  bearer_token ("Bearer " ++ tok) = tok.
Proof.
  intros H. unfold bearer_token, Js.split.
  assert (E : Js.split_go "Bearer " ("Bearer " ++ tok) 0 ""
              = "" :: Js.split_go "Bearer " tok 0 "").
  { cbn. destruct tok; reflexivity. }
  rewrite E, (split_go_no_separator _ _ _ H). cbn [nth].
  apply rev_string_involutive.
Qed.

(** C1, witness: Ada signs in with the token [good]. *)
Lemma C1_witness :
  ensureAuthenticated Sample.services [Sample.ada] (Some (mkSession None))
    (Some "Bearer good")
  = Next Sample.ada (Some (mkSession (Some 1%nat))).
Proof.
  apply (C1_bearer_token_resolves_existing_user Sample.services [Sample.ada]
           "Bearer good" Sample.token); reflexivity.
Defined.

(** C1, counterexample: the verifier accepts the token, the external id is
    unseen, and the request is rejected instead of a user being created. *)
Lemma C1_counterexample_unseen_identity_rejected :
  verifyIdToken Sample.services (bearer_token "Bearer good") = Decoded Sample.token
  /\ ensureAuthenticated Sample.services [] (Some (mkSession None))
       (Some "Bearer good")
     = Reply (mkResponse 401
                (AuthFailure "User not found. Please log in again."
                             "USER_NOT_FOUND")) (Some (mkSession None)).
Proof. split; reflexivity. Qed.

(** A stale session in [ensureAuthenticated]: the request is rejected with
    USER_NOT_FOUND and the session keeps its user id. *)
Lemma ensureAuthenticated_stale_session (sv : Services) (db : list User.doc)
    (id : ObjectId) (authorization : option string) :
  Db.User_findById db id = None ->
  ensureAuthenticated sv db (Some (mkSession (Some id))) authorization
  = Reply (mkResponse 401
             (AuthFailure "User not found. Please log in again."
                          "USER_NOT_FOUND")) (Some (mkSession (Some id))).
Proof.
  intros H. unfold ensureAuthenticated. cbn [userId]. rewrite H. reflexivity.
Qed.

(** The same session in [GET /user]: the session is destroyed. *)
Lemma get_user_stale_session (db : list User.doc) (id : ObjectId) :
  Db.User_findById db id = None ->
  Auth.get_user db (Some (mkSession (Some id)))
  = (mkResponse 401 (Message "User not found"), None).
Proof.
  intros H. unfold Auth.get_user. cbn [userId]. rewrite H. reflexivity.
Qed.

(** C8, at the failing input: the session holds the id of a user that is
    gone.  [ensureAuthenticated] answers 401 USER_NOT_FOUND and leaves the
    session in place, where [GET /user] destroys it; the next request with
    this session, even with a good bearer token, is rejected again. *)
Theorem C8_stale_session_is_not_destroyed :
  ensureAuthenticated Sample.services [Sample.ada]
    (Some (mkSession (Some 9%nat))) None
  = Reply (mkResponse 401
             (AuthFailure "User not found. Please log in again."
                          "USER_NOT_FOUND")) (Some (mkSession (Some 9%nat)))
  /\ Auth.get_user [Sample.ada] (Some (mkSession (Some 9%nat)))
     = (mkResponse 401 (Message "User not found"), None)
  /\ ensureAuthenticated Sample.services [Sample.ada]
       (Some (mkSession (Some 9%nat))) (Some "Bearer good")
     = Reply (mkResponse 401
                (AuthFailure "User not found. Please log in again."
                             "USER_NOT_FOUND")) (Some (mkSession (Some 9%nat))).
Proof. repeat split; reflexivity. Qed.

(** ** The User Directory: [POST /firebase-auth] *)

Section UserDirectory.

Variable sv : Services.
Variable env : Env.
Variable others : list User.doc -> list User.doc.
Variable db : list User.doc.
Variable session : option Session.
Variable idToken : option string.
Variable t : DecodedToken.

Hypothesis token_given : Js.truthy idToken = true.
Hypothesis token_verified : verifyIdToken sv (Js.or_else idToken "") = Decoded t.
Hypothesis provider_github :
  Js.truthy (sign_in_provider t)
  && Js.includes (Js.or_else (sign_in_provider t) "") "github" = true.

Lemma firebase_auth_creation :
  Db.User_findOne_firebaseUid db (uid t) = None ->
  Auth.firebase_auth sv env others db session idToken
  = match Db.User_save true (others db) (Auth.created_user env t) with
    | Throw m => (Auth.processing_error m, others db, session)
    | Ok db' => Auth.sign_in (Auth.created_user env t) db' session
    end.
Proof.
  intros Hnone. unfold Auth.firebase_auth.
  rewrite token_given, token_verified. cbn [negb].
  apply andb_true_iff in provider_github. destruct provider_github as [Hp Hg].
  rewrite Hp, Hg. cbn [negb orb]. rewrite Hnone. reflexivity.
Qed.

Lemma find_some_firebaseUid (l : list User.doc) (u : string) (v : User.doc) :
  Db.User_findOne_firebaseUid l u = Some v ->
  In v l /\ User.firebaseUid v = u.
Proof.
  intros H. apply find_some in H. destruct H as [Hin He].
  apply String.eqb_eq in He. auto.
Qed.

(** C7 (as amended).  When the look-up finds no user and a concurrent
    request stores one with the same external id before the save, the save
    is refused and the handler answers 500 "Error processing user data":
    it does not fetch the user again, writes nothing and leaves the session
    as it was. *)
Theorem C7_creation_race_is_reported_as_error (v : User.doc) :
  Db.User_findOne_firebaseUid db (uid t) = None ->
  Db.User_findOne_firebaseUid (others db) (uid t) = Some v ->
  exists m,
    (m = "E11000 duplicate key error" \/ m = "User validation failed")
    /\ Auth.firebase_auth sv env others db session idToken
       = (mkResponse 500 (MessageError "Error processing user data" (Some m)),
          others db, session).
Proof.
  intros Hnone Hrace. rewrite (firebase_auth_creation Hnone).
  apply find_some_firebaseUid in Hrace. destruct Hrace as [Hin Huid].
  set (created := Auth.created_user env t).
  unfold Db.User_save.
  destruct (Db.User_validate created) eqn:Hval; cbn [negb].
  2:{ exists "User validation failed". split; [now right | reflexivity]. }
  exists "E11000 duplicate key error". split; [now left |].
  destruct (Db.User_duplicate (others db) created) eqn:Hdup; [reflexivity |].
  assert (Hst : Db.is_stored (others db) created = true).
  { unfold Db.is_stored. apply existsb_exists. exists v. split; [exact Hin |].
    unfold Db.User_duplicate in Hdup.
    destruct (Nat.eqb (User._id v) (User._id created)) eqn:Hid; [reflexivity |].
    exfalso.
    assert (Hex : existsb
              (fun v0 => String.eqb (User.firebaseUid v0) (User.firebaseUid created)
                         && negb (Nat.eqb (User._id v0) (User._id created)))
              (others db) = true).
    { apply existsb_exists. exists v. split; [exact Hin |].
      rewrite Hid. cbn [negb]. rewrite andb_true_r.
      apply String.eqb_eq. rewrite Huid. reflexivity. }
    rewrite Hex in Hdup. discriminate Hdup. }
  rewrite Hst. reflexivity.
Qed.

End UserDirectory.

(** C7, witness: Ada signs in for the first time while a concurrent sign-in
    stores her user. *)
Lemma C7_witness :
  exists m,
    (m = "E11000 duplicate key error" \/ m = "User validation failed")
    /\ Auth.firebase_auth Sample.services Sample.env
         (fun db => db ++ [Sample.racer])%list [] (Some (mkSession None))
         (Some "good")
       = (mkResponse 500 (MessageError "Error processing user data" (Some m)),
          [Sample.racer], Some (mkSession None)).
Proof.
  apply (C7_creation_race_is_reported_as_error Sample.services Sample.env
           (fun db => db ++ [Sample.racer])%list [] (Some (mkSession None))
           (Some "good") Sample.token eq_refl eq_refl eq_refl Sample.racer);
    reflexivity.
Defined.

(** C7, counterexample: in that run the caller gets an error, not the user
    the concurrent request created. *)
Lemma C7_counterexample_race_surfaces_500 :
  Db.User_findOne_firebaseUid [Sample.racer] "gh-42" = Some Sample.racer
  /\ Auth.firebase_auth Sample.services Sample.env
       (fun db => db ++ [Sample.racer])%list [] (Some (mkSession None))
       (Some "good")
     = (mkResponse 500
          (MessageError "Error processing user data"
                        (Some "E11000 duplicate key error")),
        [Sample.racer], Some (mkSession None)).
Proof. split; reflexivity. Qed.

(** ** Roles *)

Lemma created_user_role (env : Env) (t : DecodedToken) :
  User.role (Auth.created_user env t) = User.user.
Proof. reflexivity. Qed.

Lemma apply_updates_role (u : User.doc) (t : DecodedToken) :
  User.role (Auth.apply_updates u t) = User.role u.
Proof. reflexivity. Qed.

Lemma sign_in_users (u : User.doc) (db : list User.doc) (s : option Session) :
  snd (fst (Auth.sign_in u db s)) = db.
Proof. destruct s; reflexivity. Qed.

(** X8.  No sign-in makes an admin: a user who is an admin after the
    request was one before it.  The collection held a user with the same
    id and the same external identity who was an admin, before the request
    or as the other requests wrote it. *)
Lemma firebase_auth_never_elevates (sv : Services) (env : Env)
    (others : list User.doc -> list User.doc) (db : list User.doc)
    (session : option Session) (idToken : option string) (u' : User.doc) :
  In u' (snd (fst (Auth.firebase_auth sv env others db session idToken))) ->
  User.role u' = User.admin ->
  exists u,
    (In u db \/ In u (others db))
    /\ User._id u = User._id u'
    /\ User.firebaseUid u = User.firebaseUid u'
    /\ User.role u = User.admin.
Proof.
  intros Hin Hadm. unfold Auth.firebase_auth in Hin.
  assert (Hsame : forall l, (l = db \/ l = others db) -> In u' l ->
            exists u, (In u db \/ In u (others db))
                      /\ User._id u = User._id u'
                      /\ User.firebaseUid u = User.firebaseUid u'
                      /\ User.role u = User.admin).
  { intros l [-> | ->] H; exists u'; auto. }
  destruct (negb (Js.truthy idToken)); [cbn in Hin; eauto |].
  destruct (verifyIdToken sv (Js.or_else idToken "")) as [t | code];
    [| cbn in Hin; eauto].
  destruct (negb (Js.truthy (sign_in_provider t))
            || negb (Js.includes (Js.or_else (sign_in_provider t) "") "github"));
    [cbn in Hin; eauto |].
  destruct (Db.User_findOne_firebaseUid db (uid t)) as [u |] eqn:Hfind.
  - apply find_some in Hfind. destruct Hfind as [Hu _].
    destruct (Auth.has_updates u t).
    + unfold Db.User_save in Hin.
      destruct (negb (Db.User_validate (Auth.apply_updates u t)));
        [cbn in Hin; eauto |].
      destruct (Db.User_duplicate (others db) (Auth.apply_updates u t));
        [cbn in Hin; eauto |].
      destruct (Db.is_stored (others db) (Auth.apply_updates u t));
        [| cbn in Hin; eauto].
      rewrite sign_in_users in Hin. apply in_map_iff in Hin.
      destruct Hin as [v [Hv Hvin]].
      destruct (Nat.eqb (User._id v) (User._id (Auth.apply_updates u t))).
      * subst u'. rewrite apply_updates_role in Hadm.
        exists u. cbn [Auth.apply_updates User._id User.firebaseUid]. auto.
      * subst v. eauto.
    + rewrite sign_in_users in Hin. eauto.
  - unfold Db.User_save in Hin.
    destruct (negb (Db.User_validate (Auth.created_user env t)));
      [cbn in Hin; eauto |].
    destruct (Db.User_duplicate (others db) (Auth.created_user env t));
      [cbn in Hin; eauto |].
    destruct (Db.is_stored (others db) (Auth.created_user env t));
      [cbn in Hin; eauto |].
    rewrite sign_in_users in Hin. apply in_app_or in Hin.
    destruct Hin as [Hin | [Hin | []]]; [eauto |].
    subst u'. rewrite created_user_role in Hadm. discriminate Hadm.
Qed.

(** The image routes never write the users collection. *)
Lemma delete_handler_keeps_users (env : Env) (w : World) (p : User.doc)
    (id : option ObjectId) :
  users (snd (Images.delete_handler env w p id)) = users w.
Proof.
  unfold Images.delete_handler.
  destruct id as [i |]; [| reflexivity].
  destruct (Db.Image_findById (images w) i); [| reflexivity].
  destruct (negb _ && negb _); [reflexivity |].
  destruct (Images.remove_upload env (disk w) _); reflexivity.
Qed.

(** A principal without the admin role deletes only its own images. *)
Lemma delete_by_non_owner_forbidden (env : Env) (w : World) (p : User.doc)
    (i : ObjectId) (img : Image.doc) :
  User.role p = User.user ->
  Db.Image_findById (images w) i = Some img ->
  Image.user img <> User._id p ->
  Images.delete_handler env w p (Some i)
  = (mkResponse 403 (Message "Not authorized to delete this image"), w).
Proof.
  intros Hrole Hfind Hown. unfold Images.delete_handler.
  rewrite Hfind, Hrole. apply Nat.eqb_neq in Hown. rewrite Hown. reflexivity.
Qed.

(** C10.  A user made by [POST /firebase-auth] for an unseen external
    identity has the role [user]: the answer reports [isAdmin] false, and
    as a principal that user gets 403 from Delete on every image owned by
    someone else, the world left as it was. *)
Theorem C10_created_user_is_never_admin (sv : Services) (env : Env)
    (others : list User.doc -> list User.doc) (db db' : list User.doc)
    (session session' : option Session) (idToken : option string)
    (t : DecodedToken) (reply : Body) :
  verifyIdToken sv (Js.or_else idToken "") = Decoded t ->
  Db.User_findOne_firebaseUid db (uid t) = None ->
  Auth.firebase_auth sv env others db session idToken
  = (mkResponse 200 reply, db', session') ->
  exists u,
    db' = (others db ++ [u])%list
    /\ session' = Some (mkSession (Some (User._id u)))
    /\ reply = UserBody (User.project u) false
    /\ User.role u = User.user
    /\ User.isAdmin u = false
    /\ forall w i img,
         Db.Image_findById (images w) i = Some img ->
         Image.user img <> User._id u ->
         Images.delete_handler env w u (Some i)
         = (mkResponse 403 (Message "Not authorized to delete this image"), w).
Proof.
  intros Hv Hnone Hrun. unfold Auth.firebase_auth in Hrun.
  destruct (negb (Js.truthy idToken)); [discriminate Hrun |].
  rewrite Hv in Hrun.
  destruct (negb (Js.truthy (sign_in_provider t))
            || negb (Js.includes (Js.or_else (sign_in_provider t) "") "github"));
    [discriminate Hrun |].
  rewrite Hnone in Hrun. unfold Db.User_save in Hrun.
  destruct (negb (Db.User_validate (Auth.created_user env t)));
    [discriminate Hrun |].
  destruct (Db.User_duplicate (others db) (Auth.created_user env t));
    [discriminate Hrun |].
  destruct (Db.is_stored (others db) (Auth.created_user env t));
    [discriminate Hrun |].
  unfold Auth.sign_in in Hrun. destruct session; [| discriminate Hrun].
  injection Hrun as Hreply Hdb Hsess.
  exists (Auth.created_user env t). subst. repeat split.
  intros w i img Hfind Hown.
  apply (delete_by_non_owner_forbidden env w _ i img); auto.
Qed.

(** C10, witness: Ada's first sign-in, then her attempt on Bob's image. *)
Lemma C10_witness :
  exists u,
    [Auth.created_user Sample.env Sample.token] = ([] ++ [u])%list
    /\ Some (mkSession (Some 100%nat)) = Some (mkSession (Some (User._id u)))
    /\ UserBody (User.mkProjection 100%nat "Ada" (Some "Ada") None) false
       = UserBody (User.project u) false
    /\ User.role u = User.user
    /\ User.isAdmin u = false
    /\ forall w i img,
         Db.Image_findById (images w) i = Some img ->
         Image.user img <> User._id u ->
         Images.delete_handler Sample.env w u (Some i)
         = (mkResponse 403 (Message "Not authorized to delete this image"), w).
Proof.
  apply (C10_created_user_is_never_admin Sample.services Sample.env
           (fun db => db) [] _ (Some (mkSession None)) _ (Some "good")
           Sample.token); reflexivity.
Defined.

(** ** Delete *)

Section Delete.

Variable env : Env.
Variable w : World.
Variable principal : User.doc.
Variable i : ObjectId.
Variable image : Image.doc.

Hypothesis found : Db.Image_findById (images w) i = Some image.
Hypothesis allowed :
  Image.user image = User._id principal \/ User.role principal = User.admin.

Lemma delete_handler_allowed :
  Images.delete_handler env w principal (Some i)
  = match Images.remove_upload env (disk w) (Image.imageUrl image) with
    | Throw m => (Images.server_error m, w)
    | Ok d =>
        (mkResponse 200 (RemovedBody "Image successfully removed" (Some i)),
         mkWorld (users w) (Db.Image_findByIdAndDelete (images w) i) d)
    end.
Proof.
  unfold Images.delete_handler. rewrite found.
  destruct allowed as [Ho | Ha].
  - rewrite Ho, Nat.eqb_refl. reflexivity.
  - rewrite Ha. cbn [User.Role_eqb negb]. rewrite andb_false_r. reflexivity.
Qed.

Lemma findByIdAndDelete_gone (db : list Image.doc) :
  Db.Image_findById (Db.Image_findByIdAndDelete db i) i = None.
Proof.
  unfold Db.Image_findById, Db.Image_findByIdAndDelete.
  induction db as [|x db IH]; cbn [filter find]; [reflexivity |].
  destruct (Nat.eqb (Image._id x) i) eqn:E; cbn [negb find]; [exact IH |].
  rewrite E. exact IH.
Qed.

(** X16.  Delete by the owner or an admin of an image whose URL has no
    [/uploads/] in it: the record goes, the disk is not touched. *)
Lemma delete_without_uploads_segment :
  Js.includes (Image.imageUrl image) "/uploads/" = false ->
  Images.delete_handler env w principal (Some i)
  = (mkResponse 200 (RemovedBody "Image successfully removed" (Some i)),
     mkWorld (users w) (Db.Image_findByIdAndDelete (images w) i) (disk w)).
Proof.
  intros H. rewrite delete_handler_allowed. unfold Images.remove_upload.
  rewrite H. reflexivity.
Qed.

(** X17.  Delete by the owner or an admin of an image whose file is not
    on the disk (any more) is not an error: the record goes, and the disk is
    as it was. *)
Lemma delete_missing_file :
  Fs.existsSync (disk w)
    (Fs.join (dirname env)
       ["../uploads"; nth 1 (Js.split (Image.imageUrl image) "/uploads/") ""])
  = false ->
  Images.delete_handler env w principal (Some i)
  = (mkResponse 200 (RemovedBody "Image successfully removed" (Some i)),
     mkWorld (users w) (Db.Image_findByIdAndDelete (images w) i) (disk w)).
Proof.
  intros H. rewrite delete_handler_allowed. unfold Images.remove_upload.
  rewrite H. destruct (Js.includes _ _); reflexivity.
Qed.

End Delete.

(** C2, at the failing input.  Bob adds the remote URL
    [https://evil.example/uploads/cat.png] and deletes that image again.
    The URL is not one of this server's uploads, yet the delete unlinks
    [uploads/cat.png], the file of Ada's image, whose record stays.  With
    the remote URL [https://evil.example/uploads/] the clean-up runs into
    the uploads directory itself: the owner gets 500 and the record is
    not removed. *)
Theorem C2_remote_url_delete_unlinks_local_file :
  let added :=
    Images.post_url Sample.services Sample.env Sample.world Sample.bob_session
      None (Some "https://evil.example/uploads/cat.png") (Some "Cat") None None in
  let deleted :=
    Images.delete_image Sample.services Sample.env (snd (fst added))
      Sample.bob_session None (Some 100%nat) in
  let added_dir :=
    Images.post_url Sample.services Sample.env Sample.world Sample.bob_session
      None (Some "https://evil.example/uploads/") None None None in
  let deleted_dir :=
    Images.delete_image Sample.services Sample.env (snd (fst added_dir))
      Sample.bob_session None (Some 100%nat) in
  Spec.local_upload "http" "localhost:5000" "https://evil.example/uploads/cat.png"
  = false
  /\ status (fst (fst added)) = 201
  /\ Fs.files (disk (snd (fst added))) = [["srv"; "server"; "uploads"; "cat.png"]]
  /\ status (fst (fst deleted)) = 200
  /\ images (snd (fst deleted)) = [Sample.cat_local]
  /\ Fs.files (disk (snd (fst deleted))) = []
  /\ status (fst (fst added_dir)) = 201
  /\ status (fst (fst deleted_dir)) = 500
  /\ snd (fst deleted_dir) = snd (fst added_dir).
Proof. vm_compute. repeat split; reflexivity. Qed.

(** The same clean-up follows dots in the remote URL out of the uploads
    directory: Bob's delete unlinks the source file of the routes. *)
Lemma delete_remote_url_leaves_uploads_directory :
  let added :=
    Images.post_url Sample.services Sample.env Sample.world_with_sources
      Sample.bob_session None
      (Some "https://evil.example/uploads/../routes/images.js") None None None in
  let deleted :=
    Images.delete_image Sample.services Sample.env (snd (fst added))
      Sample.bob_session None (Some 100%nat) in
  status (fst (fst added)) = 201
  /\ status (fst (fst deleted)) = 200
  /\ Fs.files (disk (snd (fst deleted))) = [["srv"; "server"; "uploads"; "cat.png"]].
Proof. vm_compute. repeat split; reflexivity. Qed.

(** ** Listing and searching *)

Section Sorting.

Context {A : Type}.
Variable key : A -> Z.

Lemma insert_desc_forall (P : A -> Prop) (x : A) (l : list A) :
  P x -> Forall P l -> Forall P (Db.insert_desc key x l).
Proof.
  intros Hx Hl. induction Hl as [|y l Hy Hl IH]; cbn [Db.insert_desc].
  - constructor; [exact Hx | constructor].
  - destruct (key y <=? key x); repeat constructor; assumption.
Qed.

Lemma insert_desc_sorted (x : A) (l : list A) :
  Spec.descending key l -> Spec.descending key (Db.insert_desc key x l).
Proof.
  unfold Spec.descending. intros Hl.
  induction Hl as [|y l Hl IH Hy]; cbn [Db.insert_desc].
  - constructor; constructor.
  - destruct (key y <=? key x) eqn:E.
    + apply Z.leb_le in E. constructor.
      * constructor; assumption.
      * constructor; [exact E |].
        eapply Forall_impl; [| exact Hy]. cbn. intros; lia.
    + apply Z.leb_gt in E. constructor; [exact IH |].
      apply insert_desc_forall; [lia | exact Hy].
Qed.

Lemma sort_desc_sorted (l : list A) : Spec.descending key (Db.sort_desc key l).
Proof.
  induction l as [|x l IH]; cbn [Db.sort_desc fold_right].
  - constructor.
  - apply insert_desc_sorted, IH.
Qed.

Lemma insert_desc_length (x : A) (l : list A) :
  length (Db.insert_desc key x l) = S (length l).
Proof.
  induction l as [|y l IH]; cbn [Db.insert_desc]; [reflexivity |].
  destruct (key y <=? key x); cbn [length]; [reflexivity | now rewrite IH].
Qed.

Lemma sort_desc_length (l : list A) : length (Db.sort_desc key l) = length l.
Proof.
  induction l as [|x l IH]; cbn [Db.sort_desc fold_right length]; [reflexivity |].
  fold (Db.sort_desc key l). now rewrite insert_desc_length, IH.
Qed.

Lemma descending_skipn (n : nat) (l : list A) :
  Spec.descending key l -> Spec.descending key (skipn n l).
Proof.
  unfold Spec.descending. revert l. induction n as [|n IH]; intros l Hl.
  - exact Hl.
  - destruct l as [|x l]; [constructor |].
    cbn [skipn]. apply IH. now inversion Hl.
Qed.

Lemma in_firstn (n : nat) (l : list A) (y : A) : In y (firstn n l) -> In y l.
Proof.
  revert l. induction n as [|n IH]; intros [|x l] H; cbn [firstn] in H;
    try contradiction.
  destruct H as [H | H]; [now left | right; apply IH, H].
Qed.

Lemma descending_firstn (n : nat) (l : list A) :
  Spec.descending key l -> Spec.descending key (firstn n l).
Proof.
  unfold Spec.descending. revert l. induction n as [|n IH]; intros l Hl.
  - constructor.
  - destruct l as [|x l]; [constructor |].
    cbn [firstn]. inversion Hl as [|? ? Hs Hf]; subst. constructor.
    + apply IH, Hs.
    + apply Forall_forall. intros y Hy. apply in_firstn in Hy.
      revert y Hy. apply Forall_forall. exact Hf.
Qed.

(** A page of a sorted query, for a positive limit and page number: the
    query runs, and returns this many documents, largest key first. *)
Lemma skip_limit_page (limit page : Z) (l : list A) :
  0 < limit -> 0 < page ->
  exists found,
    Images.skip_limit ((page - 1) * limit) limit (Db.sort_desc key l) = Ok found
    /\ Z.of_nat (length found)
       = Z.min limit (Z.max 0 (Z.of_nat (length l) - (page - 1) * limit))
    /\ Spec.descending key found.
Proof.
  intros Hl Hp. unfold Images.skip_limit, Db.skip, Db.limit.
  assert (Hs : 0 <= (page - 1) * limit) by nia.
  destruct ((page - 1) * limit <? 0) eqn:E; [apply Z.ltb_lt in E; lia |].
  destruct (limit =? 0) eqn:E0; [apply Z.eqb_eq in E0; lia |].
  eexists. split; [reflexivity |]. split.
  - rewrite length_firstn, length_skipn, sort_desc_length.
    rewrite Z.abs_eq by lia. lia.
  - apply descending_firstn, descending_skipn, sort_desc_sorted.
Qed.

End Sorting.

Lemma ceil_div_is_ceil (total limit : Z) :
  0 < limit ->
  exists p, Images.ceil_div total limit = Some p /\ Spec.is_ceil total limit p.
Proof.
  intros Hl. unfold Images.ceil_div, Spec.is_ceil.
  destruct (limit =? 0) eqn:E; [apply Z.eqb_eq in E; lia |].
  eexists. split; [reflexivity |].
  pose proof (Z.div_mod (- total) limit ltac:(lia)) as Hdm.
  pose proof (Z.mod_pos_bound (- total) limit Hl) as Hb.
  nia.
Qed.

Lemma descending_populate (us : list User.doc) (key : Image.doc -> Z)
    (l : list Image.doc) :
  Spec.descending key l ->
  Spec.descending (fun x : Populated => key (fst x)) (map (Db.populate us) l).
Proof.
  unfold Spec.descending. intros H.
  induction H as [|x l Hs IH Hf]; cbn [map]; constructor.
  - exact IH.
  - apply Forall_map. exact Hf.
Qed.

(** C3 (as amended).  For a positive limit and page number, the listing
    (of all images, or of one user's) and the search answer 200 with an
    envelope whose [pages] is [ceil(total / limit)] and with
    [min(limit, max(0, total - (page - 1) * limit))] images.  The listings
    are sorted newest first; the search is sorted by relevance, highest
    score first. *)
Theorem C3_pagination_envelope (sv : Services) (w : World) (limit page : Z)
    (q username : string) :
  0 < limit -> 0 < page ->
  (exists imgs p,
     let total := Z.of_nat (length (images w)) in
     Images.get_images w (Some limit) (Some page)
     = mkResponse 200 (PageBody imgs (mkPagination total page limit (Some p)))
     /\ Spec.is_ceil total limit p
     /\ Z.of_nat (length imgs)
        = Z.min limit (Z.max 0 (total - (page - 1) * limit))
     /\ Spec.descending (fun x : Populated => Image.createdAt (fst x)) imgs)
  /\ (forall u, Db.User_findOne_username (users w) username = Some u ->
      exists imgs p,
        let total :=
          Z.of_nat (length (filter (fun i => Nat.eqb (Image.user i) (User._id u))
                                   (images w))) in
        Images.get_user_images w username (Some limit) (Some page)
        = mkResponse 200
            (UserPageBody imgs (mkPagination total page limit (Some p))
                          (User.project u))
        /\ Spec.is_ceil total limit p
        /\ Z.of_nat (length imgs)
           = Z.min limit (Z.max 0 (total - (page - 1) * limit))
        /\ Spec.descending (fun x : Populated => Image.createdAt (fst x)) imgs)
  /\ (q <> "" ->
      exists imgs p,
        let total := Z.of_nat (length (filter (textMatch sv q) (images w))) in
        Images.search_images sv w (Some q) (Some limit) (Some page)
        = mkResponse 200
            (SearchBody imgs (mkPagination total page limit (Some p)) q)
        /\ Spec.is_ceil total limit p
        /\ Z.of_nat (length imgs)
           = Z.min limit (Z.max 0 (total - (page - 1) * limit))
        /\ Spec.descending (fun x : Populated => textScore sv q (fst x)) imgs).
Proof.
  intros Hl Hp. split; [| split].
  - destruct (skip_limit_page Image.createdAt limit page (images w) Hl Hp)
      as [found [Hrun [Hlen Hsorted]]].
    destruct (ceil_div_is_ceil (Z.of_nat (length (images w))) limit Hl)
      as [p [Hceil Hp']].
    exists (map (Db.populate (users w)) found), p.
    unfold Images.get_images. cbn [Images.or_default].
    rewrite Hrun, Hceil. repeat split; try apply Hp'.
    + rewrite length_map. exact Hlen.
    + apply descending_populate, Hsorted.
  - intros u Hu.
    set (own := filter (fun i => Nat.eqb (Image.user i) (User._id u)) (images w)).
    destruct (skip_limit_page Image.createdAt limit page own Hl Hp)
      as [found [Hrun [Hlen Hsorted]]].
    destruct (ceil_div_is_ceil (Z.of_nat (length own)) limit Hl)
      as [p [Hceil Hp']].
    exists (map (Db.populate (users w)) found), p.
    unfold Images.get_user_images. rewrite Hu. cbn [Images.or_default].
    fold own. rewrite Hrun, Hceil. repeat split; try apply Hp'.
    + rewrite length_map. exact Hlen.
    + apply descending_populate, Hsorted.
  - intros Hq.
    set (selected := filter (textMatch sv q) (images w)).
    destruct (skip_limit_page (textScore sv q) limit page selected Hl Hp)
      as [found [Hrun [Hlen Hsorted]]].
    destruct (ceil_div_is_ceil (Z.of_nat (length selected)) limit Hl)
      as [p [Hceil Hp']].
    exists (map (Db.populate (users w)) found), p.
    unfold Images.search_images. cbn [Images.or_default].
    rewrite (truthy_Some q Hq), (or_else_Some q "" Hq). cbn [negb].
    fold selected. rewrite Hrun, Hceil.
    repeat split; try apply Hp'.
    + rewrite length_map. exact Hlen.
    + apply descending_populate, Hsorted.
Qed.

(** C3, witness: the first page of size one over the two cat images. *)
Lemma C3_witness :
  exists imgs p,
    let total := Z.of_nat (length (images Sample.cats)) in
    Images.get_images Sample.cats (Some 1) (Some 1)
    = mkResponse 200 (PageBody imgs (mkPagination total 1 1 (Some p)))
    /\ Spec.is_ceil total 1 p
    /\ Z.of_nat (length imgs) = Z.min 1 (Z.max 0 (total - (1 - 1) * 1))
    /\ Spec.descending (fun x : Populated => Image.createdAt (fst x)) imgs.
Proof.
  apply (C3_pagination_envelope Sample.services Sample.cats 1 1 "cat" "Ada");
    reflexivity.
Defined.

(** C3, counterexample: the search for [cat] puts the older image first,
    because it scores higher; the result is not sorted newest first. *)
Lemma C3_counterexample_search_not_newest_first :
  exists imgs pg,
    Images.search_images Sample.services Sample.cats (Some "cat") (Some 50) (Some 1)
    = mkResponse 200 (SearchBody imgs pg "cat")
    /\ map fst imgs = [Sample.old_cat; Sample.new_cat]
    /\ Image.createdAt Sample.old_cat < Image.createdAt Sample.new_cat
    /\ ~ Spec.descending (fun x : Populated => Image.createdAt (fst x)) imgs.
Proof.
  eexists. eexists. split; [vm_compute; reflexivity |].
  split; [reflexivity |]. split; [reflexivity |].
  intros H. inversion H as [|? ? _ Hf]; subst.
  inversion Hf as [|? ? Hle _]; subst. cbn in Hle. lia.
Qed.

(** ** Add-by-URL *)

Section AddByUrl.

Variable sv : Services.

Lemma isValidImageUrl_iff (url : option string) :
  Images.isValidImageUrl sv url = true <-> Images.url_accepted sv url.
Proof.
  unfold Images.isValidImageUrl, Images.url_accepted. split.
  - destruct url as [u |]; cbn [Js.truthy negb]; [| discriminate].
    destruct (String.eqb_spec u "") as [-> | Hne]; cbn [negb]; [discriminate |].
    rewrite (or_else_Some u "" Hne).
    destruct (Regex.matches Images.url_pattern u) eqn:Hm; cbn [negb];
      [| discriminate].
    destruct (axios_head sv u) as [m | st ct] eqn:Hh; [discriminate |].
    unfold Images.validateStatus.
    destruct (st <? 400) eqn:Hst; [| discriminate].
    destruct ct as [ct |]; cbn [Js.truthy]; [| discriminate].
    destruct (String.eqb_spec ct "") as [-> | Hct]; cbn [negb andb];
      [discriminate |].
    rewrite (or_else_Some ct "" Hct). intros Hs. exists u, st, ct.
    apply Z.ltb_lt in Hst. repeat split; auto.
  - intros [u [st [ct [-> [Hne [Hm [Hh [Hst Hs]]]]]]]].
    rewrite (truthy_Some u Hne), (or_else_Some u "" Hne), Hm, Hh. cbn [negb].
    unfold Images.validateStatus. apply Z.ltb_lt in Hst. rewrite Hst.
    assert (Hct : ct <> "") by (apply (startsWith_nonempty ct "image/"); easy).
    rewrite (truthy_Some ct Hct), (or_else_Some ct "" Hct), Hs. reflexivity.
Qed.

End AddByUrl.

Lemma create_image_created (env : Env) (w : World) (owner : User.doc)
    (imageUrl title description : string) (tags : option (list string)) :
  status (fst (Images.create_image env w owner imageUrl title description tags))
  = 201
  <-> exists tl,
        tags = Some tl
        /\ Image.validate
             (Image.create (fresh env) (now env) imageUrl title description tl
                (User._id owner)) = true
        /\ Db.Image_id_used (images w) (fresh env) = false.
Proof.
  unfold Images.create_image, Db.Image_save. split.
  - destruct tags as [tl |]; [| discriminate].
    destruct (Image.validate _) eqn:Hv; cbn [negb]; [| discriminate].
    change (Image._id (Image.create (fresh env) (now env) imageUrl title
                         description tl (User._id owner))) with (fresh env).
    destruct (Db.Image_id_used (images w) (fresh env)) eqn:Hu; [discriminate |].
    intros _. exists tl. auto.
  - intros [tl [-> [Hv Hu]]]. rewrite Hv. cbn [negb].
    change (Image._id (Image.create (fresh env) (now env) imageUrl title
                         description tl (User._id owner))) with (fresh env).
    rewrite Hu. reflexivity.
Qed.

Lemma create_image_not_created (env : Env) (w : World) (owner : User.doc)
    (imageUrl title description : string) (tags : option (list string)) :
  status (fst (Images.create_image env w owner imageUrl title description tags))
  <> 201 ->
  exists m,
    Images.create_image env w owner imageUrl title description tags
    = (Images.server_error m, w).
Proof.
  unfold Images.create_image, Db.Image_save.
  destruct tags as [tl |]; [| eauto].
  destruct (negb (Image.validate _)); [eauto |].
  destruct (Db.Image_id_used _ _); [eauto |].
  cbn. intros H. contradiction H. reflexivity.
Qed.

(** C4 (as amended).  Add-by-URL answers 201 exactly when the URL is
    non-empty, matches the pattern (http or https scheme, host, optional
    path), the HEAD request is answered within the timeout with a status
    below 400 and a content-type beginning with [image/], and the document
    passes the validators of the schema.  A non-empty URL that fails the
    URL conditions is answered 400 with the invalid-image-URL message, and
    nothing is stored; a URL that meets them with a document the schema
    refuses is answered 500, and nothing is stored. *)
Theorem C4_add_by_url_outcomes (sv : Services) (env : Env) (w : World)
    (owner : User.doc) (imageUrl title description : option string)
    (tags : option Json.value) :
  let run := Images.post_url_handler sv env w owner imageUrl title description
               tags in
  (status (fst run) = 201
   <-> Images.url_accepted sv imageUrl
       /\ Images.url_document_ok sv env w owner imageUrl title description tags)
  /\ (Js.truthy imageUrl = true -> ~ Images.url_accepted sv imageUrl ->
      run = (mkResponse 400
               (Message "Invalid image URL. Please provide a direct link to an image file."),
             w))
  /\ (Images.url_accepted sv imageUrl ->
      ~ Images.url_document_ok sv env w owner imageUrl title description tags ->
      exists m, run = (Images.server_error m, w)).
Proof.
  cbv zeta. unfold Images.post_url_handler, Images.url_document_ok.
  pose proof (isValidImageUrl_iff sv imageUrl) as Hiff.
  destruct (Js.truthy imageUrl) eqn:Ht; cbn [negb].
  - destruct (Images.isValidImageUrl sv imageUrl) eqn:Hv; cbn [negb].
    + assert (Hacc : Images.url_accepted sv imageUrl) by (apply Hiff; reflexivity).
      split; [| split].
      * rewrite create_image_created. tauto.
      * intros _ Hn. contradiction.
      * intros _ Hn. apply create_image_not_created.
        rewrite create_image_created. exact Hn.
    + assert (Hacc : ~ Images.url_accepted sv imageUrl).
      { intros H. apply Hiff in H. discriminate H. }
      split; [| split].
      * cbn. split; [discriminate | tauto].
      * reflexivity.
      * intros H. contradiction.
  - assert (Hacc : ~ Images.url_accepted sv imageUrl).
    { intros [u [st [ct [-> [Hne _]]]]]. cbn in Ht.
      destruct (String.eqb_spec u ""); [contradiction | discriminate Ht]. }
    split; [| split].
    + cbn. split; [discriminate | tauto].
    + discriminate.
    + intros H. contradiction.
Qed.

(** C4, counterexample.  The first URL is non-empty and well-formed and
    its HEAD answers 200 with [image/png], yet with a title of 101
    characters Add-by-URL fails.  The HEAD of the second URL answers 304,
    which is not a success status, and Add-by-URL succeeds. *)
Lemma C4_counterexample_title_limit_and_status_304 :
  (Regex.matches Images.url_pattern "https://example.com/a.png" = true
   /\ axios_head Sample.services "https://example.com/a.png"
      = Answer 200 (Some "image/png")
   /\ Spec.success_status 200 = true
   /\ Images.post_url_handler Sample.services Sample.env Sample.world Sample.bob
        (Some "https://example.com/a.png") (Some Sample.long_title) None None
      = (mkResponse 500 (MessageError "Server Error" (Some "Image validation failed")),
         Sample.world))
  /\ (axios_head Sample.services "https://example.com/moved.png"
      = Answer 304 (Some "image/png")
      /\ Spec.success_status 304 = false
      /\ status (fst (Images.post_url_handler Sample.services Sample.env
                        Sample.world Sample.bob
                        (Some "https://example.com/moved.png") (Some "Moved")
                        None None)) = 201).
Proof. vm_compute. repeat split; reflexivity. Qed.

(** C4, witness: Bob adds [https://example.com/a.png]. *)
Lemma C4_witness :
  status (fst (Images.post_url_handler Sample.services Sample.env Sample.world
                 Sample.bob (Some "https://example.com/a.png") (Some "A") None
                 None)) = 201.
Proof.
  apply (C4_add_by_url_outcomes Sample.services Sample.env Sample.world
           Sample.bob (Some "https://example.com/a.png") (Some "A") None None).
  split.
  - exists "https://example.com/a.png", 200, "image/png".
    repeat split; discriminate.
  - exists []. repeat split.
Defined.

(** ** Add-by-upload *)

Lemma writeFile_is_file (d : Fs.disk) (p : Fs.path) :
  Fs.is_file (Fs.writeFile d p) p = true.
Proof.
  unfold Fs.writeFile. destruct (Fs.is_file d p) eqn:Hf; [exact Hf |].
  unfold Fs.is_file. cbn [Fs.files existsb]. unfold Fs.path_eqb at 1.
  destruct (list_eq_dec string_dec p p); [reflexivity | contradiction].
Qed.

Section AddByUpload.

Variable sv : Services.
Variable env : Env.
Variable w : World.
Variable session : option Session.
Variable authorization : option string.
Variable protocol host : string.
Variable f : Images.FilePart.
Variable part : Images.Part.
Variable title description tags : option string.
Variable principal : User.doc.
Variable session' : option Session.

Hypothesis authenticated :
  ensureAuthenticated sv (users w) session authorization = Next principal session'.

(** C5 (as amended).  An authenticated upload whose MIME type, as
    multer's parser reports it for the Content-Type the part declares,
    does not start with [image/] is refused by the file filter with
    "Only image files are allowed!"; the error reaches the global error
    handler, which answers 500 "Server Error"; no file is written and
    nothing else changes. *)
Theorem C5_non_image_upload_answers_500 :
  Js.startsWith (partType sv (Images.part_contentType part)) "image/" = false ->
  Images.post_upload_request sv env w session authorization protocol host
    (Some part) title description tags
  = (mkResponse 500
       (MessageError "Server Error"
          (if production env then None else Some "Only image files are allowed!")),
     w, session').
Proof.
  intros Hm. unfold Images.post_upload_request, Images.post_upload.
  rewrite authenticated. cbn [option_map].
  unfold Images.upload_single, Images.fileFilter, Images.file_of_part.
  cbn [Images.mimetype]. rewrite Hm.
  unfold global_error_handler. destruct w; reflexivity.
Qed.

(** C6 (as amended).  An authenticated upload of an image file within the
    size limit whose [tags] field is present and is not parseable JSON is
    answered by the handler's catch-all with 500 "Server Error" and the
    message of the parser; no image is stored, and the uploaded file stays
    on the disk. *)
Theorem C6_malformed_tags_answer_500 (raw : string) :
  Js.startsWith (Images.mimetype f) "image/" = true ->
  Images.size f <= Images.fileSize_limit ->
  tags = Some raw -> raw <> "" ->
  Json.parse raw = None ->
  exists d name,
    Images.upload_single env (disk w) (Some f) = (Ok (Some name), d)
    /\ Fs.is_file d (Images.uploadDir env ++ [name])%list = true
    /\ Images.post_upload sv env w session authorization protocol host (Some f)
         title description tags
       = (mkResponse 500 (MessageError "Server Error" (Some Images.syntax_error)),
          mkWorld (users w) (images w) d, session').
Proof.
  intros Hm Hsz -> Hne Hparse.
  unfold Images.post_upload. rewrite authenticated.
  unfold Images.upload_single, Images.fileFilter. rewrite Hm.
  destruct (Images.fileSize_limit <? Images.size f) eqn:E;
    [apply Z.ltb_lt in E; lia |].
  eexists. eexists. split; [reflexivity |]. split.
  - apply writeFile_is_file.
  - unfold Images.post_upload_handler.
    rewrite (truthy_Some raw Hne), (or_else_Some raw "" Hne), Hparse.
    reflexivity.
Qed.

End AddByUpload.

(** C5, witness: Bob uploads a text file. *)
Lemma C5_witness :
  Images.post_upload_request Sample.services Sample.env Sample.world
    Sample.bob_session None "http" "localhost:5000" (Some Sample.notes_part)
    (Some "Notes") None None
  = (mkResponse 500
       (MessageError "Server Error" (Some "Only image files are allowed!")),
     Sample.world, Sample.bob_session).
Proof.
  apply (C5_non_image_upload_answers_500 Sample.services Sample.env Sample.world
           Sample.bob_session None "http" "localhost:5000" Sample.notes_part
           (Some "Notes") None None Sample.bob Sample.bob_session);
    reflexivity.
Defined.

(** C5, counterexample: the refusal of a text file is answered with 500,
    which is not a 4xx status. *)
Lemma C5_counterexample_unsupported_type_is_500 :
  Js.startsWith (Images.part_contentType Sample.notes_part) "image/" = false
  /\ status (fst (fst (Images.post_upload_request Sample.services Sample.env
                         Sample.world Sample.bob_session None "http"
                         "localhost:5000" (Some Sample.notes_part)
                         (Some "Notes") None None))) = 500
  /\ Spec.client_error 500 = false.
Proof. vm_compute. repeat split; reflexivity. Qed.

(** It is the reported type that counts, not the declared one: with a
    parser that reports types in lower case, a PNG declared as
    [IMAGE/PNG] does not start with [image/] as declared, and is stored
    and answered 201. *)
Example upload_declared_in_capitals_is_stored :
  Js.startsWith (Images.part_contentType Sample.capitals_part) "image/" = false
  /\ status (fst (fst (Images.post_upload_request Sample.services Sample.env
                         Sample.world Sample.bob_session None "http"
                         "localhost:5000" (Some Sample.capitals_part)
                         (Some "Holiday") None None))) = 201
  /\ Fs.is_file
       (disk (snd (fst (Images.post_upload_request Sample.services Sample.env
                          Sample.world Sample.bob_session None "http"
                          "localhost:5000" (Some Sample.capitals_part)
                          (Some "Holiday") None None))))
       (Images.uploadDir Sample.env ++ ["3f2b8c1e.png"])%list = true.
Proof. vm_compute. repeat split; reflexivity. Qed.

(** C6, witness: Bob uploads a PNG with tags that are not JSON. *)
Lemma C6_witness :
  exists d name,
    Images.upload_single Sample.env (disk Sample.world) (Some Sample.photo)
    = (Ok (Some name), d)
    /\ Fs.is_file d (Images.uploadDir Sample.env ++ [name])%list = true
    /\ Images.post_upload Sample.services Sample.env Sample.world
         Sample.bob_session None "http" "localhost:5000" (Some Sample.photo)
         (Some "Holiday") None (Some "nature, travel")
       = (mkResponse 500 (MessageError "Server Error" (Some Images.syntax_error)),
          mkWorld (users Sample.world) (images Sample.world) d,
          Sample.bob_session).
Proof.
  apply (C6_malformed_tags_answer_500 Sample.services Sample.env Sample.world
           Sample.bob_session None "http" "localhost:5000" Sample.photo
           (Some "Holiday") None (Some "nature, travel") Sample.bob
           Sample.bob_session eq_refl "nature, travel");
    try reflexivity; [discriminate | discriminate].
Defined.

(** C6, counterexample: tags that are not JSON are answered with 500,
    which is not a 4xx status. *)
Lemma C6_counterexample_malformed_tags_is_500 :
  Json.parse "nature, travel" = None
  /\ status (fst (fst (Images.post_upload Sample.services Sample.env Sample.world
                         Sample.bob_session None "http" "localhost:5000"
                         (Some Sample.photo) (Some "Holiday") None
                         (Some "nature, travel")))) = 500
  /\ Spec.client_error 500 = false.
Proof. vm_compute. repeat split; reflexivity. Qed.

(** ** The pre-save hook *)

Lemma findById_app_new (db : list Image.doc) (d : Image.doc) :
  Db.Image_id_used db (Image._id d) = false ->
  Db.Image_findById (db ++ [d]) (Image._id d) = Some d.
Proof.
  unfold Db.Image_id_used, Db.Image_findById.
  induction db as [|x db IH]; cbn [existsb find app]; intros H.
  - now rewrite Nat.eqb_refl.
  - apply orb_false_iff in H. destruct H as [Hx Hdb].
    rewrite Hx. apply IH, Hdb.
Qed.

Lemma append_injective (p a b : string) : p ++ a = p ++ b -> a = b.
Proof.
  induction p as [|c p IH]; cbn [append]; intros H; [exact H |].
  injection H as H. apply IH, H.
Qed.

(** C9 (as amended).  An image made from a submitted URL and accepted by
    the collection, whose URL after the trim of the schema does not start
    with [http://] or [https://], is stored with [https://] in front of
    the trimmed URL.  So the stored URL is the submitted URL prefixed with
    [https://] exactly when the submitted URL has no white space at its
    ends. *)
Theorem C9_scheme_less_url_stored_with_https (db db' : list Image.doc)
    (id : ObjectId) (now : Z) (url title description : string)
    (tags : list string) (owner : ObjectId) (d' : Image.doc) :
  Db.Image_save db (Image.create id now url title description tags owner)
  = Ok (d', db') ->
  Regex.matches_prefix Image.scheme_pattern (Js.trim url) = false ->
  Image.imageUrl d' = "https://" ++ Js.trim url
  /\ (Image.imageUrl d' = "https://" ++ url <-> Js.trim url = url)
  /\ db' = (db ++ [d'])%list
  /\ Db.Image_findById db' id = Some d'.
Proof.
  intros Hsave Hno. unfold Db.Image_save in Hsave.
  set (d := Image.create id now url title description tags owner) in *.
  destruct (Image.validate d) eqn:Hv; cbn [negb] in Hsave; [| discriminate].
  destruct (Db.Image_id_used db (Image._id d)) eqn:Hu; [discriminate |].
  injection Hsave as Hd Hdb.
  assert (Hurl : String.eqb (Image.imageUrl d) "" = false).
  { unfold Image.validate in Hv.
    destruct (String.eqb (Image.imageUrl d) ""); [discriminate Hv | reflexivity]. }
  assert (Hpre : Image.pre_save d
                 = Image.with_imageUrl d ("https://" ++ Js.trim url)).
  { unfold Image.pre_save. rewrite Hurl.
    change (Image.imageUrl d) with (Js.trim url). rewrite Hno. reflexivity. }
  rewrite Hpre in Hd, Hdb. subst d' db'.
  cbn [Image.imageUrl Image.with_imageUrl]. repeat split.
  - apply append_injective.
  - now intros ->.
  - apply (findById_app_new db (Image.with_imageUrl d _)). exact Hu.
Qed.

(** C9, witness: the URL [example.com/a.png]. *)
Lemma C9_witness :
  let d' := Image.mk 30%nat "https://example.com/a.png" "A" "" [] 1%nat [] 5000 in
  Image.imageUrl d' = "https://" ++ Js.trim "example.com/a.png"
  /\ (Image.imageUrl d' = "https://" ++ "example.com/a.png"
      <-> Js.trim "example.com/a.png" = "example.com/a.png")
  /\ [Sample.cat_local; d'] = ([Sample.cat_local] ++ [d'])%list
  /\ Db.Image_findById [Sample.cat_local; d'] 30%nat = Some d'.
Proof.
  apply (C9_scheme_less_url_stored_with_https [Sample.cat_local]
           [Sample.cat_local;
            Image.mk 30%nat "https://example.com/a.png" "A" "" [] 1%nat [] 5000]
           30%nat 5000 "example.com/a.png" "A" "" [] 1%nat);
    reflexivity.
Defined.

(** C9, counterexample: a submitted URL that lacks the scheme and starts
    with a blank is accepted, and is not stored as the submitted URL with
    [https://] in front: the blank is gone. *)
Lemma C9_counterexample_blank_before_url :
  let url := " example.com/a.png" in
  let d' := Image.mk 30%nat "https://example.com/a.png" "A" "" [] 1%nat [] 5000 in
  Regex.matches_prefix Image.scheme_pattern url = false
  /\ Db.Image_save [Sample.cat_local]
       (Image.create 30%nat 5000 url "A" "" [] 1%nat)
     = Ok (d', [Sample.cat_local; d'])
  /\ Image.imageUrl d' <> "https://" ++ url.
Proof.
  cbv zeta. repeat split; try reflexivity.
  cbn [Image.imageUrl]. discriminate.
Qed.

(** A URL that has the scheme is stored unchanged. *)
Lemma pre_save_keeps_url_with_scheme (d : Image.doc) :
  Regex.matches_prefix Image.scheme_pattern (Image.imageUrl d) = true ->
  Image.pre_save d = d.
Proof.
  intros H. unfold Image.pre_save. rewrite H. cbn [negb].
  now rewrite andb_false_r.
Qed.

(** *** What the pattern of [isValidImageUrl] lets through *)

Lemma matches_Void (s : string) : Regex.matches Regex.Void s = false.
Proof. induction s as [|c s IH]; [reflexivity | exact IH]. Qed.

Lemma matches_matches_prefix (r : Regex.re) (s : string) :
  Regex.matches r s = true -> Regex.matches_prefix r s = true.
Proof.
  revert r. induction s as [|c s IH]; intros r H; cbn in *.
  - now rewrite H.
  - rewrite (IH _ H). apply orb_true_r.
Qed.

Lemma nullable_matches_prefix (r : Regex.re) (s : string) :
  Regex.nullable r = true -> Regex.matches_prefix r s = true.
Proof. intros H. destruct s; cbn; now rewrite H. Qed.

(** One step of the argument below: what holds of [Cat] on a string holds
    of the smart constructor on it. *)
Lemma matches_cat_step (s : string) :
  (forall a b, Regex.matches (Regex.Cat a b) s = true ->
               Regex.matches_prefix a s = true) ->
  forall a b, Regex.matches (Regex.cat a b) s = true ->
              Regex.matches_prefix a s = true.
Proof.
  intros IH a b. unfold Regex.cat.
  destruct a, b; intros H;
    try (rewrite matches_Void in H; discriminate H);
    try (now apply nullable_matches_prefix);
    try (now apply matches_matches_prefix);
    now apply (IH _ _ H).
Qed.

(** A string in the language of [a b] starts with a string in the language
    of [a]. *)
Lemma matches_Cat_prefix (s : string) (a b : Regex.re) :
  Regex.matches (Regex.Cat a b) s = true -> Regex.matches_prefix a s = true.
Proof.
  revert a b. induction s as [|c s IH]; intros a b H.
  - cbn in H. apply andb_true_iff in H. destruct H as [Ha _].
    now apply nullable_matches_prefix.
  - cbn [Regex.matches Regex.deriv] in H. cbn [Regex.matches_prefix].
    destruct (Regex.nullable a) eqn:Hn; [reflexivity |].
    cbn [orb]. now apply (matches_cat_step s IH _ b).
Qed.

(** So [POST /url] only lets through URLs that have the scheme already. *)
Lemma url_pattern_has_scheme (u : string) :
  Regex.matches Images.url_pattern u = true ->
  Regex.matches_prefix Image.scheme_pattern u = true.
Proof. apply matches_Cat_prefix. Qed.

Lemma deriv_unused (r : Regex.re) (c : ascii) :
  Regex.uses r c = false -> Regex.deriv c r = Regex.Void.
Proof.
  induction r as [| | items | a IHa b IHb | a IHa b IHb | a IHa];
    cbn [Regex.uses Regex.deriv]; intros H; try reflexivity.
  - now rewrite H.
  - apply orb_false_iff in H. destruct H as [Ha Hb].
    rewrite (IHa Ha), (IHb Hb). now destruct (Regex.nullable a).
  - apply orb_false_iff in H. destruct H as [Ha Hb].
    now rewrite (IHa Ha), (IHb Hb).
  - now rewrite (IHa H).
Qed.

Lemma uses_cat (x y : Regex.re) (c : ascii) :
  Regex.uses (Regex.cat x y) c = true ->
  Regex.uses x c || Regex.uses y c = true.
Proof.
  unfold Regex.cat.
  destruct x, y; cbn [Regex.uses]; intros H;
    try discriminate H;
    rewrite ?orb_false_r, ?orb_true_iff in *; tauto.
Qed.

Lemma uses_alt (x y : Regex.re) (c : ascii) :
  Regex.uses (Regex.alt x y) c = true ->
  Regex.uses x c || Regex.uses y c = true.
Proof.
  unfold Regex.alt.
  destruct x, y; try destruct (Regex.re_eqb _ _); cbn [Regex.uses]; intros H;
    try discriminate H;
    rewrite ?orb_false_r, ?orb_true_iff in *; tauto.
Qed.

Lemma uses_deriv (r : Regex.re) (d c : ascii) :
  Regex.uses (Regex.deriv d r) c = true -> Regex.uses r c = true.
Proof.
  induction r as [| | items | a IHa b IHb | a IHa b IHb | a IHa];
    cbn [Regex.uses Regex.deriv]; intros H; try discriminate H.
  - destruct (Regex.class_has d items); discriminate H.
  - destruct (Regex.nullable a).
    + apply uses_alt in H. apply orb_true_iff in H. destruct H as [H | H].
      * apply uses_cat in H. apply orb_true_iff in H. destruct H as [H | H].
        -- now rewrite (IHa H).
        -- rewrite H. apply orb_true_r.
      * rewrite (IHb H). apply orb_true_r.
    + apply uses_cat in H. apply orb_true_iff in H. destruct H as [H | H].
      * now rewrite (IHa H).
      * rewrite H. apply orb_true_r.
  - apply uses_alt in H. apply orb_true_iff in H. destruct H as [H | H].
    + now rewrite (IHa H).
    + rewrite (IHb H). apply orb_true_r.
  - apply uses_cat in H. apply orb_true_iff in H. destruct H as [H | H].
    + exact (IHa H).
    + exact H.
Qed.

Lemma all_chars_impl (p q : ascii -> bool) (s : string) :
  (forall c, p c = true -> q c = true) ->
  Regex.all_chars p s = true -> Regex.all_chars q s = true.
Proof.
  intros Hpq. induction s as [|c s IH]; cbn [Regex.all_chars]; [reflexivity |].
  intros H. apply andb_true_iff in H. destruct H as [Hc Hs].
  now rewrite (Hpq c Hc), (IH Hs).
Qed.

(** A matched string is made of characters the expression uses. *)
Lemma matches_all_used (s : string) (r : Regex.re) :
  Regex.matches r s = true -> Regex.all_chars (Regex.uses r) s = true.
Proof.
  revert r. induction s as [|c s IH]; intros r H; [reflexivity |].
  cbn [Regex.matches] in H. cbn [Regex.all_chars].
  destruct (Regex.uses r c) eqn:Hu.
  - cbn [andb]. apply (all_chars_impl (Regex.uses (Regex.deriv c r))).
    + intros x. apply uses_deriv.
    + apply IH, H.
  - rewrite (deriv_unused r c Hu), matches_Void in H. discriminate H.
Qed.

Lemma url_pattern_uses_no_space (c : ascii) :
  Regex.uses Images.url_pattern c = true -> negb (Js.is_space c) = true.
Proof.
  destruct c as [[] [] [] [] [] [] [] []]; vm_compute; intros H;
    first [reflexivity | discriminate H].
Qed.

Lemma trimStart_no_space (s : string) :
  Regex.all_chars (fun c => negb (Js.is_space c)) s = true -> Js.trimStart s = s.
Proof.
  destruct s as [|c s]; cbn [Regex.all_chars Js.trimStart]; [reflexivity |].
  intros H. apply andb_true_iff in H. destruct H as [Hc _].
  apply negb_true_iff in Hc. now rewrite Hc.
Qed.

Lemma trimEnd_no_space (s : string) :
  Regex.all_chars (fun c => negb (Js.is_space c)) s = true -> Js.trimEnd s = s.
Proof.
  induction s as [|c s IH]; cbn [Regex.all_chars Js.trimEnd]; [reflexivity |].
  intros H. apply andb_true_iff in H. destruct H as [Hc Hs].
  apply negb_true_iff in Hc. rewrite (IH Hs), Hc. now destruct s.
Qed.

(** The schema's trim leaves a URL that matches the pattern as it is. *)
Lemma url_pattern_trim (u : string) :
  Regex.matches Images.url_pattern u = true -> Js.trim u = u.
Proof.
  intros H. apply matches_all_used in H.
  apply (all_chars_impl _ (fun c => negb (Js.is_space c))) in H;
    [| exact url_pattern_uses_no_space].
  unfold Js.trim. now rewrite (trimStart_no_space u H), (trimEnd_no_space u H).
Qed.

(** X13.  Through [POST /url] the hook never adds anything and the trim
    never removes anything: the image that is stored carries the URL that
    was submitted. *)
Lemma post_url_stores_submitted_url (sv : Services) (env : Env) (w : World)
    (owner : User.doc) (u : string) (title description : option string)
    (tags : option Json.value) (r : Response) (w' : World) :
  Images.post_url_handler sv env w owner (Some u) title description tags
  = (r, w') ->
  status r = 201 ->
  exists d, images w' = (images w ++ [d])%list /\ Image.imageUrl d = u.
Proof.
  intros Hrun Hst. unfold Images.post_url_handler in Hrun.
  destruct (negb (Js.truthy (Some u))) eqn:Ht;
    [injection Hrun as <- _; discriminate Hst |].
  destruct (Images.isValidImageUrl sv (Some u)) eqn:Hv; cbn [negb] in Hrun;
    [| injection Hrun as <- _; discriminate Hst].
  apply isValidImageUrl_iff in Hv.
  destruct Hv as [u0 [st [ct [Hu [Hne [Hm _]]]]]]. injection Hu as <-.
  rewrite (or_else_Some u "" Hne) in Hrun.
  unfold Images.create_image, Db.Image_save in Hrun.
  destruct (Images.url_tags sv tags) as [tl |];
    [| injection Hrun as <- _; discriminate Hst].
  destruct (negb (Image.validate _));
    [injection Hrun as <- _; discriminate Hst |].
  destruct (Db.Image_id_used _ _);
    [injection Hrun as <- _; discriminate Hst |].
  injection Hrun as _ <-. cbn [images].
  eexists. split; [reflexivity |].
  rewrite pre_save_keeps_url_with_scheme.
  - cbn [Image.imageUrl Image.create]. apply url_pattern_trim, Hm.
  - cbn [Image.imageUrl Image.create]. rewrite (url_pattern_trim u Hm).
    apply url_pattern_has_scheme, Hm.
Qed.

(** ** Who writes the users collection

    The image routes leave the users as they are; together with
    [firebase_auth_never_elevates] this makes [POST /firebase-auth] the one
    place where a user appears, and no place where a role changes. *)

Lemma create_image_keeps_users (env : Env) (w : World) (owner : User.doc)
    (imageUrl title description : string) (tags : option (list string)) :
  users (snd (Images.create_image env w owner imageUrl title description tags))
  = users w.
Proof.
  unfold Images.create_image. destruct tags as [tl |]; [| reflexivity].
  destruct (Db.Image_save _ _) as [[image imgs] | m]; reflexivity.
Qed.

Lemma post_url_keeps_users (sv : Services) (env : Env) (w : World)
    (session : option Session) (authorization : option string)
    (imageUrl title description : option string) (tags : option Json.value) :
  users (snd (fst (Images.post_url sv env w session authorization imageUrl
                     title description tags))) = users w.
Proof.
  unfold Images.post_url.
  destruct (ensureAuthenticated _ _ _ _) as [u s | r s]; [| reflexivity].
  cbn [fst snd]. unfold Images.post_url_handler.
  destruct (negb (Js.truthy imageUrl)); [reflexivity |].
  destruct (negb (Images.isValidImageUrl sv imageUrl)); [reflexivity |].
  apply create_image_keeps_users.
Qed.

Lemma post_upload_keeps_users (sv : Services) (env : Env) (w : World)
    (session : option Session) (authorization : option string)
    (protocol host : string) (file : option Images.FilePart)
    (title description tags : option string) :
  users (snd (fst (Images.post_upload sv env w session authorization protocol
                     host file title description tags))) = users w.
Proof.
  unfold Images.post_upload.
  destruct (ensureAuthenticated _ _ _ _) as [u s | r s]; [| reflexivity].
  destruct (Images.upload_single env (disk w) file) as [[stored | m] d];
    [| reflexivity].
  cbn [fst snd]. unfold Images.post_upload_handler.
  destruct stored as [filename |]; [| reflexivity].
  destruct (Js.truthy tags).
  - destruct (Json.parse _); [| reflexivity].
    now rewrite create_image_keeps_users.
  - now rewrite create_image_keeps_users.
Qed.

Lemma delete_image_keeps_users (sv : Services) (env : Env) (w : World)
    (session : option Session) (authorization : option string)
    (id : option ObjectId) :
  users (snd (fst (Images.delete_image sv env w session authorization id)))
  = users w.
Proof.
  unfold Images.delete_image.
  destruct (ensureAuthenticated _ _ _ _) as [u s | r s]; [| reflexivity].
  apply delete_handler_keeps_users.
Qed.

(** ** The two patterns on a few URLs *)

Example url_pattern_accepts :
  map (Regex.matches Images.url_pattern)
      ["https://example.com/a.png"; "http://a"; "https://a/b/c/";
       "https://evil.example/uploads/../routes/images.js"]
  = [true; true; true; true].
Proof. vm_compute. reflexivity. Qed.

Example url_pattern_refuses :
  map (Regex.matches Images.url_pattern)
      ["example.com/a.png"; "http://"; "https://example.com:8080/a.png";
       "https://example.com/a.png?size=2"; "ftp://example.com/a.png";
       " https://example.com/a.png"]
  = [false; false; false; false; false; false].
Proof. vm_compute. reflexivity. Qed.

Example scheme_pattern_examples :
  map (Regex.matches_prefix Image.scheme_pattern)
      ["https://example.com/a.png"; "http://a"; "example.com/a.png";
       "HTTP://a"; "httpx://a"]
  = [true; true; false; false; false].
Proof. vm_compute. reflexivity. Qed.

(** An empty [tags] field counts as no tags at all. *)
Example upload_with_empty_tags :
  status (fst (fst (Images.post_upload Sample.services Sample.env Sample.world
                      Sample.bob_session None "http" "localhost:5000"
                      (Some Sample.photo) (Some "Holiday") None (Some ""))))
  = 201.
Proof. vm_compute. reflexivity. Qed.

(** ** The helpers on a few inputs *)

Example json_parse_accepts :
  (Json.parse ("[" ++ Json.quoted "nature" ++ ", " ++ Json.quoted "travel" ++ "]"),
   Json.parse " [] ",
   Json.parse ("{" ++ Json.quoted "a" ++ ": [1.5e3, true, null]}"))
  = (Some (Json.JArr [Json.JStr (Json.Text "nature"); Json.JStr (Json.Text "travel")]),
     Some (Json.JArr []),
     Some (Json.JObj [(Json.Text "a",
                       Json.JArr [Json.JNum "1.5e3"; Json.JBool true; Json.JNull])])).
Proof. vm_compute. reflexivity. Qed.

Example json_parse_refuses :
  map Json.parse
      ["nature, travel"; ""; "[1,]"; "01"; "['a']";
       "[" ++ Json.quoted "a" ++ " " ++ Json.quoted "b" ++ "]"]
  = [None; None; None; None; None; None].
Proof. vm_compute. reflexivity. Qed.

(** [toLowerCase] on E-acute, T, E-acute. *)
Example toLowerCase_latin1 :
  map nat_of_ascii
    (list_ascii_of_string
       (Js.toLowerCase
          (String (ascii_of_nat 201) (String "T" (String (ascii_of_nat 201) "")))))
  = [233; 116; 233]%nat
  /\ Js.toLowerCase (String (ascii_of_nat 215) (String (ascii_of_nat 223) ""))
     = String (ascii_of_nat 215) (String (ascii_of_nat 223) "").
Proof. vm_compute. split; reflexivity. Qed.

Example split_examples :
  (Js.split "Bearer abc" "Bearer ",
   Js.split "http://localhost:5000/uploads/cat.png" "/uploads/",
   Js.split "https://evil.example/uploads/" "/uploads/",
   Js.split "ada@example.com" "@")
  = ([""; "abc"], ["http://localhost:5000"; "cat.png"],
     ["https://evil.example"; ""], ["ada"; "example.com"]).
Proof. vm_compute. reflexivity. Qed.

Example join_examples :
  (Fs.join ["srv"; "server"; "routes"] ["../uploads"; "cat.png"],
   Fs.join ["srv"; "server"; "routes"] ["../uploads"; ""],
   Fs.join ["srv"; "server"; "routes"] ["../uploads"; "../routes/images.js"])
  = ((["srv"; "server"; "uploads"; "cat.png"], false),
     (["srv"; "server"; "uploads"], false),
     (["srv"; "server"; "routes"; "images.js"], false)).
Proof. vm_compute. reflexivity. Qed.

Example extname_examples :
  map Fs.extname ["holiday.png"; "archive.tar.gz"; ".bashrc"; "notes"; ".."]
  = [".png"; ".gz"; ""; ""; ""].
Proof. vm_compute. reflexivity. Qed.

(** * More of the code *)

(** ** The middlewares *)

Lemma findById_In (db : list User.doc) (id : ObjectId) (u : User.doc) :
  Db.User_findById db id = Some u -> In u db /\ User._id u = id.
Proof.
  intros H. apply find_some in H. destruct H as [Hin He].
  apply Nat.eqb_eq in He. auto.
Qed.

(** With ids that are unique, a stored user is the one its id finds. *)
Lemma findById_unique (db : list User.doc) (u : User.doc) :
  NoDup (map User._id db) -> In u db ->
  Db.User_findById db (User._id u) = Some u.
Proof.
  unfold Db.User_findById.
  induction db as [|x db IH]; intros Hnd Hin; [contradiction |].
  cbn [map] in Hnd. inversion Hnd as [|? ? Hx Hnd']; subst.
  cbn [find]. destruct (Nat.eqb (User._id x) (User._id u)) eqn:E.
  - destruct Hin as [-> | Hin]; [reflexivity |].
    apply Nat.eqb_eq in E. exfalso. apply Hx. rewrite E.
    apply in_map, Hin.
  - destruct Hin as [-> | Hin]; [now rewrite Nat.eqb_refl in E |].
    apply IH; assumption.
Qed.

(** X1.  A session whose user id resolves authenticates the request as
    that user and is left as it is; neither the Authorization header nor
    the token verifier has any part in the outcome. *)
Theorem X1_session_authentication_ignores_token (sv sv' : Services)
    (db : list User.doc) (id : ObjectId) (u : User.doc)
    (authorization authorization' : option string) :
  Db.User_findById db id = Some u ->
  ensureAuthenticated sv db (Some (mkSession (Some id))) authorization
  = Next u (Some (mkSession (Some id)))
  /\ ensureAuthenticated sv' db (Some (mkSession (Some id))) authorization'
     = ensureAuthenticated sv db (Some (mkSession (Some id))) authorization.
Proof.
  intros H. unfold ensureAuthenticated. cbn [userId]. rewrite H. auto.
Qed.

Lemma X1_witness :
  ensureAuthenticated Sample.services [Sample.ada; Sample.bob]
    Sample.bob_session (Some "Bearer expired")
  = Next Sample.bob Sample.bob_session
  /\ ensureAuthenticated Sample.services [Sample.ada; Sample.bob]
       Sample.bob_session None
     = ensureAuthenticated Sample.services [Sample.ada; Sample.bob]
         Sample.bob_session (Some "Bearer expired").
Proof.
  apply (X1_session_authentication_ignores_token Sample.services
           Sample.services [Sample.ada; Sample.bob] 2%nat Sample.bob).
  reflexivity.
Defined.

(** X2.  Whoever [ensureAuthenticated] lets through is a user of the
    collection, and the session it hands on holds that user's id.  With
    unique user ids that session is good for the next request: it is let
    through as the same user, whatever its header and whatever the verifier
    would say. *)
Theorem X2_principal_is_stored_and_session_established (sv : Services)
    (db : list User.doc) (session : option Session)
    (authorization : option string) (u : User.doc) (s : option Session) :
  ensureAuthenticated sv db session authorization = Next u s ->
  In u db
  /\ s = Some (mkSession (Some (User._id u)))
  /\ (NoDup (map User._id db) ->
      forall sv' authorization',
        ensureAuthenticated sv' db s authorization' = Next u s).
Proof.
  intros H.
  assert (Hinv : In u db /\ s = Some (mkSession (Some (User._id u)))).
  { unfold ensureAuthenticated in H.
    destruct session as [[[id |]] |]; cbn [userId] in H; try discriminate.
    - destruct (Db.User_findById db id) as [v |] eqn:Hf; [| discriminate].
      injection H as -> <-.
      apply findById_In in Hf. destruct Hf as [Hin <-]. auto.
    - destruct (Js.truthy authorization && _); [| discriminate].
      destruct (verifyIdToken sv _) as [t | code]; [| discriminate].
      destruct (Db.User_findOne_firebaseUid db (uid t)) as [v |] eqn:Hf;
        [| discriminate].
      injection H as -> <-.
      apply find_some in Hf. destruct Hf as [Hin _]. auto. }
  destruct Hinv as [Hin ->]. repeat split; [exact Hin |].
  intros Hnd sv' authorization'.
  unfold ensureAuthenticated. cbn [userId].
  now rewrite (findById_unique db u Hnd Hin).
Qed.

Lemma X2_witness :
  In Sample.ada [Sample.ada; Sample.bob]
  /\ Some (mkSession (Some 1%nat))
     = Some (mkSession (Some (User._id Sample.ada)))
  /\ (NoDup (map User._id [Sample.ada; Sample.bob]) ->
      forall sv' authorization',
        ensureAuthenticated sv' [Sample.ada; Sample.bob]
          (Some (mkSession (Some 1%nat))) authorization'
        = Next Sample.ada (Some (mkSession (Some 1%nat)))).
Proof.
  apply (X2_principal_is_stored_and_session_established Sample.services
           [Sample.ada; Sample.bob] (Some (mkSession None))
           (Some "Bearer good")).
  reflexivity.
Defined.

(** X3.  A request that [ensureAuthenticated] rejects keeps its session as
    it came, and is answered 401, or 500 when there is no session object
    at all. *)
Theorem X3_rejection_keeps_session (sv : Services) (db : list User.doc)
    (session : option Session) (authorization : option string)
    (r : Response) (s : option Session) :
  ensureAuthenticated sv db session authorization = Reply r s ->
  s = session
  /\ (session <> None -> status r = 401)
  /\ (session = None -> status r = 500).
Proof.
  unfold ensureAuthenticated.
  destruct session as [sess |].
  - destruct (userId sess) as [id |].
    + destruct (Db.User_findById db id); [discriminate |].
      intros H. injection H as <- <-.
      repeat split; intros; try reflexivity; discriminate.
    + destruct (Js.truthy authorization && _).
      * destruct (verifyIdToken sv _) as [t | code].
        -- destruct (Db.User_findOne_firebaseUid db (uid t)); [discriminate |].
           intros H. injection H as <- <-.
           repeat split; intros; try reflexivity; discriminate.
        -- intros H. injection H as <- <-.
           repeat split; intros; try reflexivity; discriminate.
      * intros H. injection H as <- <-.
        repeat split; intros; try reflexivity; discriminate.
  - intros H. injection H as <- <-.
    repeat split; intros; try reflexivity; contradiction.
Qed.

Lemma X3_witness :
  Some (mkSession None) = Some (mkSession None)
  /\ (Some (mkSession None) <> None ->
      status (mkResponse 401
                (AuthFailure "Invalid or expired authentication token."
                             "INVALID_TOKEN")) = 401)
  /\ (Some (mkSession None) = None ->
      status (mkResponse 401
                (AuthFailure "Invalid or expired authentication token."
                             "INVALID_TOKEN")) = 500).
Proof.
  apply (X3_rejection_keeps_session Sample.services [Sample.ada]
           (Some (mkSession None)) (Some "Bearer expired")).
  reflexivity.
Defined.

(** X4.  [checkAuthentication] and [ensureAuthenticated] resolve a request
    alike: when the strict middleware lets the request through as a user,
    the permissive one sets the flag, that user and the same session; when
    the strict one rejects, the permissive one clears the flag and the user
    and keeps the session. *)
Theorem X4_permissive_agrees_with_strict (sv : Services) (db : list User.doc)
    (session : option Session) (authorization : option string) :
  match ensureAuthenticated sv db session authorization with
  | Next u s =>
      checkAuthentication sv db session authorization
      = mkChecked true (Some u) s
  | Reply _ _ =>
      checkAuthentication sv db session authorization
      = mkChecked false None session
  end.
Proof.
  unfold ensureAuthenticated, checkAuthentication, unauthenticated.
  destruct session as [sess |]; [| reflexivity].
  destruct (userId sess) as [id |].
  - destruct (Db.User_findById db id); reflexivity.
  - destruct (Js.truthy authorization && _); [| reflexivity].
    destruct (verifyIdToken sv _) as [t | code]; [| reflexivity].
    destruct (Db.User_findOne_firebaseUid db (uid t)); reflexivity.
Qed.

(** ** Signing in *)

Lemma firebase_auth_200 (sv : Services) (env : Env)
    (others : list User.doc -> list User.doc) (db db' : list User.doc)
    (session s' : option Session) (idToken : option string) (reply : Body) :
  Auth.firebase_auth sv env others db session idToken
  = (mkResponse 200 reply, db', s') ->
  exists t u,
    verifyIdToken sv (Js.or_else idToken "") = Decoded t
    /\ SignedIn env others db t u db'
    /\ reply = UserBody (User.project u) (User.isAdmin u)
    /\ s' = Some (mkSession (Some (User._id u))).
Proof.
  unfold Auth.firebase_auth.
  destruct (negb (Js.truthy idToken)); [discriminate |].
  destruct (verifyIdToken sv (Js.or_else idToken "")) as [t | code];
    [| discriminate].
  destruct (negb (Js.truthy (sign_in_provider t)) || _); [discriminate |].
  intros H. exists t.
  destruct (Db.User_findOne_firebaseUid db (uid t)) as [old |] eqn:Hf.
  - destruct (Auth.has_updates old t) eqn:Hu.
    + destruct (Db.User_save false (others db) (Auth.apply_updates old t))
        as [db1 | m] eqn:Hs; [| discriminate].
      unfold Auth.sign_in in H. destruct session; [| discriminate].
      injection H as <- <- <-. exists (Auth.apply_updates old t).
      repeat split. eapply Updated; eauto.
    + unfold Auth.sign_in in H. destruct session; [| discriminate].
      injection H as <- <- <-. exists old.
      repeat split. eapply Found; eauto.
  - destruct (Db.User_save true (others db) (Auth.created_user env t))
      as [db1 | m] eqn:Hs; [| discriminate].
    unfold Auth.sign_in in H. destruct session; [| discriminate].
    injection H as <- <- <-. exists (Auth.created_user env t).
    repeat split. eapply Created; eauto.
Qed.

(** X5.  On a request with a session object, a sign-in that is not
    answered 200 has no effect of its own: the session is as it came, and
    the users are as the request found them or as the other requests left
    them. *)
Theorem X5_failed_sign_in_changes_nothing (sv : Services) (env : Env)
    (others : list User.doc -> list User.doc) (db db' : list User.doc)
    (sess : Session) (s' : option Session) (idToken : option string)
    (r : Response) :
  Auth.firebase_auth sv env others db (Some sess) idToken = (r, db', s') ->
  status r <> 200 ->
  s' = Some sess /\ (db' = db \/ db' = others db).
Proof.
  unfold Auth.firebase_auth, Auth.sign_in.
  destruct (negb (Js.truthy idToken));
    [intros H; injection H as <- <- <-; auto |].
  destruct (verifyIdToken sv (Js.or_else idToken "")) as [t | code];
    [| intros H; injection H as <- <- <-; auto].
  destruct (negb (Js.truthy (sign_in_provider t)) || _);
    [intros H; injection H as <- <- <-; auto |].
  destruct (Db.User_findOne_firebaseUid db (uid t)) as [old |].
  - destruct (Auth.has_updates old t).
    + destruct (Db.User_save false (others db) _) as [db1 | m];
        intros H; injection H as <- <- <-; intros Hst; auto.
      contradiction Hst; reflexivity.
    + intros H; injection H as <- <- <-; intros Hst.
      contradiction Hst; reflexivity.
  - destruct (Db.User_save true (others db) _) as [db1 | m];
      intros H; injection H as <- <- <-; intros Hst; auto.
    contradiction Hst; reflexivity.
Qed.

Lemma X5_witness :
  Some (mkSession None) = Some (mkSession None)
  /\ ([Sample.ada] = [Sample.ada] \/ [Sample.ada] = (fun d => d) [Sample.ada]).
Proof.
  apply (X5_failed_sign_in_changes_nothing Sample.services Sample.env
           (fun d => d) [Sample.ada] [Sample.ada] (mkSession None)
           (Some (mkSession None)) (Some "expired")
           (mkResponse 401
              (MessageError "Invalid authentication token" (Some "token_invalid"))));
    [reflexivity | discriminate].
Defined.

(** Without a session object the sign-in is answered 500 after the user
    has been stored. *)
Example sign_in_without_session_object :
  Auth.firebase_auth Sample.services Sample.env (fun d => d) [] None (Some "good")
  = (Auth.processing_error "Cannot set properties of undefined",
     [Auth.created_user Sample.env Sample.token], None).
Proof. reflexivity. Qed.

Lemma User_save_new (db db' : list User.doc) (u : User.doc) :
  Db.User_save true db u = Ok db' ->
  Db.User_duplicate db u = false /\ Db.is_stored db u = false
  /\ db' = (db ++ [u])%list.
Proof.
  unfold Db.User_save.
  destruct (negb (Db.User_validate u)); [discriminate |].
  destruct (Db.User_duplicate db u); [discriminate |].
  destruct (Db.is_stored db u); [discriminate |].
  intros H. injection H as <-. auto.
Qed.

Lemma User_save_old (db db' : list User.doc) (u : User.doc) :
  Db.User_save false db u = Ok db' ->
  Db.User_duplicate db u = false /\ Db.is_stored db u = true
  /\ db' = map (fun v => if Nat.eqb (User._id v) (User._id u) then u else v) db.
Proof.
  unfold Db.User_save.
  destruct (negb (Db.User_validate u)); [discriminate |].
  destruct (Db.User_duplicate db u); [discriminate |].
  destruct (Db.is_stored db u); [| discriminate].
  intros H. injection H as <-. auto.
Qed.

Lemma findById_inserted (db : list User.doc) (u : User.doc) :
  Db.is_stored db u = false ->
  Db.User_findById (db ++ [u]) (User._id u) = Some u.
Proof.
  unfold Db.is_stored, Db.User_findById.
  induction db as [|x db IH]; cbn [existsb find app]; intros H.
  - now rewrite Nat.eqb_refl.
  - apply orb_false_iff in H. destruct H as [Hx Hdb].
    rewrite Hx. apply IH, Hdb.
Qed.

Lemma findById_replaced (db : list User.doc) (u : User.doc) :
  Db.is_stored db u = true ->
  Db.User_findById
    (map (fun v => if Nat.eqb (User._id v) (User._id u) then u else v) db)
    (User._id u) = Some u.
Proof.
  unfold Db.is_stored, Db.User_findById.
  induction db as [|x db IH]; cbn [existsb find map]; intros H;
    [discriminate |].
  destruct (Nat.eqb (User._id x) (User._id u)) eqn:E.
  - now rewrite Nat.eqb_refl.
  - rewrite E. apply IH. exact H.
Qed.

(** X6.  Sign-in and the strict middleware compose.  When a sign-in (with
    no other request in between, on a collection with unique user ids) is
    answered 200, the answer describes a user that is stored under the id
    the session now holds, and [ensureAuthenticated] lets every later
    request with that session through as this user. *)
Theorem X6_sign_in_then_authenticated (sv : Services) (env : Env)
    (db db' : list User.doc) (session s' : option Session)
    (idToken : option string) (reply : Body) :
  NoDup (map User._id db) ->
  Auth.firebase_auth sv env (fun d => d) db session idToken
  = (mkResponse 200 reply, db', s') ->
  exists u,
    reply = UserBody (User.project u) (User.isAdmin u)
    /\ s' = Some (mkSession (Some (User._id u)))
    /\ Db.User_findById db' (User._id u) = Some u
    /\ forall sv' authorization,
         ensureAuthenticated sv' db' s' authorization = Next u s'.
Proof.
  intros Hnd H. apply firebase_auth_200 in H.
  destruct H as [t [u [_ [Hin [-> ->]]]]]. exists u.
  assert (Hfind : Db.User_findById db' (User._id u) = Some u).
  { destruct Hin as [_ _ Hs | old _ _ _ Hs | Hf _ ->].
    - apply User_save_new in Hs. destruct Hs as [_ [Hst ->]].
      apply findById_inserted, Hst.
    - apply User_save_old in Hs. destruct Hs as [_ [Hst ->]].
      apply findById_replaced, Hst.
    - apply find_some in Hf. destruct Hf as [Hu _].
      apply findById_unique; assumption. }
  repeat split; [exact Hfind |].
  intros sv' authorization. unfold ensureAuthenticated. cbn [userId].
  now rewrite Hfind.
Qed.

Lemma X6_witness :
  exists u,
    UserBody (User.project Sample.ada) false
    = UserBody (User.project u) (User.isAdmin u)
    /\ Some (mkSession (Some 1%nat)) = Some (mkSession (Some (User._id u)))
    /\ Db.User_findById [Sample.ada; Sample.bob] (User._id u) = Some u
    /\ forall sv' authorization,
         ensureAuthenticated sv' [Sample.ada; Sample.bob]
           (Some (mkSession (Some 1%nat))) authorization
         = Next u (Some (mkSession (Some 1%nat))).
Proof.
  apply (X6_sign_in_then_authenticated Sample.services Sample.env
           [Sample.ada; Sample.bob] [Sample.ada; Sample.bob]
           (Some (mkSession None)) _ (Some "good")).
  - repeat constructor; cbn; intuition discriminate.
  - reflexivity.
Defined.

Lemma NoDup_snoc {A : Type} (l : list A) (a : A) :
  NoDup l -> ~ In a l -> NoDup (l ++ [a]).
Proof.
  intros Hl Ha. induction Hl as [|x l Hx Hl IH]; cbn [app].
  - constructor; [intros [] | constructor].
  - constructor.
    + intros Hin. apply in_app_or in Hin. destruct Hin as [Hin | [-> | []]].
      * contradiction.
      * apply Ha. now left.
    + apply IH. intros Hin. apply Ha. now right.
Qed.








Lemma X8_witness :
  exists u,
    (In u [Sample.carol] \/ In u ((fun d => d) [Sample.carol]))
    /\ User._id u = User._id Sample.carol
    /\ User.firebaseUid u = User.firebaseUid Sample.carol
    /\ User.role u = User.admin.
Proof.
  apply (firebase_auth_never_elevates Sample.services Sample.env (fun d => d)
           [Sample.carol] (Some (mkSession None)) (Some "good") Sample.carol).
  - left. reflexivity.
  - reflexivity.
Defined.

(** ** The current user and the public profile *)

(** X9.  What [GET /user] reports is what the strict routes act on: on a
    200 the body describes the user the session resolves to, and its
    [isAdmin] flag is set exactly when Delete lets that user remove an
    image owned by someone else. *)
Theorem X9_reported_admin_flag_is_the_delete_bypass (db : list User.doc)
    (session s : option Session) (p : User.projection) (flag : bool) :
  Auth.get_user db session = (mkResponse 200 (UserBody p flag), s) ->
  s = session
  /\ exists u,
       p = User.project u
       /\ (forall sv authorization,
             ensureAuthenticated sv db session authorization = Next u session)
       /\ forall env w i img,
            Db.Image_findById (images w) i = Some img ->
            Image.user img <> User._id u ->
            (flag = false
             <-> Images.delete_handler env w u (Some i)
                 = (mkResponse 403 (Message "Not authorized to delete this image"),
                    w)).
Proof.
  unfold Auth.get_user.
  destruct session as [[[id |]] |]; cbn [userId]; try discriminate.
  destruct (Db.User_findById db id) as [u |] eqn:Hf; [| discriminate].
  intros H. injection H as <- <- <-. split; [reflexivity |].
  exists u. split; [reflexivity |]. split.
  - intros sv authorization. unfold ensureAuthenticated. cbn [userId].
    now rewrite Hf.
  - intros env w i img Hfind Hown. unfold Images.delete_handler.
    rewrite Hfind. apply Nat.eqb_neq in Hown. rewrite Hown. cbn [negb andb].
    destruct (User.Role_eqb (User.role u) User.admin); cbn [negb].
    + split; [discriminate |].
      destruct (Images.remove_upload env (disk w) (Image.imageUrl img));
        discriminate.
    + split; reflexivity.
Qed.

Lemma X9_witness :
  Some (mkSession (Some 3%nat)) = Some (mkSession (Some 3%nat))
  /\ exists u,
       User.project Sample.carol = User.project u
       /\ (forall sv authorization,
             ensureAuthenticated sv [Sample.ada; Sample.carol]
               (Some (mkSession (Some 3%nat))) authorization
             = Next u (Some (mkSession (Some 3%nat))))
       /\ forall env w i img,
            Db.Image_findById (images w) i = Some img ->
            Image.user img <> User._id u ->
            (true = false
             <-> Images.delete_handler env w u (Some i)
                 = (mkResponse 403 (Message "Not authorized to delete this image"),
                    w)).
Proof.
  apply (X9_reported_admin_flag_is_the_delete_bypass [Sample.ada; Sample.carol]).
  reflexivity.
Defined.

(** X10.  The public profile and the listing of a user's images agree:
    both find the same user for a name, or both answer 404, and the
    profile's [imageCount] is the [total] of the listing. *)
Theorem X10_profile_count_is_listing_total (w : World) (name : string)
    (limit page : Z) :
  0 < limit -> 0 < page ->
  match Auth.get_profile w name with
  | Auth.ProfileFound p =>
      exists imgs pg,
        Images.get_user_images w name (Some limit) (Some page)
        = mkResponse 200
            (UserPageBody imgs pg
               (User.mkProjection (Auth.pr_id p) (Auth.pr_username p)
                  (Auth.pr_displayName p) (Auth.pr_avatarUrl p)))
        /\ total pg = Auth.imageCount p
  | Auth.ProfileMissing r =>
      r = mkResponse 404 (Message "User not found")
      /\ Images.get_user_images w name (Some limit) (Some page) = r
  end.
Proof.
  intros Hl Hp. unfold Auth.get_profile, Images.get_user_images.
  destruct (Db.User_findOne_username (users w) name) as [u |]; [| auto].
  cbn [Images.or_default].
  set (own := filter (fun i => Nat.eqb (Image.user i) (User._id u)) (images w)).
  destruct (skip_limit_page Image.createdAt limit page own Hl Hp)
    as [found [Hrun _]].
  rewrite Hrun. eexists. eexists. split; reflexivity.
Qed.

Lemma X10_witness :
  exists imgs pg,
    Images.get_user_images Sample.cats "Ada" (Some 10) (Some 1)
    = mkResponse 200
        (UserPageBody imgs pg (User.mkProjection 1%nat "Ada" (Some "Ada") None))
    /\ total pg = 2.
Proof.
  apply (X10_profile_count_is_listing_total Sample.cats "Ada" 10 1);
    reflexivity.
Defined.

(** ** Creating, reading and deleting images *)

(** What [create_image] does when it answers 201. *)
Lemma create_image_201 (env : Env) (w : World) (owner : User.doc)
    (imageUrl title description : string) (tags : option (list string))
    (r : Response) (w' : World) :
  Images.create_image env w owner imageUrl title description tags = (r, w') ->
  (status r <> 201 -> w' = w)
  /\ (status r = 201 ->
      exists tl d,
        tags = Some tl
        /\ d = Image.pre_save
                 (Image.create (fresh env) (now env) imageUrl title description
                    tl (User._id owner))
        /\ Image.validate
             (Image.create (fresh env) (now env) imageUrl title description
                tl (User._id owner)) = true
        /\ w' = mkWorld (users w) (images w ++ [d])%list (disk w)
        /\ Db.Image_findById (images w') (fresh env) = Some d
        /\ r = mkResponse 201 (ImageBody (Some (Db.populate (users w) d)))
        /\ Db.Image_id_used (images w) (fresh env) = false).
Proof.
  unfold Images.create_image, Db.Image_save.
  destruct tags as [tl |];
    [| intros H; injection H as <- <-; split; [reflexivity | discriminate]].
  destruct (Image.validate _) eqn:Hv; cbn [negb];
    [| intros H; injection H as <- <-; split; [reflexivity | discriminate]].
  destruct (Db.Image_id_used (images w) _) eqn:Hu;
    [intros H; injection H as <- <-; split; [reflexivity | discriminate] |].
  set (d := Image.pre_save _).
  assert (Hid : Image._id d = fresh env).
  { subst d. unfold Image.pre_save. now destruct (negb _ && negb _). }
  assert (Hfind : Db.Image_findById (images w ++ [d]) (fresh env) = Some d).
  { rewrite <- Hid. apply findById_app_new. rewrite Hid. exact Hu. }
  rewrite Hid, Hfind. intros H. injection H as <- <-.
  split; [intros Hst; contradiction Hst; reflexivity |].
  intros _. exists tl, d. repeat split; auto.
Qed.

Lemma pre_save_fields (d : Image.doc) :
  Image._id (Image.pre_save d) = Image._id d
  /\ Image.user (Image.pre_save d) = Image.user d
  /\ Image.createdAt (Image.pre_save d) = Image.createdAt d
  /\ Image.likes (Image.pre_save d) = Image.likes d
  /\ Image.title (Image.pre_save d) = Image.title d
  /\ Image.tags (Image.pre_save d) = Image.tags d.
Proof. unfold Image.pre_save. destruct (negb _ && negb _); repeat split. Qed.

(** X11.  [POST /url] adds exactly one image or changes nothing.  When it
    answers 201, the collection has the new image at its end, owned by the
    caller, created now and liked by nobody, and users and files are as
    they were; on every other answer the world is as it was. *)
Theorem X11_post_url_adds_one_image_or_nothing (sv : Services) (env : Env)
    (w w' : World) (owner : User.doc) (imageUrl title description : option string)
    (tags : option Json.value) (r : Response) :
  Images.post_url_handler sv env w owner imageUrl title description tags
  = (r, w') ->
  (status r <> 201 -> w' = w)
  /\ (status r = 201 ->
      exists d,
        images w' = (images w ++ [d])%list
        /\ users w' = users w /\ disk w' = disk w
        /\ Image._id d = fresh env
        /\ Image.user d = User._id owner
        /\ Image.createdAt d = now env
        /\ Image.likes d = []).
Proof.
  unfold Images.post_url_handler.
  destruct (negb (Js.truthy imageUrl));
    [intros H; injection H as <- <-; split; [reflexivity | discriminate] |].
  destruct (negb (Images.isValidImageUrl sv imageUrl));
    [intros H; injection H as <- <-; split; [reflexivity | discriminate] |].
  intros H. apply create_image_201 in H. destruct H as [Hno Hyes].
  split; [exact Hno |]. intros Hst.
  destruct (Hyes Hst) as [tl [d [_ [Hd [_ [-> _]]]]]].
  exists d. cbn [images users disk].
  destruct (pre_save_fields
              (Image.create (fresh env) (now env) (Js.or_else imageUrl "")
                 (Js.or_else title "") (Js.or_else description "") tl
                 (User._id owner))) as [E1 [E2 [E3 [E4 _]]]].
  rewrite <- Hd in E1, E2, E3, E4. repeat split; assumption.
Qed.

Lemma X11_witness :
  (status (fst Sample.added) <> 201 -> snd Sample.added = Sample.world)
  /\ (status (fst Sample.added) = 201 ->
      exists d,
        images (snd Sample.added) = (images Sample.world ++ [d])%list
        /\ users (snd Sample.added) = users Sample.world
        /\ disk (snd Sample.added) = disk Sample.world
        /\ Image._id d = fresh Sample.env
        /\ Image.user d = User._id Sample.bob
        /\ Image.createdAt d = now Sample.env
        /\ Image.likes d = []).
Proof.
  apply (X11_post_url_adds_one_image_or_nothing Sample.services Sample.env
           Sample.world (snd Sample.added) Sample.bob
           (Some "https://example.com/a.png") (Some "A") None None
           (fst Sample.added)).
  reflexivity.
Defined.

(** X12.  An image that was just added can be read back: after a 201 from
    [POST /url], [GET /:id] with the new id answers 200 with the body the
    201 carried. *)
Theorem X12_added_image_reads_back (sv : Services) (env : Env) (w w' : World)
    (owner : User.doc) (imageUrl title description : option string)
    (tags : option Json.value) (reply : Body) :
  Images.post_url_handler sv env w owner imageUrl title description tags
  = (mkResponse 201 reply, w') ->
  Images.get_image_by_id w' (Some (fresh env)) = mkResponse 200 reply.
Proof.
  unfold Images.post_url_handler.
  destruct (negb (Js.truthy imageUrl)); [discriminate |].
  destruct (negb (Images.isValidImageUrl sv imageUrl)); [discriminate |].
  intros H. apply create_image_201 in H. destruct H as [_ Hyes].
  destruct (Hyes eq_refl) as [tl [d [_ [_ [_ [Hw [Hfind [Hr _]]]]]]]].
  injection Hr as ->. unfold Images.get_image_by_id. rewrite Hfind.
  subst w'. reflexivity.
Qed.

Lemma X12_witness :
  Images.get_image_by_id (snd Sample.added) (Some (fresh Sample.env))
  = mkResponse 200 (body (fst Sample.added)).
Proof.
  apply (X12_added_image_reads_back Sample.services Sample.env Sample.world _
           Sample.bob (Some "https://example.com/a.png") (Some "A") None None).
  reflexivity.
Defined.

Lemma X13_witness :
  exists d,
    images (snd Sample.added) = (images Sample.world ++ [d])%list
    /\ Image.imageUrl d = "https://example.com/a.png".
Proof.
  apply (post_url_stores_submitted_url Sample.services Sample.env Sample.world
           Sample.bob "https://example.com/a.png" (Some "A") None None
           (fst Sample.added));
    reflexivity.
Defined.

Lemma findByIdAndDelete_others (db : list Image.doc) (i j : ObjectId) :
  j <> i ->
  Db.Image_findById (Db.Image_findByIdAndDelete db i) j = Db.Image_findById db j.
Proof.
  intros Hji. unfold Db.Image_findById, Db.Image_findByIdAndDelete.
  induction db as [|x db IH]; cbn [filter find]; [reflexivity |].
  destruct (Nat.eqb (Image._id x) i) eqn:Ei; cbn [negb find].
  - destruct (Nat.eqb (Image._id x) j) eqn:Ej; [| exact IH].
    apply Nat.eqb_eq in Ei, Ej. congruence.
  - destruct (Nat.eqb (Image._id x) j); [reflexivity | exact IH].
Qed.

Lemma delete_handler_200 (env : Env) (w w' : World) (p : User.doc)
    (i : ObjectId) (r : Response) :
  Images.delete_handler env w p (Some i) = (r, w') ->
  (status r <> 200 -> w' = w)
  /\ (status r = 200 ->
      exists d, w' = mkWorld (users w) (Db.Image_findByIdAndDelete (images w) i) d).
Proof.
  unfold Images.delete_handler.
  destruct (Db.Image_findById (images w) i) as [image |];
    [| intros H; injection H as <- <-; split; [reflexivity | discriminate]].
  destruct (negb _ && negb _);
    [intros H; injection H as <- <-; split; [reflexivity | discriminate] |].
  destruct (Images.remove_upload env (disk w) (Image.imageUrl image)) as [d | m];
    intros H; injection H as <- <-.
  - split; [intros Hst; contradiction Hst; reflexivity | eauto].
  - split; [reflexivity | discriminate].
Qed.

(** X14.  A deleted image is gone and only it: after a 200 from Delete the
    image is not found, [GET /:id] and a second Delete by anyone answer 404,
    every other image is found as before, and the users are untouched. *)
Theorem X14_deleted_image_is_gone (env : Env) (w w' : World) (p : User.doc)
    (i : ObjectId) (reply : Body) :
  Images.delete_handler env w p (Some i) = (mkResponse 200 reply, w') ->
  Images.get_image_by_id w' (Some i)
  = mkResponse 404 (Message "Image not found")
  /\ (forall env' q,
        Images.delete_handler env' w' q (Some i)
        = (mkResponse 404 (Message "Image not found"), w'))
  /\ (forall j, j <> i ->
        Db.Image_findById (images w') j = Db.Image_findById (images w) j)
  /\ users w' = users w.
Proof.
  intros H. apply delete_handler_200 in H. destruct H as [_ Hyes].
  destruct (Hyes eq_refl) as [d ->]. cbn [images users].
  assert (Hgone : Db.Image_findById (Db.Image_findByIdAndDelete (images w) i) i
                  = None) by apply findByIdAndDelete_gone.
  repeat split.
  - unfold Images.get_image_by_id. cbn [images]. now rewrite Hgone.
  - intros env' q. unfold Images.delete_handler. cbn [images].
    now rewrite Hgone.
  - intros j Hj. now apply findByIdAndDelete_others.
Qed.

Lemma X14_witness :
  let w' := snd (Images.delete_handler Sample.env Sample.gallery Sample.ada
                   (Some 11%nat)) in
  Images.get_image_by_id w' (Some 11%nat)
  = mkResponse 404 (Message "Image not found")
  /\ (forall env' q,
        Images.delete_handler env' w' q (Some 11%nat)
        = (mkResponse 404 (Message "Image not found"), w'))
  /\ (forall j, j <> 11%nat ->
        Db.Image_findById (images w') j
        = Db.Image_findById (images Sample.gallery) j)
  /\ users w' = users Sample.gallery.
Proof.
  apply (X14_deleted_image_is_gone Sample.env Sample.gallery _ Sample.ada
           11%nat (RemovedBody "Image successfully removed" (Some 11%nat))).
  reflexivity.
Defined.

(** X15.  A Delete that is not answered 200 (the image is not there, the
    caller is neither owner nor admin, the id is malformed, or the file
    clean-up threw) leaves records and files as they were. *)
Theorem X15_refused_delete_changes_nothing (env : Env) (w w' : World)
    (p : User.doc) (id : option ObjectId) (r : Response) :
  Images.delete_handler env w p id = (r, w') ->
  status r <> 200 ->
  w' = w.
Proof.
  destruct id as [i |].
  - intros H Hst. apply delete_handler_200 in H. now apply H.
  - unfold Images.delete_handler. intros H. now injection H as <- <-.
Qed.

Lemma X15_witness :
  snd (Images.delete_handler Sample.env Sample.gallery Sample.bob (Some 11%nat))
  = Sample.gallery.
Proof.
  apply (X15_refused_delete_changes_nothing Sample.env Sample.gallery _
           Sample.bob (Some 11%nat)
           (mkResponse 403 (Message "Not authorized to delete this image")));
    [reflexivity | discriminate].
Defined.

Lemma X16_witness :
  Images.delete_handler Sample.env Sample.gallery Sample.carol (Some 11%nat)
  = (mkResponse 200 (RemovedBody "Image successfully removed" (Some 11%nat)),
     mkWorld (users Sample.gallery)
       (Db.Image_findByIdAndDelete (images Sample.gallery) 11%nat)
       (disk Sample.gallery)).
Proof.
  apply (delete_without_uploads_segment Sample.env Sample.gallery Sample.carol
           11%nat Sample.cat_remote);
    [reflexivity | right; reflexivity | reflexivity].
Defined.

Lemma X17_witness :
  Images.delete_handler Sample.env Sample.gallery_without_file Sample.ada
    (Some 10%nat)
  = (mkResponse 200 (RemovedBody "Image successfully removed" (Some 10%nat)),
     mkWorld (users Sample.gallery_without_file)
       (Db.Image_findByIdAndDelete (images Sample.gallery_without_file) 10%nat)
       (disk Sample.gallery_without_file)).
Proof.
  apply (delete_missing_file Sample.env Sample.gallery_without_file Sample.ada
           10%nat Sample.cat_local);
    [reflexivity | left; reflexivity | reflexivity].
Defined.

(** ** From upload to delete *)

Lemma prefix_nil (s : string) : String.prefix "" s = true.
Proof. now destruct s. Qed.

Lemma prefix_app_self (p s : string) : String.prefix p (p ++ s) = true.
Proof.
  induction p as [|c p IH]; cbn; [apply prefix_nil |].
  destruct (ascii_dec c c); [exact IH | contradiction].
Qed.

(** Whether [p] is a prefix is decided within the first [length p]
    characters. *)
Lemma prefix_app_long (p a b : string) :
  (String.length p <= String.length a)%nat ->
  String.prefix p (a ++ b) = String.prefix p a.
Proof.
  revert a. induction p as [|c p IH]; intros a Hlen.
  - now rewrite !prefix_nil.
  - destruct a as [|x a]; [cbn in Hlen; lia |].
    cbn. destruct (ascii_dec c x); [| reflexivity].
    apply IH. cbn in Hlen. lia.
Qed.

Lemma length_append (a b : string) :
  String.length (a ++ b) = (String.length a + String.length b)%nat.
Proof. induction a as [|c a IH]; cbn; [reflexivity | now rewrite IH]. Qed.

Lemma includes_prefix (s p : string) :
  String.prefix p s = true -> Js.includes s p = true.
Proof. intros H. destruct s; cbn [Js.includes]; now rewrite H. Qed.

Lemma includes_app (a p b : string) : Js.includes (a ++ p ++ b) p = true.
Proof.
  induction a as [|c a IH]; cbn [append].
  - apply includes_prefix, prefix_app_self.
  - cbn [Js.includes]. rewrite IH. apply orb_true_r.
Qed.

(** The steps over a separator that was just recognised. *)
Lemma split_go_skip (sep p s cur : string) :
  Js.split_go sep (p ++ s) (String.length p) cur
  = match s with
    | EmptyString => Js.split_go sep "" O cur
    | _ => Js.split_go sep s O cur
    end.
Proof.
  induction p as [|c p IH]; cbn [append String.length].
  - now destruct s.
  - cbn [Js.split_go]. exact IH.
Qed.

Lemma split_go_cons (sep s cur : string) (c : ascii) :
  Js.split_go sep (String c s) O cur
  = if String.prefix sep (String c s)
    then Js.rev_string "" cur :: Js.split_go sep s (String.length sep - 1) ""
    else Js.split_go sep s O (String c cur).
Proof. reflexivity. Qed.

Lemma split_go_at_separator (x : ascii) (sep name cur : string) :
  Js.includes name (String x sep) = false ->
  Js.split_go (String x sep) (String x sep ++ name) O cur
  = [Js.rev_string "" cur; name].
Proof.
  intros Hname.
  change (String x sep ++ name) with (String x (sep ++ name)).
  rewrite split_go_cons.
  change (String x (sep ++ name)) with (String x sep ++ name).
  rewrite prefix_app_self. f_equal.
  replace (String.length (String x sep) - 1)%nat with (String.length sep)
    by (cbn; lia).
  rewrite split_go_skip.
  destruct name as [|y name]; [reflexivity |].
  rewrite (split_go_no_separator _ _ _ Hname).
  now rewrite rev_string_involutive.
Qed.

(** The pieces of [base ++ sep ++ name] when the separator occurs neither
    in [name] nor before the end of [base]; [init] is the separator without
    its last character. *)
Lemma split_at_first (init : string) (l : ascii) (base name cur : string) :
  let sep := init ++ String l "" in
  Js.includes (base ++ init) sep = false ->
  Js.includes name sep = false ->
  Js.split_go sep (base ++ sep ++ name) O cur
  = [Js.rev_string "" (Js.rev_string cur base); name].
Proof.
  intros sep Hbase Hname. revert cur Hbase.
  induction base as [|c base IH]; intros cur Hbase.
  - change ("" ++ sep ++ name) with (sep ++ name). cbn [Js.rev_string].
    subst sep. destruct init as [|x init]; apply split_go_at_separator;
      exact Hname.
  - change (String c base ++ init) with (String c (base ++ init)) in Hbase.
    cbn [Js.includes] in Hbase. apply orb_false_iff in Hbase.
    destruct Hbase as [Hp Hrest].
    change (String c base ++ sep ++ name) with (String c (base ++ sep ++ name)).
    rewrite split_go_cons.
    assert (Hpre : String.prefix sep (String c (base ++ sep ++ name)) = false).
    { change (String c (base ++ sep ++ name))
        with (String c base ++ sep ++ name).
      unfold sep at 2. rewrite (append_assoc init), <- (append_assoc (String c base)).
      rewrite prefix_app_long; [exact Hp |].
      unfold sep. rewrite !length_append. cbn. lia. }
    rewrite Hpre. cbn [Js.rev_string]. apply IH, Hrest.
Qed.

Lemma split_uploads (base name : string) :
  Js.includes (base ++ "/uploads") "/uploads/" = false ->
  Js.includes name "/uploads/" = false ->
  nth 1 (Js.split (base ++ "/uploads/" ++ name) "/uploads/") "" = name.
Proof.
  intros Hbase Hname. unfold Js.split.
  pose proof (split_at_first "/uploads" "/" base name "" Hbase Hname) as H.
  cbv zeta in H. change ("/uploads" ++ "/") with "/uploads/" in H.
  rewrite H. reflexivity.
Qed.

Lemma prefix_first_char (c : ascii) (p s : string) :
  String.prefix (String c p) s = true -> String.prefix (String c "") s = true.
Proof.
  destruct s as [|x s]; cbn; [discriminate |].
  destruct (ascii_dec c x); [intros _; apply prefix_nil | discriminate].
Qed.

(** A string without its first character does not hold a longer string
    that starts with it. *)
Lemma includes_longer (c : ascii) (p s : string) :
  Js.includes s (String c "") = false -> Js.includes s (String c p) = false.
Proof.
  induction s as [|x s IH]; cbn [Js.includes]; intros H.
  - reflexivity.
  - apply orb_false_iff in H. destruct H as [Hp Hs].
    rewrite (IH Hs), orb_false_r.
    destruct (String.prefix (String c p) (String x s)) eqn:E; [| reflexivity].
    apply prefix_first_char in E. rewrite E in Hp. discriminate Hp.
Qed.

Lemma normalize_go_plain (stack segs : list string) (name : string) :
  name <> "" -> name <> "." -> name <> ".." ->
  Fs.normalize_go stack (segs ++ [name])
  = (Fs.normalize_go stack segs ++ [name])%list.
Proof.
  intros H0 H1 H2. revert stack.
  induction segs as [|seg segs IH]; intros stack; cbn [app Fs.normalize_go].
  - apply String.eqb_neq in H0, H1, H2. rewrite H0, H1, H2. cbn [orb].
    cbn [rev]. reflexivity.
  - destruct (String.eqb seg "" || String.eqb seg "."); [apply IH |].
    destruct (String.eqb seg ".."); apply IH.
Qed.

Lemma ends_with_slash_includes (s : string) :
  Fs.ends_with_slash s = true -> Js.includes s "/" = true.
Proof.
  induction s as [|c s IH]; [discriminate |].
  cbn [Fs.ends_with_slash Js.includes]. destruct s as [|x s].
  - intros H. apply Ascii.eqb_eq in H. subst c. reflexivity.
  - intros H. rewrite (IH H). apply orb_true_r.
Qed.

(** Where [path.join] puts a plain name: directly inside the uploads
    directory. *)
Lemma join_plain_name (env : Env) (name : string) :
  name <> "" -> name <> "." -> name <> ".." ->
  Js.includes name "/" = false ->
  Fs.join (dirname env) ["../uploads"; name]
  = ((Images.uploadDir env ++ [name])%list, false).
Proof.
  intros H0 H1 H2 Hs. unfold Images.uploadDir, Fs.join.
  cbn [filter String.eqb Ascii.eqb Bool.eqb negb].
  apply String.eqb_neq in H0. rewrite H0. cbn [negb flat_map last fst].
  rewrite app_nil_r.
  assert (Hsplit : Js.split name "/" = [name]).
  { unfold Js.split. rewrite (split_go_no_separator _ _ _ Hs).
    cbn [Js.rev_string]. now rewrite rev_string_involutive. }
  rewrite Hsplit. apply String.eqb_neq in H0.
  rewrite (normalize_go_plain _ _ name H0 H1 H2). f_equal.
  destruct (Fs.ends_with_slash name) eqn:E; [| reflexivity].
  apply ends_with_slash_includes in E. rewrite E in Hs. discriminate Hs.
Qed.

Lemma upload_single_stored (env : Env) (d d1 : Fs.disk) (f : Images.FilePart)
    (name : string) :
  Images.upload_single env d (Some f) = (Ok (Some name), d1) ->
  Fs.is_file d (Images.uploadDir env ++ [name])%list = false ->
  name = uuid env ++ Fs.extname (Images.originalname f)
  /\ Js.startsWith (Images.mimetype f) "image/" = true
  /\ Images.size f <= Images.fileSize_limit
  /\ Fs.files d1 = (Images.uploadDir env ++ [name])%list :: Fs.files d.
Proof.
  unfold Images.upload_single, Images.fileFilter.
  destruct (Js.startsWith (Images.mimetype f) "image/"); [| discriminate].
  destruct (Images.fileSize_limit <? Images.size f) eqn:E; [discriminate |].
  apply Z.ltb_ge in E. intros H Hfile. injection H as <- <-.
  repeat split; [exact E |].
  set (name := uuid env ++ Fs.extname (Images.originalname f)) in *.
  assert (Hfiles : forall d0 : Fs.disk,
             Fs.files d0 = Fs.files d ->
             Fs.files (Fs.writeFile d0 (Images.uploadDir env ++ [name])%list)
             = (Images.uploadDir env ++ [name])%list :: Fs.files d).
  { intros d0 E0. unfold Fs.writeFile, Fs.is_file. rewrite E0.
    unfold Fs.is_file in Hfile. rewrite Hfile. reflexivity. }
  apply Hfiles.
  match goal with |- context [if ?b then _ else _] => destruct b end;
    [reflexivity |].
  unfold Fs.mkdirSync. now destruct (Fs.is_dir d (Images.uploadDir env)).
Qed.

Lemma filter_not_file (files : list Fs.path) (p : Fs.path) :
  existsb (Fs.path_eqb p) files = false ->
  filter (fun q => negb (Fs.path_eqb p q)) files = files.
Proof.
  induction files as [|q files IH]; cbn [existsb filter]; intros H;
    [reflexivity |].
  apply orb_false_iff in H. destruct H as [Hq Hrest].
  rewrite Hq. cbn [negb]. now rewrite (IH Hrest).
Qed.

Lemma path_eqb_refl (p : Fs.path) : Fs.path_eqb p p = true.
Proof.
  unfold Fs.path_eqb. destruct (list_eq_dec string_dec p p);
    [reflexivity | contradiction].
Qed.

Lemma delete_new_image (db : list Image.doc) (d : Image.doc) :
  Db.Image_id_used db (Image._id d) = false ->
  Db.Image_findByIdAndDelete (db ++ [d]) (Image._id d) = db.
Proof.
  unfold Db.Image_id_used, Db.Image_findByIdAndDelete.
  induction db as [|x db IH]; cbn [existsb filter app]; intros H.
  - now rewrite Nat.eqb_refl.
  - apply orb_false_iff in H. destruct H as [Hx Hrest].
    rewrite Hx. cbn [negb]. now rewrite (IH Hrest).
Qed.

Lemma trimEnd_app (a b : string) :
  b <> "" -> Js.trimEnd b = b -> Js.trimEnd (a ++ b) = a ++ b.
Proof.
  intros Hb Ht. induction a as [|c a IH]; cbn [append]; [exact Ht |].
  cbn [Js.trimEnd]. rewrite IH.
  destruct (a ++ b) eqn:E; [| reflexivity].
  destruct a; cbn in E; [contradiction | discriminate E].
Qed.

(** The URL the upload handler makes is stored as it is made. *)
Lemma upload_url_stored (protocol host name : string) (d : Image.doc) :
  protocol = "http" \/ protocol = "https" ->
  name <> "" -> Js.trimEnd name = name ->
  Image.imageUrl d = Js.trim ((protocol ++ "://" ++ host) ++ "/uploads/" ++ name) ->
  Image.imageUrl (Image.pre_save d)
  = (protocol ++ "://" ++ host) ++ "/uploads/" ++ name.
Proof.
  intros Hp Hn Ht Hurl.
  assert (Htrim : Js.trim ((protocol ++ "://" ++ host) ++ "/uploads/" ++ name)
                  = (protocol ++ "://" ++ host) ++ "/uploads/" ++ name).
  { unfold Js.trim.
    assert (Hs : Js.trimStart ((protocol ++ "://" ++ host) ++ "/uploads/" ++ name)
                 = (protocol ++ "://" ++ host) ++ "/uploads/" ++ name).
    { destruct Hp as [-> | ->]; reflexivity. }
    rewrite Hs, <- append_assoc. apply trimEnd_app; assumption. }
  rewrite Htrim in Hurl.
  rewrite pre_save_keeps_url_with_scheme; [exact Hurl |].
  rewrite Hurl. destruct Hp as [-> | ->]; cbn; now destruct host.
Qed.

(** X18.  Upload and Delete undo each other.  Take an upload that multer
    stores under a plain name that was free (no slash in it, not empty, not
    a dot name, no white space at its end), on a server whose own base URL
    does not run into an [/uploads/] segment, and that the handler answers
    with 201.  Then the owner's Delete of the new image answers 200 and
    leaves the images, the users and the files as they were before the
    upload. *)
Theorem X18_upload_then_delete_restores (sv : Services) (env : Env)
    (w w2 : World) (owner : User.doc) (protocol host : string)
    (f : Images.FilePart) (title description tags : option string)
    (name : string) (d1 : Fs.disk) (reply : Body) :
  protocol = "http" \/ protocol = "https" ->
  Js.includes ((protocol ++ "://" ++ host) ++ "/uploads") "/uploads/" = false ->
  name <> "" -> name <> "." -> name <> ".." ->
  Js.includes name "/" = false ->
  Js.trimEnd name = name ->
  Fs.is_file (disk w) (Images.uploadDir env ++ [name])%list = false ->
  Images.upload_single env (disk w) (Some f) = (Ok (Some name), d1) ->
  Images.post_upload_handler sv env (mkWorld (users w) (images w) d1) owner
    protocol host (Some name) title description tags
  = (mkResponse 201 reply, w2) ->
  exists w3,
    Images.delete_handler env w2 owner (Some (fresh env))
    = (mkResponse 200
         (RemovedBody "Image successfully removed" (Some (fresh env))), w3)
    /\ images w3 = images w
    /\ users w3 = users w
    /\ Fs.files (disk w3) = Fs.files (disk w).
Proof.
  intros Hproto Hbase Hn0 Hn1 Hn2 Hslash Htrim Hfree Hmulter Hrun.
  destruct (upload_single_stored env (disk w) d1 f name Hmulter Hfree)
    as [_ [_ [_ Hfiles]]].
  (* the handler: one image more, with the URL it made *)
  set (url := (protocol ++ "://" ++ host) ++ "/uploads/" ++ name) in *.
  assert (Hcreated :
            exists tgs,
              Images.create_image env (mkWorld (users w) (images w) d1) owner url
                (Js.or_else title "") (Js.or_else description "") tgs
              = (mkResponse 201 reply, w2)).
  { unfold Images.post_upload_handler in Hrun. fold url in Hrun.
    destruct (Js.truthy tags); [| eauto].
    destruct (Json.parse (Js.or_else tags "")); [eauto | discriminate Hrun]. }
  destruct Hcreated as [tgs Hcreated].
  apply create_image_201 in Hcreated. destruct Hcreated as [_ Hyes].
  destruct (Hyes eq_refl) as [tl [d [_ [Hd [_ [Hw2 [Hfind [_ Hunused]]]]]]]].
  cbn [images users disk] in Hw2, Hunused.
  set (made := Image.create (fresh env) (now env) url (Js.or_else title "")
                 (Js.or_else description "") tl (User._id owner)) in *.
  destruct (pre_save_fields made) as [Eid [Euser _]]. rewrite <- Hd in Eid, Euser.
  assert (Hurl : Image.imageUrl d = url).
  { rewrite Hd. apply upload_url_stored; auto. }
  (* the delete: finds the image, the caller owns it, the file is there *)
  assert (Hname : Js.includes name "/uploads/" = false)
    by (apply includes_longer, Hslash).
  assert (Hremove :
            Images.remove_upload env d1 url
            = Ok (Fs.mkDisk (Fs.files (disk w)) (Fs.dirs d1))).
  { unfold Images.remove_upload, url.
    rewrite includes_app, (split_uploads _ _ Hbase Hname).
    rewrite (join_plain_name env name Hn0 Hn1 Hn2 Hslash).
    unfold Fs.existsSync, Fs.unlinkSync, Fs.is_file. rewrite Hfiles.
    cbn [existsb negb andb]. rewrite path_eqb_refl. cbn [orb filter negb].
    rewrite path_eqb_refl. cbn [negb].
    unfold Fs.is_file in Hfree. now rewrite (filter_not_file _ _ Hfree). }
  eexists. unfold Images.delete_handler. rewrite Hfind, Euser.
  cbn [Image.user made Image.create]. rewrite Nat.eqb_refl. cbn [negb andb].
  rewrite Hurl, Hw2. cbn [disk images users]. rewrite Hremove.
  split; [reflexivity |]. cbn [images users disk Fs.files].
  repeat split.
  assert (Efresh : Image._id d = fresh env) by (now rewrite Eid).
  rewrite <- Efresh. apply delete_new_image. rewrite Efresh. exact Hunused.
Qed.

Lemma X18_witness :
  exists w3,
    Images.delete_handler Sample.env
      (snd (fst (Images.post_upload Sample.services Sample.env Sample.world
                   Sample.bob_session None "http" "localhost:5000"
                   (Some Sample.photo) (Some "Holiday") None None)))
      Sample.bob (Some (fresh Sample.env))
    = (mkResponse 200
         (RemovedBody "Image successfully removed" (Some (fresh Sample.env))),
       w3)
    /\ images w3 = images Sample.world
    /\ users w3 = users Sample.world
    /\ Fs.files (disk w3) = Fs.files (disk Sample.world).
Proof.
  apply (X18_upload_then_delete_restores Sample.services Sample.env
           Sample.world _ Sample.bob "http" "localhost:5000" Sample.photo
           (Some "Holiday") None None "3f2b8c1e.png"
           (snd (Images.upload_single Sample.env (disk Sample.world)
                   (Some Sample.photo)))
           (body (fst (fst (Images.post_upload Sample.services Sample.env
                              Sample.world Sample.bob_session None "http"
                              "localhost:5000" (Some Sample.photo)
                              (Some "Holiday") None None)))));
    try reflexivity; try discriminate.
  left. reflexivity.
Defined.

(** The stored name must not end in white space: the schema trims the
    URL, and Delete then looks for a file that is not there. *)
Example upload_with_trailing_space_leaves_file :
  let up := Images.post_upload Sample.services Sample.env Sample.world
              Sample.bob_session None "http" "localhost:5000"
              (Some (Images.mkFile "holiday.png " "image/png" 2048))
              (Some "Holiday") None None in
  let del := Images.delete_handler Sample.env (snd (fst up)) Sample.bob
               (Some (fresh Sample.env)) in
  status (fst (fst up)) = 201
  /\ status (fst del) = 200
  /\ Fs.files (disk (snd del))
     = [["srv"; "server"; "uploads"; "3f2b8c1e.png "];
        ["srv"; "server"; "uploads"; "cat.png"]].
Proof. vm_compute. repeat split; reflexivity. Qed.

(** ** Walking through the pages *)

Section Pages.

Context {A : Type}.

Lemma firstn_add (a b : nat) (l : list A) :
  firstn (a + b) l = (firstn a l ++ firstn b (skipn a l))%list.
Proof.
  revert l. induction a as [|a IH]; intros l; [reflexivity |].
  destruct l as [|x l]; cbn [Nat.add firstn skipn app].
  - now rewrite firstn_nil.
  - now rewrite IH.
Qed.

(** The pages of size [size], one after the other, are the front of the
    list. *)
Lemma pages_concat (size n : nat) (l : list A) :
  flat_map (fun k => firstn size (skipn (k * size) l)) (seq 0 n)
  = firstn (n * size) l.
Proof.
  induction n as [|n IH]; [reflexivity |].
  rewrite seq_S, flat_map_app, IH. cbn [flat_map Nat.add].
  rewrite app_nil_r. replace (S n * size)%nat with (n * size + size)%nat by lia.
  now rewrite firstn_add.
Qed.

Variable key : A -> Z.

Lemma insert_desc_perm (x : A) (l : list A) :
  Permutation (Db.insert_desc key x l) (x :: l).
Proof.
  induction l as [|y l IH]; cbn [Db.insert_desc]; [reflexivity |].
  destruct (key y <=? key x); [reflexivity |].
  rewrite IH. apply perm_swap.
Qed.

Lemma sort_desc_perm (l : list A) : Permutation (Db.sort_desc key l) l.
Proof.
  induction l as [|x l IH]; [reflexivity |].
  cbn [Db.sort_desc fold_right]. fold (Db.sort_desc key l).
  rewrite insert_desc_perm. now constructor.
Qed.

(** With distinct keys there is one descending order only: two descending
    arrangements of the same documents are the same list. *)
Lemma descending_unique (l1 : list A) :
  forall l2,
    NoDup (map key l1) ->
    Permutation l1 l2 ->
    Spec.descending key l1 -> Spec.descending key l2 ->
    l1 = l2.
Proof.
  induction l1 as [|x l1 IH]; intros l2 Hnd Hperm H1 H2.
  - apply Permutation_nil in Hperm. now subst.
  - destruct l2 as [|y l2];
      [apply Permutation_sym, Permutation_nil in Hperm; discriminate |].
    apply StronglySorted_inv in H1. destruct H1 as [H1 Hx].
    apply StronglySorted_inv in H2. destruct H2 as [H2 Hy].
    cbn [map] in Hnd. apply NoDup_cons_iff in Hnd. destruct Hnd as [Hnx Hnd].
    assert (Hxy : x = y).
    { assert (Hyin : In y (x :: l1))
        by (apply (Permutation_in _ (Permutation_sym Hperm)); now left).
      destruct Hyin as [Hyx | Hyin]; [exact Hyx |].
      assert (Hxin : In x (y :: l2))
        by (apply (Permutation_in _ Hperm); now left).
      destruct Hxin as [Hxy | Hxin]; [now symmetry |].
      exfalso. apply Hnx.
      rewrite Forall_forall in Hx, Hy.
      assert (Hk : key x = key y)
        by (pose proof (Hx _ Hyin); pose proof (Hy _ Hxin); lia).
      rewrite Hk. now apply in_map. }
    subst y. f_equal. apply IH; [exact Hnd | | exact H1 | exact H2].
    now apply Permutation_cons_inv in Hperm.
Qed.

(** So the order of the model is the one any sort gives. *)
Lemma sort_desc_only_order (l l' : list A) :
  NoDup (map key l) ->
  Permutation l' l -> Spec.descending key l' ->
  l' = Db.sort_desc key l.
Proof.
  intros Hnd Hperm Hdesc. symmetry.
  apply descending_unique;
    [| now rewrite sort_desc_perm | apply sort_desc_sorted | exact Hdesc].
  apply (Permutation_NoDup (l := map key l)); [| exact Hnd].
  apply Permutation_map, Permutation_sym, sort_desc_perm.
Qed.

End Pages.

Lemma map_flat_map {A B C : Type} (f : B -> C) (g : A -> list B) (l : list A) :
  map f (flat_map g l) = flat_map (fun x => map f (g x)) l.
Proof.
  induction l as [|x l IH]; cbn [flat_map map]; [reflexivity |].
  now rewrite map_app, IH.
Qed.

Lemma get_images_listed (w : World) (limit page : Z) :
  0 < limit -> 0 < page ->
  Images.listed (Images.get_images w (Some limit) (Some page))
  = map (Db.populate (users w))
      (firstn (Z.to_nat limit)
         (skipn (Z.to_nat ((page - 1) * limit))
            (Db.sort_desc Image.createdAt (images w)))).
Proof.
  intros Hl Hp. unfold Images.get_images, Images.skip_limit, Db.skip, Db.limit.
  cbn [Images.or_default].
  destruct ((page - 1) * limit <? 0) eqn:E; [apply Z.ltb_lt in E; nia |].
  destruct (limit =? 0) eqn:E0; [apply Z.eqb_eq in E0; lia |].
  rewrite Z.abs_eq by lia. reflexivity.
Qed.

(** X19.  Walking through the listing page by page shows every stored
    image exactly once.  For a positive limit, a number of pages that
    covers the total and images with distinct creation times, the pages
    1, 2, ..., n of [GET /] put one after the other are the whole
    collection, newest first; with distinct creation times that is one
    order only, whatever the data base does with ties. *)
Theorem X19_pages_cover_the_collection (w : World) (limit : Z) (n : nat) :
  0 < limit ->
  Z.of_nat (length (images w)) <= Z.of_nat n * limit ->
  NoDup (map Image.createdAt (images w)) ->
  let walk :=
    flat_map (fun k => Images.listed
                         (Images.get_images w (Some limit)
                            (Some (Z.of_nat k + 1))))
             (seq 0 n) in
  walk = map (Db.populate (users w)) (Db.sort_desc Image.createdAt (images w))
  /\ Permutation (map fst walk) (images w)
  /\ Spec.descending (fun x : Populated => Image.createdAt (fst x)) walk
  /\ forall l,
       Permutation l (images w) -> Spec.descending Image.createdAt l ->
       map fst walk = l.
Proof.
  intros Hl Hn Hnd. cbv zeta.
  assert (Hwalk :
            flat_map (fun k => Images.listed
                                 (Images.get_images w (Some limit)
                                    (Some (Z.of_nat k + 1))))
                     (seq 0 n)
            = map (Db.populate (users w))
                (Db.sort_desc Image.createdAt (images w))).
  { transitivity
      (map (Db.populate (users w))
         (flat_map (fun k => firstn (Z.to_nat limit)
                               (skipn (k * Z.to_nat limit)
                                  (Db.sort_desc Image.createdAt (images w))))
                   (seq 0 n))).
    - rewrite map_flat_map. apply flat_map_ext. intros k.
      rewrite get_images_listed by lia.
      replace (Z.to_nat ((Z.of_nat k + 1 - 1) * limit))
        with (k * Z.to_nat limit)%nat by nia.
      reflexivity.
    - rewrite pages_concat, firstn_all2; [reflexivity |].
      rewrite sort_desc_length. nia. }
  rewrite Hwalk.
  assert (Hfst : map fst (map (Db.populate (users w))
                            (Db.sort_desc Image.createdAt (images w)))
                 = Db.sort_desc Image.createdAt (images w)).
  { rewrite map_map. cbn [Db.populate fst]. apply map_id. }
  repeat split.
  - rewrite Hfst. apply sort_desc_perm.
  - apply descending_populate, sort_desc_sorted.
  - intros l Hperm Hdesc. rewrite Hfst. symmetry.
    now apply sort_desc_only_order.
Qed.

Lemma X19_witness :
  let walk :=
    flat_map (fun k => Images.listed
                         (Images.get_images Sample.cats (Some 1)
                            (Some (Z.of_nat k + 1))))
             (seq 0 2) in
  walk = map (Db.populate (users Sample.cats))
           (Db.sort_desc Image.createdAt (images Sample.cats))
  /\ Permutation (map fst walk) (images Sample.cats)
  /\ Spec.descending (fun x : Populated => Image.createdAt (fst x)) walk
  /\ forall l,
       Permutation l (images Sample.cats) ->
       Spec.descending Image.createdAt l ->
       map fst walk = l.
Proof.
  apply (X19_pages_cover_the_collection Sample.cats 1 2); [reflexivity | |].
  - cbn. lia.
  - cbn. repeat constructor; cbn; intuition discriminate.
Defined.

(** ** One's own images *)

(** X20.  [GET /myimages] answers an authenticated caller with all of the
    caller's images and no others, newest first.  When the caller's images
    have distinct creation times, that order is the only one there is,
    and the answer is what the first page of [GET /user/:username] shows
    for the caller's name, when that name finds the caller and the limit
    covers the images. *)
Theorem X20_my_images_are_the_callers (sv : Services) (w : World)
    (session s : option Session) (authorization : option string)
    (u : User.doc) :
  ensureAuthenticated sv (users w) session authorization = Next u s ->
  let answer := fst (Images.get_my_images sv w session authorization) in
  let own := filter (fun i => Nat.eqb (Image.user i) (User._id u)) (images w) in
  status answer = 200
  /\ Permutation (map fst (Images.listed answer)) own
  /\ Forall (fun x : Populated => Image.user (fst x) = User._id u)
            (Images.listed answer)
  /\ Spec.descending (fun x : Populated => Image.createdAt (fst x))
                     (Images.listed answer)
  /\ (forall l,
        NoDup (map Image.createdAt own) ->
        Permutation l own -> Spec.descending Image.createdAt l ->
        map fst (Images.listed answer) = l)
  /\ forall limit,
       0 < limit -> Z.of_nat (length own) <= limit ->
       NoDup (map Image.createdAt own) ->
       Db.User_findOne_username (users w) (User.username u) = Some u ->
       Images.listed (Images.get_user_images w (User.username u) (Some limit)
                        (Some 1))
       = Images.listed answer.
Proof.
  intros Hauth. cbv zeta. unfold Images.get_my_images. rewrite Hauth.
  cbn [fst]. unfold Images.get_my_images_handler.
  set (own := filter (fun i => Nat.eqb (Image.user i) (User._id u)) (images w)).
  cbn [status Images.listed body].
  assert (Hperm : Permutation (Db.sort_desc Image.createdAt own) own)
    by apply sort_desc_perm.
  repeat split.
  - rewrite map_map. cbn [Db.populate fst]. now rewrite map_id.
  - apply Forall_map. cbn [Db.populate fst]. apply Forall_forall.
    intros i Hi. apply (Permutation_in _ Hperm) in Hi.
    apply filter_In in Hi. destruct Hi as [_ Hi]. now apply Nat.eqb_eq in Hi.
  - apply descending_populate, sort_desc_sorted.
  - intros l Hnd Hl Hdesc. rewrite map_map. cbn [Db.populate fst].
    rewrite map_id. symmetry. now apply sort_desc_only_order.
  - intros limit Hl Hcover _ Hname. unfold Images.get_user_images.
    rewrite Hname. cbn [Images.or_default]. fold own.
    unfold Images.skip_limit, Db.skip, Db.limit.
    replace ((1 - 1) * limit) with 0 by lia.
    change (0 <? 0) with false. change (Z.to_nat 0) with O. cbn [skipn].
    destruct (limit =? 0) eqn:E0; [apply Z.eqb_eq in E0; lia |].
    rewrite Z.abs_eq by lia. cbn [Images.listed body].
    rewrite firstn_all2; [reflexivity |].
    rewrite sort_desc_length. lia.
Qed.

Lemma X20_witness :
  let answer :=
    fst (Images.get_my_images Sample.services Sample.cats
           (Some (mkSession (Some 1%nat))) None) in
  let own := filter (fun i => Nat.eqb (Image.user i) (User._id Sample.ada))
                    (images Sample.cats) in
  status answer = 200
  /\ Permutation (map fst (Images.listed answer)) own
  /\ Forall (fun x : Populated => Image.user (fst x) = User._id Sample.ada)
            (Images.listed answer)
  /\ Spec.descending (fun x : Populated => Image.createdAt (fst x))
                     (Images.listed answer)
  /\ (forall l,
        NoDup (map Image.createdAt own) ->
        Permutation l own -> Spec.descending Image.createdAt l ->
        map fst (Images.listed answer) = l)
  /\ forall limit,
       0 < limit -> Z.of_nat (length own) <= limit ->
       NoDup (map Image.createdAt own) ->
       Db.User_findOne_username (users Sample.cats) (User.username Sample.ada)
       = Some Sample.ada ->
       Images.listed (Images.get_user_images Sample.cats
                        (User.username Sample.ada) (Some limit) (Some 1))
       = Images.listed answer.
Proof.
  apply (X20_my_images_are_the_callers Sample.services Sample.cats
           (Some (mkSession (Some 1%nat))) (Some (mkSession (Some 1%nat)))
           None Sample.ada).
  reflexivity.
Defined.

(** ** What is stored *)

Lemma https_has_scheme (s : string) :
  Regex.matches_prefix Image.scheme_pattern ("https://" ++ s) = true.
Proof. cbn. now destruct s. Qed.

Lemma Image_save_Ok (db db' : list Image.doc) (d d' : Image.doc) :
  Db.Image_save db d = Ok (d', db') ->
  Image.validate d = true
  /\ Db.Image_id_used db (Image._id d) = false
  /\ d' = Image.pre_save d
  /\ db' = (db ++ [d'])%list.
Proof.
  unfold Db.Image_save.
  destruct (Image.validate d); cbn [negb]; [| discriminate].
  destruct (Db.Image_id_used db (Image._id d)); [discriminate |].
  intros H. injection H as <- <-. auto.
Qed.

(** X21.  The images collection keeps its shape under [save]: if every
    stored image has a URL that starts with [http://] or [https://], a
    title of at most 100, a description of at most 500 and tags of at most
    30 characters, and the ids are unique, then the same holds after any
    save that is accepted. *)
Theorem X21_save_keeps_collection_well_formed (db db' : list Image.doc)
    (d d' : Image.doc) :
  forallb stored_ok db = true ->
  NoDup (map Image._id db) ->
  Db.Image_save db d = Ok (d', db') ->
  forallb stored_ok db' = true /\ NoDup (map Image._id db').
Proof.
  intros Hok Hnd Hsave. apply Image_save_Ok in Hsave.
  destruct Hsave as [Hv [Hu [-> ->]]].
  destruct (pre_save_fields d) as [Eid _].
  split.
  - rewrite forallb_app, Hok. cbn [forallb andb]. rewrite andb_true_r.
    unfold Image.validate in Hv. unfold stored_ok, Image.pre_save.
    apply andb_true_iff in Hv. destruct Hv as [Hv Htags].
    apply andb_true_iff in Hv. destruct Hv as [Hv Hdesc].
    apply andb_true_iff in Hv. destruct Hv as [Hurl Htitle].
    rewrite Hurl. cbn [andb].
    destruct (Regex.matches_prefix Image.scheme_pattern (Image.imageUrl d))
      eqn:Hs; cbn [negb].
    + now rewrite Hs, Htitle, Hdesc, Htags.
    + cbn [Image.with_imageUrl Image.imageUrl Image.title Image.description
           Image.tags].
      now rewrite https_has_scheme, Htitle, Hdesc, Htags.
  - rewrite map_app. cbn [map]. apply NoDup_snoc; [exact Hnd |].
    rewrite Eid. intros Hin. apply in_map_iff in Hin.
    destruct Hin as [x [Ex Hx]]. unfold Db.Image_id_used in Hu.
    assert (Hex : existsb (fun i => Nat.eqb (Image._id i) (Image._id d)) db
                  = true).
    { apply existsb_exists. exists x. split; [exact Hx | now apply Nat.eqb_eq]. }
    rewrite Hex in Hu. discriminate Hu.
Qed.

Lemma X21_witness :
  forallb stored_ok
    [Sample.cat_local;
     Image.mk 30%nat "https://example.com/a.png" "A" "" [] 1%nat [] 5000] = true
  /\ NoDup (map Image._id
              [Sample.cat_local;
               Image.mk 30%nat "https://example.com/a.png" "A" "" [] 1%nat []
                        5000]).
Proof.
  apply (X21_save_keeps_collection_well_formed [Sample.cat_local] _
           (Image.mk 30%nat "example.com/a.png" "A" "" [] 1%nat [] 5000)
           (Image.mk 30%nat "https://example.com/a.png" "A" "" [] 1%nat [] 5000)).
  - reflexivity.
  - repeat constructor. intros [].
  - reflexivity.
Defined.

(** ** The client's header *)

(** X22.  The header the client's interceptor makes and the token the
    middleware reads from it fit together: for a stored token that does not
    itself contain the word the header starts with, a request without a
    session user is resolved by what the verifier says about exactly that
    token; without a stored token the request is answered 401
    UNAUTHORIZED_ACCESS. *)
Theorem X22_interceptor_header_carries_the_token (sv : Services)
    (db : list User.doc) (token : string) :
  token <> "" ->
  Js.includes token "Bearer " = false ->
  bearer_token (Js.or_else (Client.authorization_header (Some token)) "") = token
  /\ ensureAuthenticated sv db (Some (mkSession None))
       (Client.authorization_header (Some token))
     = match verifyIdToken sv token with
       | Decoded t =>
           match Db.User_findOne_firebaseUid db (uid t) with
           | None =>
               Reply (mkResponse 401
                        (AuthFailure "User not found. Please log in again."
                                     "USER_NOT_FOUND")) (Some (mkSession None))
           | Some u => Next u (Some (mkSession (Some (User._id u))))
           end
       | Rejected _ =>
           Reply (mkResponse 401
                    (AuthFailure "Invalid or expired authentication token."
                                 "INVALID_TOKEN")) (Some (mkSession None))
       end
  /\ ensureAuthenticated sv db (Some (mkSession None))
       (Client.authorization_header None)
     = Reply (mkResponse 401
                (AuthFailure
                   "Authentication required. Please log in to access this resource."
                   "UNAUTHORIZED_ACCESS")) (Some (mkSession None)).
Proof.
  intros Hne Hno. unfold Client.authorization_header.
  rewrite (truthy_Some token Hne), (or_else_Some token "" Hne).
  assert (Hh : "Bearer " ++ token <> "") by discriminate.
  rewrite (or_else_Some _ "" Hh), (bearer_token_of_header token Hno).
  repeat split.
  rewrite (ensureAuthenticated_bearer sv db ("Bearer " ++ token)).
  - now rewrite (bearer_token_of_header token Hno).
  - apply prefix_app_self.
Qed.

Lemma X22_witness :
  bearer_token (Js.or_else (Client.authorization_header (Some "good")) "")
  = "good"
  /\ ensureAuthenticated Sample.services [Sample.ada] (Some (mkSession None))
       (Client.authorization_header (Some "good"))
     = Next Sample.ada (Some (mkSession (Some 1%nat)))
  /\ ensureAuthenticated Sample.services [Sample.ada] (Some (mkSession None))
       (Client.authorization_header None)
     = Reply (mkResponse 401
                (AuthFailure
                   "Authentication required. Please log in to access this resource."
                   "UNAUTHORIZED_ACCESS")) (Some (mkSession None)).
Proof.
  apply (X22_interceptor_header_carries_the_token Sample.services [Sample.ada]
           "good"); [discriminate | reflexivity].
Defined.

(** ** What an upload leaves behind *)

Lemma post_upload_handler_disk (sv : Services) (env : Env) (w w' : World)
    (u : User.doc) (protocol host name : string)
    (title description tags : option string) (r : Response) :
  Images.post_upload_handler sv env w u protocol host (Some name) title
    description tags = (r, w') ->
  disk w' = disk w /\ (status r <> 201 -> images w' = images w).
Proof.
  assert (Hcreate :
            forall url t ds tgs,
              Images.create_image env w u url t ds tgs = (r, w') ->
              disk w' = disk w /\ (status r <> 201 -> images w' = images w)).
  { intros url t ds tgs Hc. apply create_image_201 in Hc.
    destruct Hc as [Hno Hyes].
    destruct (Z.eq_dec (status r) 201) as [E | E].
    - destruct (Hyes E) as [tl [d [_ [_ [_ [-> _]]]]]].
      split; [reflexivity | intros Hst; contradiction].
    - rewrite (Hno E). split; reflexivity. }
  unfold Images.post_upload_handler.
  destruct (Js.truthy tags).
  - destruct (Json.parse (Js.or_else tags "")).
    + apply Hcreate.
    + intros H. injection H as <- <-. split; reflexivity.
  - apply Hcreate.
Qed.

(** X23.  [POST /upload] never takes a stored file back.  Once multer has
    stored the file of an authenticated request, the file is on the disk
    after the request whatever the answer is; when the answer is not 201
    (tags that do not parse, a title that is too long, ...) no image was
    added, so the file is left without a record. *)
Theorem X23_failed_upload_leaves_the_file (sv : Services) (env : Env)
    (w w' : World) (session s s' : option Session)
    (authorization : option string) (protocol host : string)
    (f : Images.FilePart) (title description tags : option string)
    (u : User.doc) (name : string) (d1 : Fs.disk) (r : Response) :
  ensureAuthenticated sv (users w) session authorization = Next u s ->
  Images.upload_single env (disk w) (Some f) = (Ok (Some name), d1) ->
  Images.post_upload sv env w session authorization protocol host (Some f)
    title description tags = (r, w', s') ->
  disk w' = d1
  /\ Fs.is_file (disk w') (Images.uploadDir env ++ [name])%list = true
  /\ (status r <> 201 -> images w' = images w).
Proof.
  intros Hauth Hmulter Hrun. unfold Images.post_upload in Hrun.
  rewrite Hauth, Hmulter in Hrun.
  destruct (Images.post_upload_handler sv env
              (mkWorld (users w) (images w) d1) u protocol host (Some name)
              title description tags) as [r0 w0] eqn:Hhandler.
  injection Hrun as -> -> _.
  apply post_upload_handler_disk in Hhandler. cbn [disk images] in Hhandler.
  destruct Hhandler as [Hd Himgs]. rewrite Hd. repeat split; [| exact Himgs].
  unfold Images.upload_single, Images.fileFilter in Hmulter.
  destruct (Js.startsWith (Images.mimetype f) "image/");
    [| discriminate Hmulter].
  destruct (Images.fileSize_limit <? Images.size f); [discriminate Hmulter |].
  injection Hmulter as <- <-. apply writeFile_is_file.
Qed.

Lemma X23_witness :
  let run := Images.post_upload Sample.services Sample.env Sample.world
               Sample.bob_session None "http" "localhost:5000"
               (Some Sample.photo) (Some Sample.long_title) None None in
  disk (snd (fst run))
  = snd (Images.upload_single Sample.env (disk Sample.world) (Some Sample.photo))
  /\ Fs.is_file (disk (snd (fst run)))
       (Images.uploadDir Sample.env ++ ["3f2b8c1e.png"])%list = true
  /\ (status (fst (fst run)) <> 201 ->
      images (snd (fst run)) = images Sample.world).
Proof.
  apply (X23_failed_upload_leaves_the_file Sample.services Sample.env
           Sample.world _ Sample.bob_session Sample.bob_session
           Sample.bob_session None "http" "localhost:5000" Sample.photo
           (Some Sample.long_title) None None Sample.bob "3f2b8c1e.png");
    reflexivity.
Defined.

(** ** The form and the file filter *)

Lemma prefix_split (p s : string) :
  String.prefix p s = true -> exists r, s = (p ++ r)%string.
Proof.
  revert s. induction p as [|a p IH]; intros s H.
  - exists s. reflexivity.
  - destruct s as [|b s]; cbn [String.prefix] in H; [discriminate |].
    destruct (ascii_dec a b) as [<- |]; [| discriminate].
    destruct (IH _ H) as [r ->]. exists r. reflexivity.
Qed.

(** X24.  The upload form never holds back a file the server would take:
    a file that passes multer's filter and size limit passes the form's
    type and size check as well. *)
Theorem X24_form_accepts_what_multer_accepts (f : Images.FilePart) :
  Images.fileFilter f = Ok true ->
  Images.size f <= Images.fileSize_limit ->
  Client.file_selected (Images.mimetype f) (Images.size f) = true.
Proof.
  unfold Images.fileFilter, Client.file_selected, Js.startsWith.
  destruct (String.prefix "image/" (Images.mimetype f)) eqn:Hp; [| discriminate].
  intros _ Hsize.
  destruct (prefix_split _ _ Hp) as [rest ->].
  assert (Hs : Client.search Client.type_pattern ("image/" ++ rest) = true).
  { cbn [String.append Client.search]. apply orb_true_iff. left.
    vm_compute. reflexivity. }
  rewrite Hs. cbn [negb].
  destruct (10 * 1024 * 1024 <? Images.size f) eqn:E; [| reflexivity].
  apply Z.ltb_lt in E. unfold Images.fileSize_limit in Hsize. lia.
Qed.

Lemma X24_witness :
  Client.file_selected (Images.mimetype Sample.photo) (Images.size Sample.photo)
  = true.
Proof.
  apply (X24_form_accepts_what_multer_accepts Sample.photo);
    [reflexivity | discriminate].
Defined.

(** The converse fails: the form looks for [image] anywhere in the type. *)
Example form_accepts_more_than_multer :
  Client.file_selected "application/x-image" 2048 = true
  /\ Images.fileFilter (Images.mkFile "a.bin" "application/x-image" 2048)
     = Throw "Only image files are allowed!".
Proof. vm_compute. split; reflexivity. Qed.

(** ** The tags of the form, from the browser to the model *)

Lemma parse_chars_escape_char (c : ascii) (rest acc : string) (wide : bool) :
  Json.parse_chars (Json.escape_char c ++ rest) acc wide
  = Json.parse_chars rest (String c acc) wide.
Proof.
  destruct c as [[] [] [] [] [] [] [] []]; reflexivity.
Qed.

Lemma parse_chars_escape (s rest acc : string) :
  Json.parse_chars (Json.escape s ++ String (ascii_of_nat 34) rest) acc false
  = Some (Json.Text (Js.rev_string "" (Js.rev_string acc s)), rest).
Proof.
  revert acc. induction s as [|c s IH]; intros acc.
  - reflexivity.
  - cbn [Json.escape Js.rev_string]. rewrite append_assoc.
    rewrite parse_chars_escape_char. apply IH.
Qed.

Lemma parse_value_quote (fuel : nat) (s rest : string) :
  Json.parse_value (S fuel) (Json.quote s ++ rest)
  = Some (Json.JStr (Json.Text s), rest).
Proof.
  unfold Json.quote.
  change (String (ascii_of_nat 34) (Json.escape s ++ String (ascii_of_nat 34) "")
          ++ rest)
    with (String (ascii_of_nat 34)
            ((Json.escape s ++ String (ascii_of_nat 34) "") ++ rest)).
  rewrite append_assoc.
  change (String (ascii_of_nat 34) "" ++ rest)
    with (String (ascii_of_nat 34) rest).
  cbn [Json.parse_value Json.skip_ws].
  change (Json.is_ws (ascii_of_nat 34)) with false. cbv iota.
  change (Ascii.eqb (ascii_of_nat 34) "[") with false.
  change (Ascii.eqb (ascii_of_nat 34) "{") with false.
  change (Ascii.eqb (ascii_of_nat 34) (ascii_of_nat 34)) with true.
  cbv iota. rewrite parse_chars_escape.
  cbn [Js.rev_string]. now rewrite rev_string_involutive.
Qed.

Lemma parse_items_step (fuel : nat) (s : string) (acc : list Json.value) :
  Json.parse_items (S fuel) s acc
  = match Json.parse_value fuel s with
    | None => None
    | Some (v, r) =>
        match Json.skip_ws r with
        | String ","%char r' => Json.parse_items fuel r' (v :: acc)
        | String "]"%char r' => Some (Json.JArr (rev (v :: acc)), r')
        | _ => None
        end
    end.
Proof. reflexivity. Qed.

Lemma parse_items_quoted (l : list string) :
  forall (x : string) (fuel : nat) (acc : list Json.value) (rest : string),
    (length l + 2 <= fuel)%nat ->
    Json.parse_items fuel
      (String.concat "," (map Json.quote (x :: l)) ++ String "]" rest) acc
    = Some (Json.JArr (rev acc
                       ++ map (fun s => Json.JStr (Json.Text s)) (x :: l))%list,
            rest).
Proof.
  induction l as [|y l IH]; intros x fuel acc rest Hfuel.
  - destruct fuel as [|[|fuel]]; cbn [length] in Hfuel; try lia.
    rewrite parse_items_step. cbn [map String.concat].
    rewrite parse_value_quote.
    change (Json.skip_ws (String "]" rest)) with (String "]" rest).
    cbv iota. reflexivity.
  - destruct fuel as [|[|fuel]]; cbn [length] in Hfuel; try lia.
    rewrite parse_items_step.
    change (String.concat "," (map Json.quote (x :: y :: l)))
      with (Json.quote x ++ "," ++ String.concat "," (map Json.quote (y :: l))).
    rewrite !append_assoc. rewrite parse_value_quote.
    change ("," ++ String.concat "," (map Json.quote (y :: l)) ++ String "]" rest)
      with (String "," (String.concat "," (map Json.quote (y :: l))
                        ++ String "]" rest)).
    match goal with
    | |- context [Json.skip_ws (String "," ?r)] =>
        change (Json.skip_ws (String "," r)) with (String "," r)
    end.
    cbv iota. rewrite IH by (cbn [length]; lia).
    cbn [rev map]. now rewrite <- app_assoc.
Qed.

Lemma concat_quoted_length (l : list string) :
  (length l <= String.length (String.concat "," (map Json.quote l)))%nat.
Proof.
  induction l as [|x [|y l] IH].
  - cbn. lia.
  - cbn. lia.
  - change (String.concat "," (map Json.quote (x :: y :: l)))
      with (Json.quote x ++ "," ++ String.concat "," (map Json.quote (y :: l))).
    rewrite !length_append. cbn [length String.length] in *. lia.
Qed.

Lemma strings_of_texts (l : list string) :
  Json.strings_of (map (fun s => Json.JStr (Json.Text s)) l) = Some l.
Proof.
  induction l as [|x l IH]; [reflexivity |].
  cbn [map Json.strings_of]. now rewrite IH.
Qed.

(** [JSON.parse] undoes [JSON.stringify] on arrays of strings. *)
Lemma parse_stringify_strings (l : list string) :
  Json.parse (Json.stringify_strings l)
  = Some (Json.JArr (map (fun s => Json.JStr (Json.Text s)) l)).
Proof.
  unfold Json.parse, Json.stringify_strings.
  destruct l as [|x l]; [reflexivity |].
  set (body := String.concat "," (map Json.quote (x :: l))).
  change ("[" ++ body ++ "]") with (String "[" (body ++ String "]" "")).
  assert (Hlen : (length (x :: l) <= String.length body)%nat)
    by apply concat_quoted_length.
  cbn [String.length]. rewrite length_append.
  remember (2 * S (String.length body + String.length (String "]" "")) + 2)%nat
    as fuel eqn:Hfuel.
  destruct fuel as [|fuel]; [lia |].
  cbn [Json.parse_value].
  change (Json.skip_ws (String "[" (body ++ String "]" "")))
    with (String "[" (body ++ String "]" "")).
  cbv iota. change (Ascii.eqb "[" "[") with true. cbv iota.
  assert (Hhead : exists r, body ++ String "]" "" = String (ascii_of_nat 34) r).
  { subst body. destruct l as [|y l].
    - cbn [map String.concat]. unfold Json.quote. eexists. reflexivity.
    - change (String.concat "," (map Json.quote (x :: y :: l)))
        with (Json.quote x ++ "," ++ String.concat "," (map Json.quote (y :: l))).
      unfold Json.quote at 1. eexists. reflexivity. }
  destruct Hhead as [r Hr]. rewrite Hr.
  change (Json.skip_ws (String (ascii_of_nat 34) r))
    with (String (ascii_of_nat 34) r).
  cbv iota. rewrite <- Hr. subst body.
  rewrite parse_items_quoted by (cbn [length String.length] in *; lia).
  reflexivity.
Qed.

Lemma tags_field_truthy (t : string) :
  Js.truthy (Some (Client.tags_field t)) = true
  /\ Js.or_else (Some (Client.tags_field t)) "" = Client.tags_field t.
Proof. split; reflexivity. Qed.

Lemma trimEnd_idempotent (s : string) : Js.trimEnd (Js.trimEnd s) = Js.trimEnd s.
Proof.
  induction s as [|c s IH]; [reflexivity |].
  cbn [Js.trimEnd]. destruct (Js.trimEnd s) as [|a t] eqn:E.
  - destruct (Js.is_space c) eqn:Ec; [reflexivity |].
    cbn [Js.trimEnd]. now rewrite Ec.
  - change (Js.trimEnd (String c (String a t)))
      with (match Js.trimEnd (String a t) with
            | EmptyString =>
                if Js.is_space c then EmptyString else String c EmptyString
            | u => String c u
            end).
    now rewrite IH.
Qed.

Lemma trimStart_head (s : string) :
  match Js.trimStart s with
  | EmptyString => True
  | String c _ => Js.is_space c = false
  end.
Proof.
  induction s as [|c s IH]; [exact I |].
  cbn [Js.trimStart]. destruct (Js.is_space c) eqn:Ec; [exact IH | exact Ec].
Qed.

Lemma trimStart_trimEnd (s : string) :
  match s with
  | EmptyString => True
  | String c _ => Js.is_space c = false
  end ->
  Js.trimStart (Js.trimEnd s) = Js.trimEnd s.
Proof.
  destruct s as [|c s]; [reflexivity |]. intros Hc.
  cbn [Js.trimEnd].
  destruct (Js.trimEnd s); rewrite ?Hc; cbn [Js.trimStart]; now rewrite Hc.
Qed.

Lemma trim_idempotent (s : string) : Js.trim (Js.trim s) = Js.trim s.
Proof.
  unfold Js.trim.
  rewrite (trimStart_trimEnd (Js.trimStart s) (trimStart_head s)).
  apply trimEnd_idempotent.
Qed.

Lemma tagsArray_trimmed (t : string) :
  map Js.trim (Client.tagsArray t) = Client.tagsArray t.
Proof.
  unfold Client.tagsArray.
  induction (Js.split t ",") as [|x l IH]; [reflexivity |].
  cbn [map filter]. destruct (negb (String.eqb (Js.trim x) "")); [| exact IH].
  cbn [map]. now rewrite trim_idempotent, IH.
Qed.

(** X25.  The tags field the upload form sends always parses: for every
    text typed into the tags input, the handler of [POST /upload] goes on
    to make the image with exactly the array the form built, and never
    stops at the parser. *)
Theorem X25_form_tags_reach_the_model (sv : Services) (env : Env) (w : World)
    (owner : User.doc) (protocol host filename : string)
    (title description : option string) (t : string) :
  Images.post_upload_handler sv env w owner protocol host (Some filename)
    title description (Some (Client.tags_field t))
  = Images.create_image env w owner
      ((protocol ++ "://" ++ host) ++ "/uploads/" ++ filename)
      (Js.or_else title "") (Js.or_else description "")
      (Some (Client.tagsArray t)).
Proof.
  unfold Images.post_upload_handler.
  destruct (tags_field_truthy t) as [-> ->].
  unfold Client.tags_field. rewrite parse_stringify_strings.
  unfold Images.cast_tags, Json.as_string_array.
  now rewrite strings_of_texts.
Qed.

(** X26.  An image stored from the upload form carries the tags of the
    form in lower case: the pieces of the tags input between commas,
    trimmed, the empty ones left out. *)
Theorem X26_form_tags_are_stored_in_lower_case (sv : Services) (env : Env)
    (w w' : World) (owner : User.doc) (protocol host filename : string)
    (title description : option string) (t : string) (r : Response) :
  Images.post_upload_handler sv env w owner protocol host (Some filename)
    title description (Some (Client.tags_field t)) = (r, w') ->
  status r = 201 ->
  exists d,
    Db.Image_findById (images w') (fresh env) = Some d
    /\ Image.tags d = map Js.toLowerCase (Client.tagsArray t).
Proof.
  unfold Images.post_upload_handler.
  destruct (tags_field_truthy t) as [-> ->].
  unfold Client.tags_field. rewrite parse_stringify_strings.
  unfold Images.cast_tags, Json.as_string_array.
  rewrite strings_of_texts.
  intros H H201. apply create_image_201 in H. destruct H as [_ Hyes].
  destruct (Hyes H201) as [tl [d [Htl [Hd [_ [_ [Hfind _]]]]]]].
  injection Htl as <-. exists d. split; [exact Hfind |].
  subst d. destruct (pre_save_fields
                       (Image.create (fresh env) (now env)
                          ((protocol ++ "://" ++ host) ++ "/uploads/" ++ filename)
                          (Js.or_else title "") (Js.or_else description "")
                          (Client.tagsArray t) (User._id owner)))
    as [_ [_ [_ [_ [_ ->]]]]].
  cbn [Image.create Image.tags].
  rewrite <- (tagsArray_trimmed t) at 2. now rewrite map_map.
Qed.

Lemma X26_witness :
  exists d,
    Db.Image_findById
      (images (snd (Images.post_upload_handler Sample.services Sample.env
                      Sample.world Sample.bob "http" "localhost:5000"
                      (Some "3f2b8c1e.png") (Some "Cat") None
                      (Some (Client.tags_field " Cats, ,Pets ")))))
      (fresh Sample.env) = Some d
    /\ Image.tags d = map Js.toLowerCase (Client.tagsArray " Cats, ,Pets ").
Proof.
  apply (X26_form_tags_are_stored_in_lower_case Sample.services Sample.env
           Sample.world _ Sample.bob "http" "localhost:5000" "3f2b8c1e.png"
           (Some "Cat") None " Cats, ,Pets "
           (fst (Images.post_upload_handler Sample.services Sample.env
                   Sample.world Sample.bob "http" "localhost:5000"
                   (Some "3f2b8c1e.png") (Some "Cat") None
                   (Some (Client.tags_field " Cats, ,Pets ")))));
    reflexivity.
Defined.
